(** * Voice-chat recorder: segmentation, dispatch queue, capture gate and
      recording cache

    A shallow embedding of [audio_recorder.py] (class [AudioRecorder]), of the
    helper [VADProcessor.stereo_to_mono] of [vad_processor.py] and of the
    result callback [VoiceChatSystem.on_recognition_result] of [main.py].

    Modelling conventions.
    - A Python [bytes] object is a [list byte]; a [str] is a [string].
    - Python floats (durations, wall-clock time, amplitude) are exact
      rationals [Q]; IEEE rounding is outside the model.
    - The object [self] is the record [AudioRecorder]; a method is a function
      that takes the record and returns the updated one.
    - A [dict] is an association list in insertion order with unique keys.
    - The recording-cache directory is the finite set of the file names it
      holds.
    - What the code asks of the outside world on each call (the verdict of
      the voice-activity detector, the peak amplitude, [time.time()], the
      recogniser's answer) is an argument of the function that makes the
      call; the hash function, the case mapping of [str.lower] and the
      failures of the file system are the fields of the class [External].
    - [print] appends a [Message] to [console]. *)

From Stdlib Require Import ZArith QArith Ascii String List Lia Lqa Bool.
From Stdlib.Init Require Import Byte.
From Stdlib Require Import Permutation Sorted.
From stdpp Require Import gmap strings pretty.

Open Scope string_scope.
Open Scope list_scope.
Open Scope Z_scope.

(** ** Python helpers *)

Definition bytes : Type := list byte.

(** [a / b] on Python ints: true division, [ZeroDivisionError] on [b = 0]. *)
Definition py_truediv (a b : Z) : option Q :=
  if b =? 0 then None else Some (inject_Z a / inject_Z b)%Q.

(** [x > y] on rationals. *)
Definition Qgt_bool (x y : Q) : bool := negb (Qle_bool x y).

(** [len(x)] as a Python int. *)
Definition len {A : Type} (l : list A) : Z := Z.of_nat (length l).

Definition is_nil {A : Type} (l : list A) : bool :=
  match l with
  | [] => true
  | _ :: _ => false
  end.

(** [a in b] on strings: [a] occurs in [b] as a contiguous substring. *)
Fixpoint str_in (a b : string) : bool :=
  if String.prefix a b then true
  else match b with
       | EmptyString => false
       | String _ b' => str_in a b'
       end.

(** [s[:n]] on strings. *)
Fixpoint str_take (n : nat) (s : string) : string :=
  match n, s with
  | S n', String c s' => String c (str_take n' s')
  | _, _ => EmptyString
  end.

Definition is_space (c : ascii) : bool :=
  let n := nat_of_ascii c in
  ((9 <=? n) && (n <=? 13) || (28 <=? n) && (n <=? 32))%nat.

(** Truth value of [s.strip()]: some character of [s] is not white space. *)
Fixpoint strip_truthy (s : string) : bool :=
  match s with
  | EmptyString => false
  | String c s' => negb (is_space c) || strip_truthy s'
  end.

(** Truth value of [text and text.strip()] for [text] a [str] or [None]. *)
Definition text_truthy (t : option string) : bool :=
  match t with
  | Some s => strip_truthy s
  | None => false
  end.

(** Truth value of a [str] or [None]. *)
Definition str_truthy (t : option string) : bool :=
  match t with
  | Some EmptyString | None => false
  | Some _ => true
  end.

(** [Path(d) / f], as a string. *)
Definition path_join (d f : string) : string := d +:+ "/" +:+ f.

(** *** Dictionaries in insertion order *)

Section Dict.
Context {V : Type}.

Fixpoint dict_get (k : string) (d : list (string * V)) : option V :=
  match d with
  | [] => None
  | (k', v) :: d' => if String.eqb k k' then Some v else dict_get k d'
  end.

(** [d[k] = v]: an existing key keeps its position, a new one goes last. *)
Fixpoint dict_set (k : string) (v : V) (d : list (string * V)) : list (string * V) :=
  match d with
  | [] => [(k, v)]
  | (k', v') :: d' =>
      if String.eqb k k' then (k, v) :: d' else (k', v') :: dict_set k v d'
  end.

(** [del d[k]] for a key that is present. *)
Fixpoint dict_del (k : string) (d : list (string * V)) : list (string * V) :=
  match d with
  | [] => []
  | (k', v') :: d' =>
      if String.eqb k k' then d' else (k', v') :: dict_del k d'
  end.

Definition dict_keys (d : list (string * V)) : list string := map fst d.
End Dict.

(** *** [sorted(items, key=...)]: a stable sort on an integer key *)

Section Sorted.
Context {A : Type} (key : A -> Z).

(** [x] comes from an earlier position than every element of [l]: it goes
    before the elements with the same key. *)
Fixpoint insert_by (x : A) (l : list A) : list A :=
  match l with
  | [] => [x]
  | y :: l' => if key x <=? key y then x :: y :: l' else y :: insert_by x l'
  end.

Definition sorted_by (l : list A) : list A := fold_right insert_by [] l.
End Sorted.

(** ** Data model *)

(** The constructor arguments of [AudioRecorder] that are kept as they are. *)
Record Config := mkConfig {
  recording_cache_dir : string;
  samplerate : Z;
  channels : Z;
  blocksize : Z;
  silence_timeout : Q;
  min_speech_duration : Q;
  asr_queue_size : Z;
  save_recordings : bool;
  max_cache_files : Z
}.

(** The [SpeechRecognizer] object, as far as the recorder looks into it. *)
Record SpeechRecognizer := mkSpeechRecognizer { model_loaded : bool }.

(** One row of [recording_cache_index], with the keys that
    [_save_recording_file] writes (key [size] is [size_bytes] here). *)
Record FileInfo := mkFileInfo {
  filename : string;
  created : Z;
  text : string;
  duration : Q;
  speech_duration : Q;
  size_bytes : Z;
  recognition_success : bool;
  contains_silence : bool
}.

(** The tuple [(mono_audio, audio_length, actual_speech_duration)]. *)
Definition AudioItem : Type := bytes * Q * Q.

Record RecordingStats := mkRecordingStats {
  total_recordings : Z;
  successful_recognitions : Z;
  failed_recognitions : Z;
  short_recordings : Z;
  cached_files : Z
}.

Record AsrStats := mkAsrStats { queued : Z; processed : Z; dropped : Z }.

Inductive ExcClass :=
  | ZeroDivisionError | IndexError | AttributeError | OSError | TypeError
  | RuntimeError.

(** An exception object: its class and [str(e)]. *)
Record PyException := mkExc { exc_class : ExcClass; exc_message : string }.

(** What the recorder prints. [CallResume] is not printed by the source: it
    marks one invocation of [resume_recording], so that calls can be
    counted. *)
Inductive Message :=
  | MsgStartRecording
  | MsgStandby (amplitude : Q) (speech_chunks total_chunks : Z)
  | MsgTooShort (speech min : Q)
  | MsgQueueFull (audio_length : Q)
  | MsgDebugWavSaved (audio_length : Q)
  | MsgSegmentsFailed (e : PyException)
  | MsgCallbackError (e : PyException)
  | MsgSaveFailed (e : PyException)
  | MsgRecordingDone (audio_length : Q) (file : string)
  | MsgRecognized (text : string)
  | MsgRecognitionFailed (file : string) (audio_length : Q)
  | MsgWorkerError (e : PyException)
  | MsgWorkerFatal
  | CallResume.

Record AudioRecorder := mkAudioRecorder {
  config : Config;
  enable_asr : bool;
  speech_recognizer : option SpeechRecognizer;
  recording_cache_index : list (string * FileInfo);
  cache_files : gset string;
  recording_active : bool;
  is_paused : bool;
  audio_buffer : list bytes;
  last_active_time : Q;
  recording_stats : RecordingStats;
  speech_segments : list bytes;
  is_recording_speech : bool;
  speech_start_time : option Q;
  is_processing : bool;
  actual_speech_duration : Q;
  show_standby_status : bool;
  consecutive_speech_count : Z;
  asr_queue : list (option AudioItem);
  asr_consumer_active : bool;
  asr_stats : AsrStats;
  console : list Message
}.

(** Assignments [self.field = v]. *)

Definition set_enable_asr (v : bool) (r : AudioRecorder) : AudioRecorder :=
  mkAudioRecorder (config r) v (speech_recognizer r) (recording_cache_index r)
    (cache_files r) (recording_active r) (is_paused r) (audio_buffer r)
    (last_active_time r) (recording_stats r) (speech_segments r)
    (is_recording_speech r) (speech_start_time r) (is_processing r)
    (actual_speech_duration r) (show_standby_status r)
    (consecutive_speech_count r) (asr_queue r) (asr_consumer_active r)
    (asr_stats r) (console r).
Definition set_speech_recognizer (v : option SpeechRecognizer) (r : AudioRecorder) : AudioRecorder :=
  mkAudioRecorder (config r) (enable_asr r) v (recording_cache_index r)
    (cache_files r) (recording_active r) (is_paused r) (audio_buffer r)
    (last_active_time r) (recording_stats r) (speech_segments r)
    (is_recording_speech r) (speech_start_time r) (is_processing r)
    (actual_speech_duration r) (show_standby_status r)
    (consecutive_speech_count r) (asr_queue r) (asr_consumer_active r)
    (asr_stats r) (console r).
Definition set_recording_cache_index (v : list (string * FileInfo)) (r : AudioRecorder) : AudioRecorder :=
  mkAudioRecorder (config r) (enable_asr r) (speech_recognizer r) v
    (cache_files r) (recording_active r) (is_paused r) (audio_buffer r)
    (last_active_time r) (recording_stats r) (speech_segments r)
    (is_recording_speech r) (speech_start_time r) (is_processing r)
    (actual_speech_duration r) (show_standby_status r)
    (consecutive_speech_count r) (asr_queue r) (asr_consumer_active r)
    (asr_stats r) (console r).
Definition set_cache_files (v : gset string) (r : AudioRecorder) : AudioRecorder :=
  mkAudioRecorder (config r) (enable_asr r) (speech_recognizer r)
    (recording_cache_index r) v (recording_active r) (is_paused r)
    (audio_buffer r) (last_active_time r) (recording_stats r)
    (speech_segments r) (is_recording_speech r) (speech_start_time r)
    (is_processing r) (actual_speech_duration r) (show_standby_status r)
    (consecutive_speech_count r) (asr_queue r) (asr_consumer_active r)
    (asr_stats r) (console r).
Definition set_recording_active (v : bool) (r : AudioRecorder) : AudioRecorder :=
  mkAudioRecorder (config r) (enable_asr r) (speech_recognizer r)
    (recording_cache_index r) (cache_files r) v (is_paused r) (audio_buffer r)
    (last_active_time r) (recording_stats r) (speech_segments r)
    (is_recording_speech r) (speech_start_time r) (is_processing r)
    (actual_speech_duration r) (show_standby_status r)
    (consecutive_speech_count r) (asr_queue r) (asr_consumer_active r)
    (asr_stats r) (console r).
Definition set_is_paused (v : bool) (r : AudioRecorder) : AudioRecorder :=
  mkAudioRecorder (config r) (enable_asr r) (speech_recognizer r)
    (recording_cache_index r) (cache_files r) (recording_active r) v
    (audio_buffer r) (last_active_time r) (recording_stats r)
    (speech_segments r) (is_recording_speech r) (speech_start_time r)
    (is_processing r) (actual_speech_duration r) (show_standby_status r)
    (consecutive_speech_count r) (asr_queue r) (asr_consumer_active r)
    (asr_stats r) (console r).
Definition set_audio_buffer (v : list bytes) (r : AudioRecorder) : AudioRecorder :=
  mkAudioRecorder (config r) (enable_asr r) (speech_recognizer r)
    (recording_cache_index r) (cache_files r) (recording_active r)
    (is_paused r) v (last_active_time r) (recording_stats r)
    (speech_segments r) (is_recording_speech r) (speech_start_time r)
    (is_processing r) (actual_speech_duration r) (show_standby_status r)
    (consecutive_speech_count r) (asr_queue r) (asr_consumer_active r)
    (asr_stats r) (console r).
Definition set_last_active_time (v : Q) (r : AudioRecorder) : AudioRecorder :=
  mkAudioRecorder (config r) (enable_asr r) (speech_recognizer r)
    (recording_cache_index r) (cache_files r) (recording_active r)
    (is_paused r) (audio_buffer r) v (recording_stats r) (speech_segments r)
    (is_recording_speech r) (speech_start_time r) (is_processing r)
    (actual_speech_duration r) (show_standby_status r)
    (consecutive_speech_count r) (asr_queue r) (asr_consumer_active r)
    (asr_stats r) (console r).
Definition set_recording_stats (v : RecordingStats) (r : AudioRecorder) : AudioRecorder :=
  mkAudioRecorder (config r) (enable_asr r) (speech_recognizer r)
    (recording_cache_index r) (cache_files r) (recording_active r)
    (is_paused r) (audio_buffer r) (last_active_time r) v (speech_segments r)
    (is_recording_speech r) (speech_start_time r) (is_processing r)
    (actual_speech_duration r) (show_standby_status r)
    (consecutive_speech_count r) (asr_queue r) (asr_consumer_active r)
    (asr_stats r) (console r).
Definition set_speech_segments (v : list bytes) (r : AudioRecorder) : AudioRecorder :=
  mkAudioRecorder (config r) (enable_asr r) (speech_recognizer r)
    (recording_cache_index r) (cache_files r) (recording_active r)
    (is_paused r) (audio_buffer r) (last_active_time r) (recording_stats r) v
    (is_recording_speech r) (speech_start_time r) (is_processing r)
    (actual_speech_duration r) (show_standby_status r)
    (consecutive_speech_count r) (asr_queue r) (asr_consumer_active r)
    (asr_stats r) (console r).
Definition set_is_recording_speech (v : bool) (r : AudioRecorder) : AudioRecorder :=
  mkAudioRecorder (config r) (enable_asr r) (speech_recognizer r)
    (recording_cache_index r) (cache_files r) (recording_active r)
    (is_paused r) (audio_buffer r) (last_active_time r) (recording_stats r)
    (speech_segments r) v (speech_start_time r) (is_processing r)
    (actual_speech_duration r) (show_standby_status r)
    (consecutive_speech_count r) (asr_queue r) (asr_consumer_active r)
    (asr_stats r) (console r).
Definition set_speech_start_time (v : option Q) (r : AudioRecorder) : AudioRecorder :=
  mkAudioRecorder (config r) (enable_asr r) (speech_recognizer r)
    (recording_cache_index r) (cache_files r) (recording_active r)
    (is_paused r) (audio_buffer r) (last_active_time r) (recording_stats r)
    (speech_segments r) (is_recording_speech r) v (is_processing r)
    (actual_speech_duration r) (show_standby_status r)
    (consecutive_speech_count r) (asr_queue r) (asr_consumer_active r)
    (asr_stats r) (console r).
Definition set_is_processing (v : bool) (r : AudioRecorder) : AudioRecorder :=
  mkAudioRecorder (config r) (enable_asr r) (speech_recognizer r)
    (recording_cache_index r) (cache_files r) (recording_active r)
    (is_paused r) (audio_buffer r) (last_active_time r) (recording_stats r)
    (speech_segments r) (is_recording_speech r) (speech_start_time r) v
    (actual_speech_duration r) (show_standby_status r)
    (consecutive_speech_count r) (asr_queue r) (asr_consumer_active r)
    (asr_stats r) (console r).
Definition set_actual_speech_duration (v : Q) (r : AudioRecorder) : AudioRecorder :=
  mkAudioRecorder (config r) (enable_asr r) (speech_recognizer r)
    (recording_cache_index r) (cache_files r) (recording_active r)
    (is_paused r) (audio_buffer r) (last_active_time r) (recording_stats r)
    (speech_segments r) (is_recording_speech r) (speech_start_time r)
    (is_processing r) v (show_standby_status r) (consecutive_speech_count r)
    (asr_queue r) (asr_consumer_active r) (asr_stats r) (console r).
Definition set_show_standby_status (v : bool) (r : AudioRecorder) : AudioRecorder :=
  mkAudioRecorder (config r) (enable_asr r) (speech_recognizer r)
    (recording_cache_index r) (cache_files r) (recording_active r)
    (is_paused r) (audio_buffer r) (last_active_time r) (recording_stats r)
    (speech_segments r) (is_recording_speech r) (speech_start_time r)
    (is_processing r) (actual_speech_duration r) v
    (consecutive_speech_count r) (asr_queue r) (asr_consumer_active r)
    (asr_stats r) (console r).
Definition set_consecutive_speech_count (v : Z) (r : AudioRecorder) : AudioRecorder :=
  mkAudioRecorder (config r) (enable_asr r) (speech_recognizer r)
    (recording_cache_index r) (cache_files r) (recording_active r)
    (is_paused r) (audio_buffer r) (last_active_time r) (recording_stats r)
    (speech_segments r) (is_recording_speech r) (speech_start_time r)
    (is_processing r) (actual_speech_duration r) (show_standby_status r) v
    (asr_queue r) (asr_consumer_active r) (asr_stats r) (console r).
Definition set_asr_queue (v : list (option AudioItem)) (r : AudioRecorder) : AudioRecorder :=
  mkAudioRecorder (config r) (enable_asr r) (speech_recognizer r)
    (recording_cache_index r) (cache_files r) (recording_active r)
    (is_paused r) (audio_buffer r) (last_active_time r) (recording_stats r)
    (speech_segments r) (is_recording_speech r) (speech_start_time r)
    (is_processing r) (actual_speech_duration r) (show_standby_status r)
    (consecutive_speech_count r) v (asr_consumer_active r) (asr_stats r)
    (console r).
Definition set_asr_consumer_active (v : bool) (r : AudioRecorder) : AudioRecorder :=
  mkAudioRecorder (config r) (enable_asr r) (speech_recognizer r)
    (recording_cache_index r) (cache_files r) (recording_active r)
    (is_paused r) (audio_buffer r) (last_active_time r) (recording_stats r)
    (speech_segments r) (is_recording_speech r) (speech_start_time r)
    (is_processing r) (actual_speech_duration r) (show_standby_status r)
    (consecutive_speech_count r) (asr_queue r) v (asr_stats r) (console r).
Definition set_asr_stats (v : AsrStats) (r : AudioRecorder) : AudioRecorder :=
  mkAudioRecorder (config r) (enable_asr r) (speech_recognizer r)
    (recording_cache_index r) (cache_files r) (recording_active r)
    (is_paused r) (audio_buffer r) (last_active_time r) (recording_stats r)
    (speech_segments r) (is_recording_speech r) (speech_start_time r)
    (is_processing r) (actual_speech_duration r) (show_standby_status r)
    (consecutive_speech_count r) (asr_queue r) (asr_consumer_active r) v
    (console r).
Definition set_console (v : list Message) (r : AudioRecorder) : AudioRecorder :=
  mkAudioRecorder (config r) (enable_asr r) (speech_recognizer r)
    (recording_cache_index r) (cache_files r) (recording_active r)
    (is_paused r) (audio_buffer r) (last_active_time r) (recording_stats r)
    (speech_segments r) (is_recording_speech r) (speech_start_time r)
    (is_processing r) (actual_speech_duration r) (show_standby_status r)
    (consecutive_speech_count r) (asr_queue r) (asr_consumer_active r)
    (asr_stats r) v.

(** The result of a method that can raise: the recorder as the method left
    it, and the exception if there is one. *)
Inductive Outcome :=
  | Done (r : AudioRecorder)
  | Raised (e : PyException) (r : AudioRecorder).

(** What one run of [process_audio_buffer] learns from outside:
    [check_vad_activity(raw_audio)], [calculate_audio_amplitude(raw_audio)]
    and [time.time()]. *)
Record Observation := mkObservation {
  vad_result : bool;
  speech_chunks : Z;
  total_chunks : Z;
  amplitude : Q;
  current_time : Q
}.

(** The collaborators that are the same on every call. *)
Class External := mkExternal {
  (** [hashlib.md5(data).hexdigest()] *)
  md5_hexdigest : bytes -> string;
  (** [str.lower] *)
  lower : string -> string;
  (** [Path.unlink] raises on this file of the cache directory *)
  unlink_raises : string -> bool;
  (** [SpeechRecognizer.save_wav_file] raises on this file *)
  wav_write_raises : string -> bool
}.

(** ** [VADProcessor.stereo_to_mono] *)

(** [audio_array.reshape(-1, 2)[:, 0].tobytes()] on 16-bit samples: the two
    bytes of the left sample of every frame of four bytes; [None] where
    [reshape] raises. *)
Fixpoint left_channel (data : bytes) : option bytes :=
  match data with
  | [] => Some []
  | l0 :: l1 :: _ :: _ :: rest =>
      match left_channel rest with
      | Some m => Some (l0 :: l1 :: m)
      | None => None
      end
  | _ => None
  end.

(** [np.frombuffer(data, dtype=np.int16)] raises on an odd number of bytes;
    every exception is caught and the input returned. *)
Definition stereo_to_mono (channels : Z) (stereo_data : bytes) : bytes :=
  if Nat.even (length stereo_data) then
    if channels =? 2 then
      match left_channel stereo_data with
      | Some mono => mono
      | None => stereo_data
      end
    else stereo_data
  else stereo_data.

(** ** The recorder *)

Section Recorder.
Context `{External}.

Definition print (m : Message) (r : AudioRecorder) : AudioRecorder :=
  set_console (console r ++ [m]) r.

(** *** Capture gate *)

Definition pause_recording (r : AudioRecorder) : AudioRecorder :=
  if negb (is_paused r) then
    set_show_standby_status false (set_is_paused true r)
  else r.

(** The first line records the call; the rest is the method. *)
Definition resume_recording (r : AudioRecorder) : AudioRecorder :=
  let r := print CallResume r in
  if is_paused r then
    set_show_standby_status true (set_is_paused false r)
  else r.

Definition _ensure_recording_resumed (r : AudioRecorder) : AudioRecorder :=
  if is_paused r then resume_recording r else r.

(** *** Recording cache *)

Definition _get_recording_hash (audio_data : bytes) : string :=
  md5_hexdigest audio_data.

(** The body of the loop of [_cleanup_recording_cache]: the [del] is
    skipped when [unlink] raises, and the exception is swallowed. *)
Definition evict_entry (hash_key : string) (file_info : FileInfo)
    (r : AudioRecorder) : AudioRecorder :=
  if bool_decide (filename file_info ∈ cache_files r) then
    if unlink_raises (filename file_info) then r
    else
      set_recording_cache_index
        (dict_del hash_key (recording_cache_index r))
        (set_cache_files (cache_files r ∖ {[filename file_info]}) r)
  else
    set_recording_cache_index
      (dict_del hash_key (recording_cache_index r)) r.

(** [for i in range(n): hash_key, file_info = sorted_items[i]; ...] *)
Fixpoint evict_oldest (n : nat) (sorted_items : list (string * FileInfo))
    (r : AudioRecorder) : Outcome :=
  match n with
  | O => Done r
  | S n' =>
      match sorted_items with
      | [] => Raised (mkExc IndexError "list index out of range") r
      | (hash_key, file_info) :: rest =>
          evict_oldest n' rest (evict_entry hash_key file_info r)
      end
  end.

(** The rows carry every key, so [file_info['filename']] and
    [x[1].get('created', 0)] find theirs. The closing
    [_save_recording_cache_index] writes the index file and changes nothing
    in the recorder. An [IndexError] leaves through the caller. *)
Definition _cleanup_recording_cache (r : AudioRecorder) : Outcome :=
  if len (recording_cache_index r) <=? max_cache_files (config r) then Done r
  else
    let sorted_items :=
      sorted_by (fun x => created (snd x)) (recording_cache_index r) in
    let files_to_remove :=
      len (recording_cache_index r) - max_cache_files (config r) in
    evict_oldest (Z.to_nat files_to_remove) sorted_items r.

Definition recording_filename (timestamp : Z) (audio_hash : string) : string :=
  "rec_" +:+ pretty timestamp +:+ "_" +:+ str_take 8 audio_hash +:+ ".wav".

(** [SpeechRecognizer.save_wav_file] on a file of the cache directory. *)
Definition save_wav_file (fname : string) (r : AudioRecorder) : Outcome :=
  if wav_write_raises fname then
    Raised (mkExc OSError "cannot write the WAV file") r
  else Done (set_cache_files ({[fname]} ∪ cache_files r) r).

Definition count_recording (recognized_text : option string)
    (s : RecordingStats) (n : Z) : RecordingStats :=
  mkRecordingStats (total_recordings s + 1)
    (if str_truthy recognized_text then successful_recognitions s + 1
     else successful_recognitions s)
    (failed_recognitions s) (short_recordings s) n.

(** [timestamp] is [int(time.time())]. The result is the recorder and the
    returned path, [None] when nothing was saved. *)
Definition _save_recording_file (audio_data : bytes)
    (recognized_text : option string) (timestamp : Z) (r : AudioRecorder)
    : AudioRecorder * option string :=
  if negb (save_recordings (config r)) then (r, None)
  else
    let audio_hash := _get_recording_hash audio_data in
    let fname := recording_filename timestamp audio_hash in
    let file_path := path_join (recording_cache_dir (config r)) fname in
    let saved :=
      match speech_recognizer r with
      | Some _ => save_wav_file fname r
      | None => Done r
      end in
    let result :=
      match saved with
      | Raised e r => Raised e r
      | Done r =>
          match py_truediv (len audio_data) (samplerate (config r) * 2) with
          | None => Raised (mkExc ZeroDivisionError "division by zero") r
          | Some actual_duration =>
              let file_info :=
                mkFileInfo fname timestamp
                  (match recognized_text with
                   | Some (String c s) => String c s
                   | _ => "未识别"
                   end)
                  actual_duration (actual_speech_duration r)
                  (len audio_data)
                  (match recognized_text with Some _ => true | None => false end)
                  true in
              let r :=
                set_recording_cache_index
                  (dict_set audio_hash file_info (recording_cache_index r)) r in
              match _cleanup_recording_cache r with
              | Raised e r => Raised e r
              | Done r =>
                  Done (set_recording_stats
                          (count_recording recognized_text (recording_stats r)
                             (len (recording_cache_index r))) r)
              end
          end
      end in
    match result with
    | Done r => (r, Some file_path)
    | Raised e r => (print (MsgSaveFailed e) r, None)
    end.

(** One element of the list that [find_recording_by_text] returns. *)
Record Found := mkFound {
  found_hash : string;
  found_file_path : string;
  found_text : string;
  found_created : Z;
  found_duration : Q
}.

(** The loop of [find_recording_by_text] over [items()], with the
    accumulator [results]. *)
Fixpoint find_loop (query : string) (r : AudioRecorder)
    (items : list (string * FileInfo)) (results : list Found) : list Found :=
  match items with
  | [] => results
  | (hash_key, file_info) :: rest =>
      let results :=
        if str_in (lower query) (lower (text file_info)) then
          if bool_decide (filename file_info ∈ cache_files r) then
            results ++
              [mkFound hash_key
                 (path_join (recording_cache_dir (config r)) (filename file_info))
                 (text file_info) (created file_info) (duration file_info)]
          else results
        else results in
      find_loop query r rest results
  end.

Definition find_recording_by_text (query : string) (r : AudioRecorder)
    : list Found :=
  find_loop query r (recording_cache_index r) [].

(** *** Dispatch queue *)

(** [queue.Queue.put_nowait]: [None] stands for [queue.Full]. A queue
    built with [maxsize <= 0] is unbounded. *)
Definition put_nowait {A : Type} (maxsize : Z) (q : list A) (x : A)
    : option (list A) :=
  if (0 <? maxsize) && (maxsize <=? len q) then None else Some (q ++ [x]).

Definition count_queued (s : AsrStats) : AsrStats :=
  mkAsrStats (queued s + 1) (processed s) (dropped s).

Definition count_processed (s : AsrStats) : AsrStats :=
  mkAsrStats (queued s) (processed s + 1) (dropped s).

Definition count_dropped (s : AsrStats) : AsrStats :=
  mkAsrStats (queued s) (processed s) (dropped s + 1).

(** The inner [try: put_nowait ... except queue.Full: ...] of
    [process_speech_segments]. *)
Definition enqueue_or_drop (audio_item : AudioItem) (r : AudioRecorder)
    : AudioRecorder :=
  match put_nowait (asr_queue_size (config r)) (asr_queue r) (Some audio_item) with
  | Some q => set_asr_stats (count_queued (asr_stats r)) (set_asr_queue q r)
  | None =>
      print (MsgQueueFull (snd (fst audio_item)))
        (set_asr_stats (count_dropped (asr_stats r)) r)
  end.

(** The [try] block of [process_speech_segments]. In the branch without
    recognition the WAV file goes to the working directory, which is not
    modelled: only the message is kept. *)
Definition dispatch_segments (r : AudioRecorder) : Outcome :=
  let combined_audio := concat (speech_segments r) in
  let mono_audio := stereo_to_mono (channels (config r)) combined_audio in
  match py_truediv (len mono_audio) (samplerate (config r) * 2) with
  | None => Raised (mkExc ZeroDivisionError "division by zero") r
  | Some audio_length =>
      if enable_asr r && bool_decide (is_Some (speech_recognizer r)) then
        let audio_item := (mono_audio, audio_length, actual_speech_duration r) in
        Done (set_speech_segments [] (enqueue_or_drop audio_item r))
      else
        match speech_recognizer r with
        | None =>
            Raised (mkExc AttributeError
                      "'NoneType' object has no attribute 'save_wav_file'") r
        | Some _ =>
            Done (set_speech_segments [] (print (MsgDebugWavSaved audio_length) r))
        end
  end.

Definition process_speech_segments (r : AudioRecorder) : AudioRecorder :=
  if is_nil (speech_segments r) || is_processing r then r
  else
    let r := set_is_processing true r in
    let r :=
      match dispatch_segments r with
      | Done r => r
      | Raised e r => print (MsgSegmentsFailed e) r
      end in
    set_is_processing false r.

(** *** Segmentation state machine *)

Definition amplitude_threshold : Q := 1 # 10.

Definition speech_confirmation_threshold : Z := 2.

(** [vad_result and amplitude > amplitude_threshold] *)
Definition is_speech_candidate (o : Observation) : bool :=
  vad_result o && Qgt_bool (amplitude o) amplitude_threshold.

(** [process_audio_buffer] either returns early or runs on to the
    end-of-utterance check. *)
Inductive Flow :=
  | Returned (r : AudioRecorder)
  | Running (r : AudioRecorder).

(** The [if vad_result and amplitude > amplitude_threshold: ... else: ...]
    of [process_audio_buffer]. The callbacks [on_speech_detected] and
    [on_silence_detected] are those of [main.py], which do nothing. *)
Definition classify_window (raw_audio : bytes) (o : Observation)
    (r : AudioRecorder) : Flow :=
  if is_speech_candidate o then
    let r := set_consecutive_speech_count (consecutive_speech_count r + 1) r in
    let confirmed :=
      if negb (is_recording_speech r) then
        if speech_confirmation_threshold <=? consecutive_speech_count r then
          Some (print MsgStartRecording
                  (set_show_standby_status false
                     (set_actual_speech_duration 0%Q
                        (set_speech_segments []
                           (set_speech_start_time (Some (current_time o))
                              (set_is_recording_speech true r))))))
        else None
      else Some r in
    match confirmed with
    | None => Returned r
    | Some r =>
        let r := set_last_active_time (current_time o) r in
        let r := set_speech_segments (speech_segments r ++ [raw_audio]) r in
        Running (set_actual_speech_duration
                   (actual_speech_duration r + (3 # 10))%Q r)
    end
  else
    let r := set_consecutive_speech_count 0 r in
    let r :=
      if negb (is_recording_speech r) && show_standby_status r then
        print (MsgStandby (amplitude o) (speech_chunks o) (total_chunks o)) r
      else r in
    Running
      (if is_recording_speech r then
         set_speech_segments (speech_segments r ++ [raw_audio]) r
       else r).

(** The test that ends an utterance. *)
Definition silence_elapsed (o : Observation) (r : AudioRecorder) : bool :=
  is_recording_speech r
  && Qgt_bool (current_time o - last_active_time r)%Q (silence_timeout (config r))
  && negb (is_processing r).

Definition count_short (s : RecordingStats) : RecordingStats :=
  mkRecordingStats (total_recordings s) (successful_recognitions s)
    (failed_recognitions s) (short_recordings s + 1) (cached_files s).

(** The [if (self.is_recording_speech and ...): ...] that closes
    [process_audio_buffer]. *)
Definition end_of_utterance_check (o : Observation) (r : AudioRecorder)
    : AudioRecorder :=
  if silence_elapsed o r then
    let r :=
      if Qle_bool (min_speech_duration (config r)) (actual_speech_duration r) then
        process_speech_segments
          (set_show_standby_status false (set_is_paused true r))
      else
        set_speech_segments []
          (print (MsgTooShort (actual_speech_duration r)
                    (min_speech_duration (config r)))
             (set_recording_stats (count_short (recording_stats r)) r)) in
    let r :=
      set_actual_speech_duration 0%Q
        (set_speech_start_time None (set_is_recording_speech false r)) in
    if negb (is_paused r) then set_show_standby_status true r else r
  else r.

Definition process_audio_buffer (o : Observation) (r : AudioRecorder)
    : AudioRecorder :=
  if is_paused r then r
  else
    let raw_audio := concat (audio_buffer r) in
    match classify_window raw_audio o r with
    | Returned r => r
    | Running r => set_audio_buffer [] (end_of_utterance_check o r)
    end.

(** [audio_data] is the block after its conversion to 16-bit samples;
    [o] is consulted only if the buffer is processed. *)
Definition audio_callback (audio_data : bytes) (o : Observation)
    (r : AudioRecorder) : AudioRecorder :=
  if is_paused r then set_audio_buffer [] r
  else if recording_active r then
    let r := set_audio_buffer (audio_buffer r ++ [audio_data]) r in
    match py_truediv (len (audio_buffer r) * blocksize (config r))
            (samplerate (config r)) with
    | None =>
        print (MsgCallbackError (mkExc ZeroDivisionError "division by zero")) r
    | Some buffer_duration =>
        if Qle_bool (3 # 10) buffer_duration then process_audio_buffer o r
        else r
    end
  else r.

(** *** Recognition worker *)

(** The callable stored in [on_recognition_result]: whether its signature
    has the keyword [recording_file], and what a call does. The second
    argument of [cb_call] is the keyword argument, [None] when the call
    passes none or passes the value [None]. *)
Record Callback := mkCallback {
  cb_accepts_recording_file : bool;
  cb_call : string -> option string -> AudioRecorder -> Outcome
}.

(** [try: cb(text, recording_file=f) except TypeError: cb(text)] *)
Definition call_on_recognition_result (cb : Callback) (recognized_text : string)
    (recording_file : option string) (r : AudioRecorder) : Outcome :=
  let first :=
    if cb_accepts_recording_file cb then
      cb_call cb recognized_text recording_file r
    else
      Raised (mkExc TypeError "got an unexpected keyword argument 'recording_file'") r in
  match first with
  | Done r => Done r
  | Raised e r =>
      match exc_class e with
      | TypeError => cb_call cb recognized_text None r
      | _ => Raised e r
      end
  end.

(** What one turn of the worker learns from outside:
    [recognize_from_memory(audio_data)] and [int(time.time())]. *)
Record Recognition := mkRecognition {
  recognized_text : option string;
  save_time : Z
}.

Inductive WorkerStatus := Looping | Exited.

Definition count_failed (s : RecordingStats) : RecordingStats :=
  mkRecordingStats (total_recordings s) (successful_recognitions s)
    (failed_recognitions s + 1) (short_recordings s) (cached_files s).

(** ["memory" in str(e).lower() or "model" in str(e).lower()] *)
Definition is_fatal (e : PyException) : bool :=
  str_in "memory" (lower (exc_message e)) || str_in "model" (lower (exc_message e)).

(** The statements of the [try] block of the worker once an item has been
    taken from the queue. *)
Definition process_item (on_recognition_result : option Callback)
    (w : Recognition) (audio_item : AudioItem) (r : AudioRecorder) : Outcome :=
  let '(audio_data, audio_length, _) := audio_item in
  let r := set_asr_stats (count_processed (asr_stats r)) r in
  let '(r, recording_file) :=
    _save_recording_file audio_data (recognized_text w) (save_time w) r in
  let r :=
    match recording_file with
    | Some file =>
        if text_truthy (recognized_text w) then
          print (MsgRecognized (default "" (recognized_text w)))
            (print (MsgRecordingDone audio_length file) r)
        else
          _ensure_recording_resumed
            (print (MsgRecognitionFailed file audio_length)
               (set_recording_stats (count_failed (recording_stats r)) r))
    | None => r
    end in
  match recognized_text w, on_recognition_result with
  | Some t, Some cb =>
      if strip_truthy t then call_on_recognition_result cb t recording_file r
      else Done r
  | _, _ => Done r
  end.

(** One turn of [while self.asr_consumer_active: ...]: an empty queue is the
    [queue.Empty] of the timed [get]; the item [None] is the stop signal. *)
Definition asr_consumer_turn (on_recognition_result : option Callback)
    (w : Recognition) (r : AudioRecorder) : AudioRecorder * WorkerStatus :=
  if negb (asr_consumer_active r) then (r, Exited)
  else
    match asr_queue r with
    | [] => (r, Looping)
    | None :: q => (set_asr_queue q r, Exited)
    | Some audio_item :: q =>
        match process_item on_recognition_result w audio_item (set_asr_queue q r) with
        | Done r => (r, Looping)
        | Raised e r =>
            let r := _ensure_recording_resumed (print (MsgWorkerError e) r) in
            if is_fatal e then
              (set_asr_consumer_active false (print MsgWorkerFatal r), Exited)
            else (r, Looping)
        end
    end.

(** *** The result callback of [main.py] *)

Inductive CallResult := Returns | Raises.

(** What the collaborators of [process_ai_response] do for one utterance. *)
Record Downstream := mkDownstream {
  (** [self.tts_enabled and self.tts] *)
  tts_enabled : bool;
  (** [self.ai_chat.get_ai_response(text)] *)
  get_ai_response : CallResult;
  (** [create_conversation_record] and the append to the log *)
  create_conversation_record : CallResult;
  (** [from tts_processor import run_tts_async] *)
  import_run_tts_async : CallResult;
  (** the inner [try] block: synthesis, playback and their bookkeeping *)
  speak : CallResult
}.

(** The thread body [process_ai_response]. *)
Definition process_ai_response (d : Downstream) (r : AudioRecorder)
    : AudioRecorder :=
  match get_ai_response d, create_conversation_record d with
  | Returns, Returns =>
      if tts_enabled d then
        match import_run_tts_async d with
        | Raises => resume_recording r
        | Returns =>
            match speak d with
            | Returns => resume_recording r
            | Raises => resume_recording (resume_recording r)
            end
        end
      else resume_recording r
  | _, _ => resume_recording r
  end.

(** [VoiceChatSystem.on_recognition_result]: the thread it starts is run to
    its end at once. *)
Definition on_recognition_result (d : Downstream) : Callback :=
  mkCallback true (fun _ _ r => Done (process_ai_response d r)).

(** *** Construction *)

(** [AudioRecorder.__init__]: [model_loads] is the outcome of the
    recogniser's [init_model], [index] the result of
    [_load_recording_cache_index], [files] the cache directory as found,
    [now] is [time.time()]. *)
Definition init (c : Config) (enable_asr : bool) (model_loads : bool)
    (index : list (string * FileInfo)) (files : gset string) (now : Q)
    : Outcome :=
  let r :=
    mkAudioRecorder c
      (enable_asr && model_loads)
      (if enable_asr then Some (mkSpeechRecognizer model_loads) else None)
      index files
      true false [] now
      (mkRecordingStats 0 0 0 0 (len index))
      [] false None false 0%Q
      true 0
      [] true (mkAsrStats 0 0 0)
      [] in
  if max_cache_files c <? len index then _cleanup_recording_cache r
  else Done r.

End Recorder.

(** ** Runs and the vocabulary of the properties *)

(** What happens to the recorder on the capture side, seen at the level of
    detection windows: a window is handed to [process_audio_buffer] with a
    given buffer content, or the gate is operated from outside. *)
Inductive Event :=
  | EvWindow (buffer : list bytes) (o : Observation)
  | EvPause
  | EvResume.

Definition capture_step (r : AudioRecorder) (e : Event) : AudioRecorder :=
  match e with
  | EvWindow buffer o => process_audio_buffer o (set_audio_buffer buffer r)
  | EvPause => pause_recording r
  | EvResume => resume_recording r
  end.

Definition capture_run (r : AudioRecorder) (es : list Event) : AudioRecorder :=
  fold_left capture_step es r.

(** The observations of the windows that found the gate open, oldest first:
    these are the windows that the state machine evaluates. *)
Fixpoint evaluated (r : AudioRecorder) (es : list Event) : list Observation :=
  match es with
  | [] => []
  | e :: es' =>
      match e with
      | EvWindow _ o => if is_paused r then [] else [o]
      | _ => []
      end ++ evaluated (capture_step r e) es'
  end.

(** The same, seen at the level of the device: a block is delivered to
    [audio_callback], or the gate is operated from outside. *)
Inductive DeviceEvent :=
  | DevBlock (audio_data : bytes) (o : Observation)
  | DevPause
  | DevResume.

Definition device_step (r : AudioRecorder) (e : DeviceEvent) : AudioRecorder :=
  match e with
  | DevBlock audio_data o => audio_callback audio_data o r
  | DevPause => pause_recording r
  | DevResume => resume_recording r
  end.

Definition device_run (r : AudioRecorder) (es : list DeviceEvent) : AudioRecorder :=
  fold_left device_step es r.

Definition is_start (m : Message) : bool :=
  match m with
  | MsgStartRecording => true
  | _ => false
  end.

(** The number of utterances begun so far. *)
Definition utterances_started (r : AudioRecorder) : nat :=
  length (List.filter is_start (console r)).

Definition is_call_resume (m : Message) : bool :=
  match m with
  | CallResume => true
  | _ => false
  end.

(** The number of calls of [resume_recording] so far. *)
Definition resume_calls (r : AudioRecorder) : nat :=
  length (List.filter is_call_resume (console r)).

(** [queue.Queue.full()] *)
Definition queue_full (r : AudioRecorder) : Prop :=
  0 < asr_queue_size (config r) <= len (asr_queue r).

(** [a] occurs in [b]. *)
Definition Substring (a b : string) : Prop :=
  exists p s : string, b = p +:+ a +:+ s.




(** Every row that [d'] lacks is no newer than every row that [d'] has. *)
Definition newest_retained (d d' : list (string * FileInfo)) : Prop :=
  forall k v k' v',
    In (k, v) d -> ~ In (k, v) d' -> In (k', v') d' -> created v <= created v'.

(** The audio of a dispatched item is at least as long as its speech. *)
Definition item_ok (c : Config) (x : option AudioItem) : Prop :=
  match x with
  | None => True
  | Some (mono_audio, audio_length, speech) =>
      py_truediv (len mono_audio) (samplerate c * 2) = Some audio_length
      /\ (speech <= audio_length)%Q
  end.

(** The block that the device delivers: [blocksize] frames of [channels]
    16-bit samples. *)
Definition block_bytes (c : Config) : Z := blocksize c * channels c * 2.

(** The device delivers blocks of [block_bytes] bytes. *)
Definition device_event (c : Config) (e : DeviceEvent) : Prop :=
  match e with
  | DevBlock audio_data _ => len audio_data = block_bytes c
  | DevPause | DevResume => True
  end.

(** The row of the index that answers a query, and the answer it gives. *)
Definition row_matches `{External} (query : string) (r : AudioRecorder)
    (row : string * FileInfo) : bool :=
  str_in (lower query) (lower (text (snd row)))
  && bool_decide (filename (snd row) ∈ cache_files r).

Definition found_row (r : AudioRecorder) (row : string * FileInfo) : Found :=
  mkFound (fst row)
    (path_join (recording_cache_dir (config r)) (filename (snd row)))
    (text (snd row)) (created (snd row)) (duration (snd row)).

(** [r'] differs from [r] at most in the recording cache (index, directory,
    statistics) and in messages that are not calls of [resume_recording]. *)
Definition cache_frame (r r' : AudioRecorder) : Prop :=
  config r' = config r
  /\ enable_asr r' = enable_asr r
  /\ speech_recognizer r' = speech_recognizer r
  /\ recording_active r' = recording_active r
  /\ is_paused r' = is_paused r
  /\ audio_buffer r' = audio_buffer r
  /\ last_active_time r' = last_active_time r
  /\ speech_segments r' = speech_segments r
  /\ is_recording_speech r' = is_recording_speech r
  /\ speech_start_time r' = speech_start_time r
  /\ is_processing r' = is_processing r
  /\ actual_speech_duration r' = actual_speech_duration r
  /\ show_standby_status r' = show_standby_status r
  /\ consecutive_speech_count r' = consecutive_speech_count r
  /\ asr_queue r' = asr_queue r
  /\ asr_consumer_active r' = asr_consumer_active r
  /\ asr_stats r' = asr_stats r
  /\ resume_calls r' = resume_calls r
  /\ utterances_started r' = utterances_started r.

Definition flow_state (f : Flow) : AudioRecorder :=
  match f with
  | Returned r | Running r => r
  end.

(** The bytes recorded so far for the current utterance, and the mono
    stream that a dispatch would make of them. *)
Definition recorded_bytes (r : AudioRecorder) : bytes :=
  concat (speech_segments r).

Definition recorded_mono (r : AudioRecorder) : bytes :=
  stereo_to_mono (channels (config r)) (recorded_bytes r).

(** A byte string made of whole stereo frames of 16-bit samples. *)
Definition whole_frames (d : bytes) : Prop :=
  exists n : nat, length d = (4 * n)%nat.

(** [del d[k]] for each [k] of [ks] in turn. *)
Definition remove_keys {V} (ks : list string) (d : list (string * V))
    : list (string * V) :=
  fold_left (fun d k => dict_del k d) ks d.

(** What a run of puts maintains: the configuration, unique keys, and an
    index within the limit. *)
Definition index_ok (c : Config) (r : AudioRecorder) : Prop :=
  config r = c
  /\ List.NoDup (dict_keys (recording_cache_index r))
  /\ len (recording_cache_index r) <= max_cache_files c.

(** A recorded window holds at least 0.3 s of audio, in whole frames when
    the audio is stereo. *)
Definition segment_ok (c : Config) (s : bytes) : Prop :=
  3 * (samplerate c * channels c * 2) <= 10 * len s
  /\ (channels c = 2 -> whole_frames s).

(** What the capture side maintains: blocks of the buffer have the size the
    device delivers, recorded windows are long enough, the speech duration is
    at most 0.3 s per recorded window, and queued items are sound. *)
Definition durations_ok (c : Config) (r : AudioRecorder) : Prop :=
  config r = c
  /\ Forall (fun b => len b = block_bytes c) (audio_buffer r)
  /\ Forall (segment_ok c) (speech_segments r)
  /\ (actual_speech_duration r <= (3 # 10) * inject_Z (len (speech_segments r)))%Q
  /\ Forall (item_ok c) (asr_queue r).

(** ** Concrete collaborators and recorders *)

Definition ascii_lower (c : ascii) : ascii :=
  let n := nat_of_ascii c in
  if ((65 <=? n) && (n <=? 90))%nat then ascii_of_nat (n + 32) else c.

(** [str.lower] on ASCII text. *)
Fixpoint lower_ascii (s : string) : string :=
  match s with
  | EmptyString => EmptyString
  | String c s' => String (ascii_lower c) (lower_ascii s')
  end.

(** A stand-in for the digest: any function of the bytes will do. *)
Definition length_digest (data : bytes) : string := "d" +:+ pretty (len data).

(** A file system on which nothing fails, one on which no WAV file can be
    written, and one on which no file can be deleted. *)
Definition reliable : External :=
  mkExternal length_digest lower_ascii (fun _ => false) (fun _ => false).

Definition disk_full : External :=
  mkExternal length_digest lower_ascii (fun _ => false) (fun _ => true).


Definition recorder_of (o : Outcome) : AudioRecorder :=
  match o with
  | Done r | Raised _ r => r
  end.

(** The configuration that [main.py] passes, with a chosen queue size and
    cache limit. *)
Definition main_config (queue_size cache_limit : Z) : Config :=
  mkConfig "recording_cache" 16000 2 1024 (15 # 10) (5 # 10)
    queue_size true cache_limit.

Definition fresh (queue_size : Z) : AudioRecorder :=
  recorder_of (init (H := reliable) (main_config queue_size 5) true true [] ∅ 0%Q).

(** The [k]-th window, 0.3 s after the one before: two stereo frames, heard
    as speech or as silence. *)
Definition frames : list bytes := [repeat "001"%byte 8].

Definition heard_speech (k : Z) : Observation :=
  mkObservation true 15 15 (3 # 10) (inject_Z k * (3 # 10))%Q.

Definition heard_silence (k : Z) : Observation :=
  mkObservation false 0 15 (1 # 100) (inject_Z k * (3 # 10))%Q.

Definition speech (k : Z) : Event := EvWindow frames (heard_speech k).

Definition silence (k : Z) : Event := EvWindow frames (heard_silence k).

(** Four windows of speech from window [k] on, then six of silence: the last
    one is the first to come more than 1.5 s after the last speech. Of the
    four, the first is spent on the confirmation. *)
Definition utterance_but_last (k : Z) : list Event :=
  [speech k; speech (k + 1); speech (k + 2); speech (k + 3);
   silence (k + 4); silence (k + 5); silence (k + 6); silence (k + 7);
   silence (k + 8)].

Definition utterance (k : Z) : list Event :=
  utterance_but_last k ++ [silence (k + 9)].

(** One short burst: two windows of speech, of which one is recorded. *)
Definition burst_but_last (k : Z) : list Event :=
  [speech k; speech (k + 1);
   silence (k + 2); silence (k + 3); silence (k + 4); silence (k + 5);
   silence (k + 6)].

(** The recorder after one finalised utterance: gate closed, one item queued. *)
Definition finalised : AudioRecorder := capture_run (fresh 20) (utterance 1).

(** The callbacks: that of [main.py] with text-to-speech off and all
    collaborators well, and one that raises. *)
Definition quiet_pipeline : Downstream :=
  mkDownstream false Returns Returns Returns Returns.

Definition crashing_callback : Callback :=
  mkCallback true
    (fun _ _ r => Raised (mkExc RuntimeError "CUDA out of memory") r).

(** An index of two rows, as an earlier run with a larger limit leaves it. *)
Definition old_row : FileInfo :=
  mkFileInfo "rec_100_aaaaaaaa.wav" 100 "hello" (1 # 2) (3 # 10) 16000 true true.

Definition new_row : FileInfo :=
  mkFileInfo "rec_200_bbbbbbbb.wav" 200 "world" (1 # 2) (3 # 10) 16000 true true.

Definition two_rows : list (string * FileInfo) :=
  [("aaaaaaaa00", old_row); ("bbbbbbbb00", new_row)].

Definition two_files : gset string :=
  {["rec_100_aaaaaaaa.wav"; "rec_200_bbbbbbbb.wav"]}.

(** The recorder with a window in its buffer, ready for
    [process_audio_buffer]: in the middle of an utterance; at the window that
    ends a long utterance; at the one that ends a short burst; and at the one
    that ends a second long utterance while the first is still on a queue of
    size one. *)
Definition mid_utterance : AudioRecorder :=
  set_audio_buffer frames (capture_run (fresh 20) [speech 1; speech 2; speech 3]).

Definition at_end_of_utterance : AudioRecorder :=
  set_audio_buffer frames (capture_run (fresh 20) (utterance_but_last 1)).

Definition at_end_of_burst : AudioRecorder :=
  set_audio_buffer frames (capture_run (fresh 20) (burst_but_last 1)).

Definition at_end_with_full_queue : AudioRecorder :=
  set_audio_buffer frames
    (capture_run (fresh 1) (utterance 1 ++ [EvResume] ++ utterance_but_last 11)).

(** A clip to be saved. *)
Definition clip : bytes := repeat "001"%byte 16.

(** A device whose every block is a window: 3 frames at 10 Hz, stereo. *)
Definition slow_config : Config :=
  mkConfig "recording_cache" 10 2 3 (15 # 10) (5 # 10) 20 true 5.

Definition slow_block : bytes := repeat "001"%byte 12.

Definition slow_utterance : list DeviceEvent :=
  [DevBlock slow_block (heard_speech 1); DevBlock slow_block (heard_speech 2);
   DevBlock slow_block (heard_speech 3); DevBlock slow_block (heard_speech 4);
   DevBlock slow_block (heard_silence 5); DevBlock slow_block (heard_silence 6);
   DevBlock slow_block (heard_silence 7); DevBlock slow_block (heard_silence 8);
   DevBlock slow_block (heard_silence 9); DevBlock slow_block (heard_silence 10)].

Definition slow_fresh : AudioRecorder :=
  recorder_of (init (H := reliable) slow_config true true [] ∅ 0%Q).

(** The turn of the worker on the finalised utterance: when the recogniser
    returns nothing and the disk is full, and when the callback raises. *)
Definition turn_on_full_disk : AudioRecorder * WorkerStatus :=
  asr_consumer_turn (H := disk_full)
    (Some (on_recognition_result quiet_pipeline)) (mkRecognition None 100)
    finalised.

Definition turn_that_crashes : AudioRecorder * WorkerStatus :=
  asr_consumer_turn (H := reliable) (Some crashing_callback)
    (mkRecognition (Some "hi") 100) finalised.

(** The clip saved at second 100, and again at second 200. *)
Definition first_put : AudioRecorder * option string :=
  _save_recording_file (H := reliable) clip (Some "hello") 100 (fresh 20).

Definition second_put : AudioRecorder * option string :=
  _save_recording_file (H := reliable) clip (Some "hello") 200 (fst first_put).

(** ** The rest of the recorder *)

(** [stop_recording]. Closing the stream and joining the worker thread change
    nothing in the recorder (a failure to close is printed, which is left
    out). The boolean tells whether the warning of a full queue was
    printed. *)
Definition stop_recording (r : AudioRecorder) : AudioRecorder * bool :=
  let r := set_recording_active false r in
  if enable_asr r then
    let r := set_asr_consumer_active false r in
    match put_nowait (asr_queue_size (config r)) (asr_queue r) None with
    | Some q => (set_asr_queue q r, false)
    | None => (r, true)
    end
  else (r, false).

(** [get_recording_stats]: a copy of the statistics. *)
Definition get_recording_stats (r : AudioRecorder) : RecordingStats :=
  recording_stats r.

(** What happens to a running system: the capture thread evaluates a window
    or receives a block, the worker takes a turn with the callback of
    [main.py] installed or with none, or the recorder is stopped. *)
Inductive SystemEvent :=
  | SysWindow (buffer : list bytes) (o : Observation)
  | SysBlock (audio_data : bytes) (o : Observation)
  | SysTurn (d : option Downstream) (w : Recognition)
  | SysStop.

Definition system_step `{External} (r : AudioRecorder) (e : SystemEvent)
    : AudioRecorder :=
  match e with
  | SysWindow buffer o => process_audio_buffer o (set_audio_buffer buffer r)
  | SysBlock audio_data o => audio_callback audio_data o r
  | SysTurn d w =>
      fst (asr_consumer_turn (option_map on_recognition_result d) w r)
  | SysStop => fst (stop_recording r)
  end.

Definition system_run `{External} (r : AudioRecorder) (es : list SystemEvent)
    : AudioRecorder :=
  fold_left system_step es r.

(** The utterances waiting on the queue: the stop signal is not one. *)
Definition waiting (q : list (option AudioItem)) : Z :=
  len (List.filter (fun x => match x with Some _ => true | None => false end) q).

(** What the segmentation keeps between calls. *)
Definition utterance_ok (r : AudioRecorder) : Prop :=
  is_processing r = false
  /\ 0 <= consecutive_speech_count r
  /\ (is_recording_speech r = false ->
      actual_speech_duration r = 0%Q /\ speech_start_time r = None)
  /\ (is_recording_speech r = true ->
      speech_segments r <> [] /\ speech_start_time r <> None).

(** What the dispatch keeps: every utterance counted as queued has been
    processed or is waiting, and a bounded queue is within its bound. *)
Definition queue_ok (r : AudioRecorder) : Prop :=
  queued (asr_stats r) = processed (asr_stats r) + waiting (asr_queue r)
  /\ (0 < asr_queue_size (config r) ->
      len (asr_queue r) <= asr_queue_size (config r)).

(** What a caller of the recorder may do between the events of the system:
    [pause_recording] and [resume_recording] are public. *)
Inductive Action :=
  | ActSystem (e : SystemEvent)
  | ActPause
  | ActResume.

Definition action_step `{External} (r : AudioRecorder) (a : Action)
    : AudioRecorder :=
  match a with
  | ActSystem e => system_step r e
  | ActPause => pause_recording r
  | ActResume => resume_recording r
  end.

Definition action_run `{External} (r : AudioRecorder) (acts : list Action)
    : AudioRecorder :=
  fold_left action_step acts r.

(** [r'] differs from [r] at most in the gate, the worker flag, the
    recording cache and the console. *)
Definition gate_frame (r r' : AudioRecorder) : Prop :=
  config r' = config r
  /\ asr_queue r' = asr_queue r
  /\ asr_stats r' = asr_stats r
  /\ speech_segments r' = speech_segments r
  /\ is_recording_speech r' = is_recording_speech r
  /\ speech_start_time r' = speech_start_time r
  /\ is_processing r' = is_processing r
  /\ actual_speech_duration r' = actual_speech_duration r
  /\ consecutive_speech_count r' = consecutive_speech_count r.

(** ** Voice activity and amplitude ([vad_processor.py]) *)

(** [int(self.samplerate * 0.02) * 2] with its fall-back: the bytes of a
    chunk of 20 ms. The product with [0.02] is the fiftieth part, and [int]
    truncates towards zero. *)
Definition vad_step (samplerate : Z) : Z :=
  let step := Z.quot samplerate 50 * 2 in
  if step <=? 0 then 640 else step.

(** [data[i:i + n]] *)
Definition slice (data : bytes) (i n : nat) : bytes := firstn n (skipn i data).

(** [range(0, stop, step)] for a positive [step]. *)
Definition range_step (stop step : nat) : list nat :=
  map (fun k => (k * step)%nat) (seq 0 ((stop + step - 1) / step)).

(** [round(0.5 * total)]: Python rounds a half to the even neighbour. *)
Definition round_half (total : Z) : Z :=
  let k := total / 2 in
  if Z.even total then k else if Z.even k then k else k + 1.

Section Vad.
(** [self.vad.is_speech(chunk, sample_rate=...)]: [None] where it raises. *)
Variable is_speech : bytes -> option bool.

(** The body of the loop: only a chunk of full length is examined, and an
    exception of the detector is swallowed. *)
Definition chunk_counts (step : nat) (chunk : bytes) : bool :=
  (length chunk =? step)%nat
  && match is_speech chunk with
     | Some true => true
     | _ => false
     end.

(** [check_vad_activity]: the verdict, the number of speech chunks, and the
    number of chunks. [stereo_to_mono] and the loop raise nothing, so the
    outer handler is never entered. *)
Definition check_vad_activity (samplerate channels : Z) (audio_data : bytes)
    : bool * Z * Z :=
  let mono_data := stereo_to_mono channels audio_data in
  if len mono_data <? 640 then (false, 0, 0)
  else
    let step := vad_step samplerate in
    let total_chunks := len mono_data / step in
    if total_chunks =? 0 then (false, 0, 0)
    else
      let flag_rate := Z.max 1 (round_half total_chunks) in
      let num :=
        len (List.filter
               (fun i => chunk_counts (Z.to_nat step)
                           (slice mono_data i (Z.to_nat step)))
               (range_step (length mono_data) (Z.to_nat step))) in
      (flag_rate <=? num, num, total_chunks).
End Vad.

(** [np.frombuffer(data, dtype=np.int16)]: signed 16-bit samples, low byte
    first; [None] where it raises, on an odd number of bytes. *)
Definition int16_of (lo hi : byte) : Z :=
  let u := Z.of_N (Byte.to_N lo) + 256 * Z.of_N (Byte.to_N hi) in
  if u <? 32768 then u else u - 65536.

Fixpoint frombuffer_int16 (data : bytes) : option (list Z) :=
  match data with
  | [] => Some []
  | lo :: hi :: rest =>
      match frombuffer_int16 rest with
      | Some a => Some (int16_of lo hi :: a)
      | None => None
      end
  | _ => None
  end.

(** [np.abs] on [int16]: the most negative sample has no positive
    counterpart and is returned as it is. *)
Definition abs_int16 (x : Z) : Z :=
  if x =? -32768 then -32768 else Z.abs x.

(** [np.max]: raises on an empty array. *)
Definition np_max (a : list Z) : option Z :=
  match a with
  | [] => None
  | x :: a' => Some (fold_left Z.max a' x)
  end.

(** [calculate_audio_amplitude]: [None] where it raises. *)
Definition calculate_audio_amplitude (audio_data : bytes) : option Q :=
  match frombuffer_int16 audio_data with
  | None => None
  | Some audio_array =>
      match np_max (map abs_int16 audio_array) with
      | None => None
      | Some max_amplitude => Some (inject_Z max_amplitude / 32768)%Q
      end
  end.

(** The samples of a buffer, for statements about them. *)
Definition samples (audio_data : bytes) : list Z :=
  match frombuffer_int16 audio_data with
  | Some a => a
  | None => []
  end.

(** What [process_audio_buffer] learns about its buffer: the verdict and the
    counts of [check_vad_activity], the amplitude, and [time.time()];
    [None] where [calculate_audio_amplitude] raises. *)
Definition observe (is_speech : bytes -> option bool) (samplerate channels : Z)
    (raw_audio : bytes) (now : Q) : option Observation :=
  let '(vad_result, speech_chunks, total_chunks) :=
    check_vad_activity is_speech samplerate channels raw_audio in
  match calculate_audio_amplitude raw_audio with
  | None => None
  | Some amplitude =>
      Some (mkObservation vad_result speech_chunks total_chunks amplitude now)
  end.

(** ** Further recorders *)

(** The recorder stuck behind a closed gate: the worker has taken the only
    utterance and has not resumed. *)
Definition stuck : AudioRecorder := fst turn_on_full_disk.

(** What may come later: a block, a window, a turn of the worker, a stop. *)
Definition later_events : list SystemEvent :=
  [SysBlock slow_block (heard_speech 30); SysWindow frames (heard_speech 31);
   SysTurn (Some quiet_pipeline) (mkRecognition (Some "hi") 200); SysStop].

(** A recorder built with [enable_asr=False], at the window that ends a long
    utterance. *)
Definition record_only : AudioRecorder :=
  recorder_of (init (H := reliable) (main_config 20 5) false true [] ∅ 0%Q).

Definition record_only_at_end : AudioRecorder :=
  set_audio_buffer frames (capture_run record_only (utterance_but_last 1)).

(** A cache directory with two recordings and a limit of one; a recorder
    whose cache keeps nothing. *)
Definition crowded : AudioRecorder :=
  set_cache_files two_files
    (set_recording_cache_index two_rows
       (recorder_of
          (init (H := reliable) (main_config 20 1) true true [] ∅ 0%Q))).


(** Four blocks, each with the observation that would go with it. *)
Definition four_blocks : list (bytes * Observation) :=
  [(slow_block, heard_speech 1); (slow_block, heard_speech 2);
   (slow_block, heard_speech 3); (slow_block, heard_speech 4)].

(** A detector that hears speech in everything, and the fresh recorder with
    a quiet window in its buffer: every sample is 257. *)
Definition always_speech : bytes -> option bool := fun _ => Some true.

Definition quiet_window : AudioRecorder := set_audio_buffer frames (fresh 20).

(** ** Chat history ([deepseek_chat.py]) *)

Inductive MessageKind :=
  | SystemMessage
  | HumanMessage
  | AIMessage
  | OtherMessage.

Record ChatMessage := mkChatMessage {
  kind : MessageKind;
  content : string
}.

(** [isinstance(msg, SystemMessage)] *)
Definition is_system (msg : ChatMessage) : bool :=
  match kind msg with
  | SystemMessage => true
  | _ => false
  end.

(** [l[-n:]]: the start [-n] counts from the end when it is negative and
    from the front otherwise, and is clipped to the list. *)
Definition py_last {A : Type} (n : Z) (l : list A) : list A :=
  if 0 <? n then skipn (Z.to_nat (len l - n)) l
  else skipn (Z.to_nat (- n)) l.

(** [_manage_conversation_history]; the message that it prints is left
    out. *)
Definition _manage_conversation_history (max_history_length : Z)
    (messages : list ChatMessage) : list ChatMessage :=
  let system_messages := List.filter is_system messages in
  let conversation_messages :=
    List.filter (fun msg => negb (is_system msg)) messages in
  let conversation_messages :=
    if max_history_length <? len conversation_messages then
      py_last max_history_length conversation_messages
    else conversation_messages in
  system_messages ++ conversation_messages.

Definition newline : string := String (ascii_of_nat 10) EmptyString.

(** The messages that [chatbot_node] sends to the model. *)
Definition chatbot_prompt (system_prompt conversation_summary : string)
    (max_history_length : Z) (messages : list ChatMessage)
    : list ChatMessage :=
  let messages := _manage_conversation_history max_history_length messages in
  if is_nil messages
     || negb (match messages with
              | msg :: _ => is_system msg
              | [] => false
              end)
  then
    let system_content :=
      match conversation_summary with
      | EmptyString => system_prompt
      | _ =>
          system_prompt +:+ newline +:+ newline +:+ "[对话历史摘要: "
          +:+ conversation_summary +:+ "]"
      end in
    mkChatMessage SystemMessage system_content :: messages
  else messages.

(** ** Conversation records ([conversation_manager.py]) *)

(** [sorted(items, key=...)] on a float key: a stable sort. *)
Section SortedByTime.
Context {A : Type} (key : A -> Q).

Fixpoint insert_by_time (x : A) (l : list A) : list A :=
  match l with
  | [] => [x]
  | y :: l' =>
      if Qle_bool (key x) (key y) then x :: y :: l'
      else y :: insert_by_time x l'
  end.

Definition sorted_by_time (l : list A) : list A :=
  fold_right insert_by_time [] l.
End SortedByTime.

(** [l.sort(key=..., reverse=True)]: descending and stable, elements with
    equal keys keep their order. *)
Section NewestFirst.
Context {A : Type} (key : A -> Q).

Fixpoint insert_newest_first (x : A) (l : list A) : list A :=
  match l with
  | [] => [x]
  | y :: l' =>
      if Qle_bool (key y) (key x) then x :: y :: l'
      else y :: insert_newest_first x l'
  end.

Definition sorted_newest_first (l : list A) : list A :=
  fold_right insert_newest_first [] l.
End NewestFirst.

(** [l[:limit]]: a negative [limit] counts from the end. *)
Definition py_prefix {A : Type} (limit : Z) (l : list A) : list A :=
  if 0 <=? limit then firstn (Z.to_nat limit) l
  else firstn (Z.to_nat (len l + limit)) l.

(** [s.split('_')[1]]: the text between the first underscore and the next
    one; [None] where the index is out of range. *)
Fixpoint until_underscore (s : string) : string :=
  match s with
  | EmptyString => EmptyString
  | String c s' =>
      if Ascii.eqb c "_" then EmptyString else String c (until_underscore s')
  end.

Fixpoint split_underscore_1 (s : string) : option string :=
  match s with
  | EmptyString => None
  | String c s' =>
      if Ascii.eqb c "_" then Some (until_underscore s')
      else split_underscore_1 s'
  end.

Module ConversationManager.

Record ConversationRecord := mkConversationRecord {
  conversation_id : string;
  created : Q;
  formatted_time : string;
  user_text : string;
  ai_response : string;
  recording_file : option string;
  tts_file : option string;
  complete : bool
}.

(** The object [self]: the directory and the index file play no part in
    what follows, and the messages printed are left out. *)
Record t := mk {
  max_conversations : Z;
  conversation_index : list (string * ConversationRecord);
  conversation_counter : Z
}.

Inductive Result :=
  | Returns (m : t)
  | Raises (e : PyException) (m : t).

Definition state (res : Result) : t :=
  match res with
  | Returns m | Raises _ m => m
  end.

Section Ids.
(** [int(s)]: [None] where it raises. *)
Variable py_int : string -> option Z.

(** The loop of [_get_next_conversation_id]: a key that cannot be read is
    skipped. *)
Definition max_id_step (max_id : Z) (conv_id : string) : Z :=
  match split_underscore_1 conv_id with
  | Some s =>
      match py_int s with
      | Some id_num => Z.max max_id id_num
      | None => max_id
      end
  | None => max_id
  end.

Definition _get_next_conversation_id
    (index : list (string * ConversationRecord)) : Z :=
  if is_nil index then 1
  else fold_left max_id_step (dict_keys index) 0 + 1.

(** [__init__], given what [_load_index] returned. *)
Definition init (max_conversations : Z)
    (index : list (string * ConversationRecord)) : t :=
  mk max_conversations index (_get_next_conversation_id index).
End Ids.

(** [for i in range(n): conv_id, conv_info = sorted_conversations[i]; ...]:
    the index is looked up outside the [try], the [del] inside it. *)
Fixpoint remove_oldest (n : nat)
    (sorted_conversations : list (string * ConversationRecord)) (m : t)
    : Result :=
  match n with
  | O => Returns m
  | S n' =>
      match sorted_conversations with
      | [] => Raises (mkExc IndexError "list index out of range") m
      | (conv_id, _) :: rest =>
          remove_oldest n' rest
            (mk (max_conversations m)
               (dict_del conv_id (conversation_index m))
               (conversation_counter m))
      end
  end.

Definition _cleanup_old_conversations (m : t) : Result :=
  if len (conversation_index m) <=? max_conversations m then Returns m
  else
    let sorted_conversations :=
      sorted_by_time (fun x => created (snd x)) (conversation_index m) in
    let conversations_to_remove :=
      len (conversation_index m) - max_conversations m in
    remove_oldest (Z.to_nat conversations_to_remove) sorted_conversations m.

Definition conversation_id_of (counter : Z) : string :=
  "conv_" +:+ pretty counter.

(** [timestamp] is [time.time()], [formatted] its rendering. The result is
    the manager and the returned id; an exception of the clean-up leaves
    through the caller, before the counter is incremented. *)
Definition create_conversation_record (user_text0 ai_response0 : string)
    (recording_file0 tts_file0 : option string) (timestamp : Q)
    (formatted : string) (m : t) : Result * option string :=
  let conv_id := conversation_id_of (conversation_counter m) in
  let conversation_record :=
    mkConversationRecord conv_id timestamp formatted user_text0 ai_response0
      recording_file0 tts_file0 false in
  let m :=
    mk (max_conversations m)
      (dict_set conv_id conversation_record (conversation_index m))
      (conversation_counter m) in
  match _cleanup_old_conversations m with
  | Raises e m => (Raises e m, None)
  | Returns m =>
      (Returns (mk (max_conversations m) (conversation_index m)
                  (conversation_counter m + 1)),
       Some conv_id)
  end.

(** [update_conversation_tts] and [update_conversation_tts_silent] differ in
    what they print only. *)
Definition update_conversation_tts_silent (conv_id tts_file0 : string) (m : t)
    : t :=
  match dict_get conv_id (conversation_index m) with
  | Some conv_info =>
      mk (max_conversations m)
        (dict_set conv_id
           (mkConversationRecord (conversation_id conv_info)
              (created conv_info) (formatted_time conv_info)
              (user_text conv_info) (ai_response conv_info)
              (recording_file conv_info) (Some tts_file0) true)
           (conversation_index m))
        (conversation_counter m)
  | None => m
  end.

Definition update_conversation_tts := update_conversation_tts_silent.

Definition get_conversation_record (conv_id : string) (m : t)
    : option ConversationRecord :=
  dict_get conv_id (conversation_index m).

Definition get_recent_conversations (limit : Z) (m : t)
    : list ConversationRecord :=
  let conversations := map snd (conversation_index m) in
  py_prefix limit (sorted_newest_first created conversations).

(** [search_text_lower in user_text or search_text_lower in ai_response] *)
Definition mentions `{External} (search_text : string)
    (conv_info : ConversationRecord) : bool :=
  str_in (lower search_text) (lower (user_text conv_info))
  || str_in (lower search_text) (lower (ai_response conv_info)).

Definition find_conversations_by_text `{External} (search_text : string)
    (m : t) : list ConversationRecord :=
  sorted_newest_first created
    (List.filter (mentions search_text) (map snd (conversation_index m))).

(** A call of [create_conversation_record], and a run of such calls. *)
Record NewConversation := mkNewConversation {
  new_user_text : string;
  new_ai_response : string;
  new_recording_file : option string;
  new_timestamp : Q;
  new_formatted : string
}.

Definition create (m : t) (c : NewConversation) : t :=
  state (fst (create_conversation_record (new_user_text c) (new_ai_response c)
                (new_recording_file c) None (new_timestamp c)
                (new_formatted c) m)).

Definition create_run (m : t) (cs : list NewConversation) : t :=
  fold_left create cs m.

(** Every key is an id that the counter has already passed. *)
Definition ids_below_counter (m : t) : Prop :=
  forall k, In k (dict_keys (conversation_index m)) ->
            exists n, k = conversation_id_of n /\ n < conversation_counter m.

End ConversationManager.

(** ** The audio cache of the synthesiser ([tts_processor.py]) *)

Module TTSProcessor.

(** What the cache asks of the outside world. *)
Class World := mkWorld {
  (** [hashlib.md5(s.encode('utf-8')).hexdigest()] *)
  md5_text : string -> string;
  (** whether [Path.unlink] raises on this file of the cache directory *)
  unlink_raises : string -> bool;
  (** whether [shutil.copy2(src, dst)] raises *)
  copy2_raises : string -> string -> bool
}.

Record CacheInfo := mkCacheInfo {
  text : string;
  filename : string;
  created : Z;
  last_access : Q;
  info_voice : string;
  info_rate : string;
  info_volume : string
}.

(** The object [self], as far as the cache goes; [cache_files] is the cache
    directory, as the set of the file names it holds. The index file is
    written after every change and is not modelled. *)
Record t := mk {
  voice : string;
  rate : string;
  volume : string;
  cache_dir : string;
  max_cache_files : Z;
  cache_index : list (string * CacheInfo);
  cache_files : gset string
}.

Definition set_cache_index (v : list (string * CacheInfo)) (p : t) : t :=
  mk (voice p) (rate p) (volume p) (cache_dir p) (max_cache_files p) v
    (cache_files p).

Definition set_cache_files (v : gset string) (p : t) : t :=
  mk (voice p) (rate p) (volume p) (cache_dir p) (max_cache_files p)
    (cache_index p) v.

Inductive Result :=
  | Returns (p : t)
  | Raises (e : PyException) (p : t).

Definition state (res : Result) : t :=
  match res with
  | Returns p | Raises _ p => p
  end.

Section Cache.
Context `{World}.

Definition _get_text_hash (text0 : string) (p : t) : string :=
  md5_text (text0 +:+ "|" +:+ voice p +:+ "|" +:+ rate p +:+ "|" +:+ volume p).

(** The body of the loop of [_cleanup_cache]: the [del] is skipped when
    [unlink] raises. *)
Definition evict_entry (hash_key : string) (file_info : CacheInfo) (p : t)
    : t :=
  if bool_decide (filename file_info ∈ cache_files p) then
    if unlink_raises (filename file_info) then p
    else
      set_cache_index (dict_del hash_key (cache_index p))
        (set_cache_files (cache_files p ∖ {[filename file_info]}) p)
  else set_cache_index (dict_del hash_key (cache_index p)) p.

Fixpoint evict_oldest (n : nat) (sorted_items : list (string * CacheInfo))
    (p : t) : Result :=
  match n with
  | O => Returns p
  | S n' =>
      match sorted_items with
      | [] => Raises (mkExc IndexError "list index out of range") p
      | (hash_key, file_info) :: rest =>
          evict_oldest n' rest (evict_entry hash_key file_info p)
      end
  end.

Definition _cleanup_cache (p : t) : Result :=
  if len (cache_index p) <=? max_cache_files p then Returns p
  else
    let sorted_items :=
      sorted_by_time (fun x => last_access (snd x)) (cache_index p) in
    let files_to_remove := len (cache_index p) - max_cache_files p in
    evict_oldest (Z.to_nat files_to_remove) sorted_items p.

(** [now] is [time.time()]. The result is the processor and the returned
    path, [None] on a miss. *)
Definition _get_cached_audio (text0 : string) (now : Q) (p : t)
    : t * option string :=
  let text_hash := _get_text_hash text0 p in
  match dict_get text_hash (cache_index p) with
  | Some file_info =>
      if bool_decide (filename file_info ∈ cache_files p) then
        (set_cache_index
           (dict_set text_hash
              (mkCacheInfo (text file_info) (filename file_info)
                 (created file_info) now (info_voice file_info)
                 (info_rate file_info) (info_volume file_info))
              (cache_index p)) p,
         Some (path_join (cache_dir p) (filename file_info)))
      else (set_cache_index (dict_del text_hash (cache_index p)) p, None)
  | None => (p, None)
  end.

Definition cache_filename (timestamp : Z) (text_hash : string) : string :=
  "tts_" +:+ pretty timestamp +:+ "_" +:+ str_take 8 text_hash +:+ ".wav".

(** [timestamp] is [int(time.time())]. The result is the processor and the
    returned path: that of the cached file, or [audio_path] itself when
    anything raised. *)
Definition _cache_audio (text0 audio_path : string) (timestamp : Z) (p : t)
    : t * string :=
  let text_hash := _get_text_hash text0 p in
  let fname := cache_filename timestamp text_hash in
  let cached_path := path_join (cache_dir p) fname in
  if copy2_raises audio_path cached_path then (p, audio_path)
  else
    let p := set_cache_files ({[fname]} ∪ cache_files p) p in
    let p :=
      set_cache_index
        (dict_set text_hash
           (mkCacheInfo (str_take 50 text0) fname timestamp
              (inject_Z timestamp) (voice p) (rate p) (volume p))
           (cache_index p)) p in
    match _cleanup_cache p with
    | Returns p => (p, cached_path)
    | Raises _ p => (p, audio_path)
    end.

(** What [_synthesize_chunk] learns from outside: the clock at the lookup,
    the temporary file that the synthesis wrote ([None] when it failed or
    the file was rejected), and the clock at the insertion. *)
Record Synthesis := mkSynthesis {
  lookup_time : Q;
  temp_path : option string;
  cache_time : Z
}.

(** [_synthesize_chunk]: the cache is asked first; what was synthesised is
    put into the cache. *)
Definition _synthesize_chunk (text0 : string) (w : Synthesis) (p : t)
    : t * option string :=
  match _get_cached_audio text0 (lookup_time w) p with
  | (p, Some cached_path) => (p, Some cached_path)
  | (p, None) =>
      match temp_path w with
      | None => (p, None)
      | Some temp =>
          let '(p, cached_path) := _cache_audio text0 temp (cache_time w) p in
          (p, Some cached_path)
      end
  end.

(** The path that [_synthesize_chunk] hands to [os.unlink] before it returns
    ([os.unlink(temp_path)], after [_cache_audio]; a failure of the removal
    is swallowed): there is one when the cache missed and the synthesis
    wrote a file. *)
Definition temp_unlinked (text0 : string) (w : Synthesis) (p : t)
    : option string :=
  match snd (_get_cached_audio text0 (lookup_time w) p) with
  | Some _ => None
  | None => temp_path w
  end.

(** A run of requests. *)
Definition request (p : t) (x : string * Synthesis) : t :=
  fst (_synthesize_chunk (fst x) (snd x) p).

Definition request_run (p : t) (xs : list (string * Synthesis)) : t :=
  fold_left request xs p.

(** [__init__], given what [_load_cache_index] returned and the directory
    as found. *)
Definition init (voice0 rate0 volume0 cache_dir0 : string)
    (max_cache_files0 : Z) (index : list (string * CacheInfo))
    (files : gset string) : Result :=
  let p := mk voice0 rate0 volume0 cache_dir0 max_cache_files0 index files in
  if max_cache_files0 <? len index then _cleanup_cache p else Returns p.

(** No request of the run puts a file under a name that a row already
    has. *)
Fixpoint names_fresh (p : t) (xs : list (string * Synthesis)) : Prop :=
  match xs with
  | [] => True
  | x :: xs' =>
      ~ In (cache_filename (cache_time (snd x)) (_get_text_hash (fst x) p))
          (map (fun row => filename (snd row)) (cache_index p))
      /\ names_fresh (request p x) xs'
  end.

End Cache.

(** Every row has its file, every file has its row, and no two rows share
    a key or a file. *)
Definition consistent (p : t) : Prop :=
  List.NoDup (dict_keys (cache_index p))
  /\ List.NoDup (map (fun x => filename (snd x)) (cache_index p))
  /\ forall f : string,
       f ∈ cache_files p
       <-> In f (map (fun x => filename (snd x)) (cache_index p)).

End TTSProcessor.

(** ** Concrete conversations *)

Definition conv7 : ConversationManager.ConversationRecord :=
  ConversationManager.mkConversationRecord "conv_7" 100 "2024-05-01 10:00:00"
    "hi" "hello" None None false.

Definition one_conversation
    : list (string * ConversationManager.ConversationRecord) :=
  [("conv_7", conv7)].

(** [int] on the one number that the index holds. *)
Definition read_seven (s : string) : option Z :=
  if String.eqb s "7" then Some 7 else None.

(** The manager that loads this index, with room for two records. *)
Definition manager : ConversationManager.t :=
  ConversationManager.init read_seven 2 one_conversation.

Definition two_requests : list ConversationManager.NewConversation :=
  [ConversationManager.mkNewConversation "how are you" "fine" None 200
     "2024-05-01 10:01:40";
   ConversationManager.mkNewConversation "what time is it" "ten" None 300
     "2024-05-01 10:03:20"].

(** ** A concrete synthesiser cache *)

(** A stand-in for the digest of a text, and a world in which nothing
    fails. *)
Definition text_digest (s : string) : string :=
  "t" +:+ pretty (Z.of_nat (String.length s)).

Definition tts_world : TTSProcessor.World :=
  TTSProcessor.mkWorld text_digest (fun _ => false) (fun _ _ => false).

Definition empty_cache : TTSProcessor.t :=
  TTSProcessor.mk "zh-CN-XiaoxiaoNeural" "+0%" "+0%" "tts_cache" 20 [] ∅.

Definition first_request : string * TTSProcessor.Synthesis :=
  ("hello", TTSProcessor.mkSynthesis 100 (Some "/tmp/tts_temp_100000.wav") 100).

(** A cache with room for two texts, both cached: "hello" at second 50 and
    "good morning" at second 60. *)
Definition hello_row : TTSProcessor.CacheInfo :=
  TTSProcessor.mkCacheInfo "hello" "tts_50_t34.wav" 50 50
    "zh-CN-XiaoxiaoNeural" "+0%" "+0%".

Definition morning_row : TTSProcessor.CacheInfo :=
  TTSProcessor.mkCacheInfo "good morning" "tts_60_t41.wav" 60 60
    "zh-CN-XiaoxiaoNeural" "+0%" "+0%".

Definition two_texts : TTSProcessor.t :=
  TTSProcessor.mk "zh-CN-XiaoxiaoNeural" "+0%" "+0%" "tts_cache" 2
    [("t34", hello_row); ("t41", morning_row)]
    {["tts_50_t34.wav"; "tts_60_t41.wav"]}.

(** A world in which no file can be copied into the cache. *)
Definition no_copy_world : TTSProcessor.World :=
  TTSProcessor.mkWorld text_digest (fun _ => false) (fun _ _ => true).

(** ** The text of a recognition ([speech_recognizer.py]) *)








(** * Properties *)

(** ** Strings and dictionaries *)

Lemma prefix_spec (a b : string) :
  String.prefix a b = true <-> exists s, b = a +:+ s.
Proof.
  revert b. induction a as [|c a IH]; intros b; simpl.
  - split; [intros _; exists b; reflexivity | intros _; by destruct b].
  - destruct b as [|c' b].
    + split; [discriminate | intros [s Hs]; discriminate].
    + simpl. destruct (Ascii.ascii_dec c c') as [->|Hne].
      * rewrite IH. split; intros [s Hs]; exists s; [by rewrite Hs | by injection Hs].
      * split; [discriminate | intros [s Hs]; injection Hs; congruence].
Qed.

Lemma str_in_spec (a b : string) : str_in a b = true <-> Substring a b.
Proof.
  induction b as [|c b IH]; cbn [str_in].
  - destruct (String.prefix a "") eqn:E.
    + split; [intros _ | reflexivity].
      apply prefix_spec in E as [s Hs]. exists "", s. exact Hs.
    + split; [discriminate |]. intros ([|? p] & s & Hs); simpl in Hs.
      * assert (String.prefix a "" = true) by (apply prefix_spec; eauto).
        congruence.
      * discriminate.
  - destruct (String.prefix a (String c b)) eqn:E.
    + split; [intros _ | reflexivity].
      apply prefix_spec in E as [s Hs]. exists "", s. exact Hs.
    + rewrite IH. split.
      * intros (p & s & ->). exists (String c p), s. reflexivity.
      * intros ([|c' p] & s & Hs); simpl in Hs.
        -- assert (String.prefix a (String c b) = true)
             by (apply prefix_spec; eauto).
           congruence.
        -- injection Hs as -> ->. exists p, s. reflexivity.
Qed.

Lemma dict_del_length {V} (k : string) (d : list (string * V)) :
  In k (dict_keys d) -> S (length (dict_del k d)) = length d.
Proof.
  induction d as [|[k' v] d IH]; simpl; [tauto |].
  destruct (String.eqb_spec k k') as [->|Hne]; [reflexivity |].
  intros [Heq|Hin]; [congruence |]. simpl. by rewrite IH.
Qed.

Lemma dict_del_In {V} (k : string) (d : list (string * V)) (x : string * V) :
  In x (dict_del k d) -> In x d.
Proof.
  induction d as [|[k' v] d IH]; simpl; [tauto |].
  destruct (String.eqb k k'); simpl; tauto.
Qed.

Lemma dict_del_keys {V} (k k0 : string) (d : list (string * V)) :
  In k0 (dict_keys (dict_del k d)) -> In k0 (dict_keys d).
Proof.
  induction d as [|[k' v] d IH]; simpl; [tauto |].
  destruct (String.eqb k k'); simpl; tauto.
Qed.

Lemma dict_del_NoDup {V} (k : string) (d : list (string * V)) :
  List.NoDup (dict_keys d) -> List.NoDup (dict_keys (dict_del k d)).
Proof.
  induction d as [|[k' v] d IH]; simpl; [auto |].
  intros Hnd. apply List.NoDup_cons_iff in Hnd as [Hni Hnd].
  destruct (String.eqb k k'); [assumption |].
  simpl. apply List.NoDup_cons_iff. split; [| auto].
  intros Hin. apply Hni. by apply dict_del_keys in Hin.
Qed.

(** With unique keys, [del d[k]] removes the row of [k] and nothing else. *)
Lemma dict_del_other {V} (k : string) (d : list (string * V)) (x : string * V) :
  In x d -> fst x <> k -> In x (dict_del k d).
Proof.
  induction d as [|[k' v] d IH]; simpl; [tauto |].
  intros [<-|Hin] Hne.
  - simpl in Hne. destruct (String.eqb_spec k k'); [congruence | by left].
  - destruct (String.eqb k k'); [assumption | right; auto].
Qed.

Lemma dict_del_gone {V} (k : string) (d : list (string * V)) :
  List.NoDup (dict_keys d) -> ~ In k (dict_keys (dict_del k d)).
Proof.
  induction d as [|[k' v] d IH]; simpl; [tauto |].
  intros Hnd. apply List.NoDup_cons_iff in Hnd as [Hni Hnd].
  destruct (String.eqb_spec k k') as [->|Hne]; [assumption |].
  simpl. intros [Heq|Hin]; [congruence | by apply IH].
Qed.

Lemma dict_set_keys_old {V} (k : string) (v : V) (d : list (string * V)) :
  In k (dict_keys d) -> dict_keys (dict_set k v d) = dict_keys d.
Proof.
  induction d as [|[k' v'] d IH]; simpl; [tauto |].
  destruct (String.eqb_spec k k') as [->|Hne]; simpl; [reflexivity |].
  intros [Heq|Hin]; [congruence | by rewrite IH].
Qed.

Lemma dict_set_keys_new {V} (k : string) (v : V) (d : list (string * V)) :
  ~ In k (dict_keys d) -> dict_keys (dict_set k v d) = dict_keys d ++ [k].
Proof.
  induction d as [|[k' v'] d IH]; simpl; [reflexivity |].
  destruct (String.eqb_spec k k') as [->|Hne]; simpl; [tauto |].
  intros Hni. rewrite IH; [reflexivity | tauto].
Qed.

Lemma dict_set_NoDup {V} (k : string) (v : V) (d : list (string * V)) :
  List.NoDup (dict_keys d) -> List.NoDup (dict_keys (dict_set k v d)).
Proof.
  intros Hnd. destruct (in_dec string_dec k (dict_keys d)) as [Hin|Hni].
  - by rewrite dict_set_keys_old.
  - rewrite dict_set_keys_new; [| assumption].
    apply List.NoDup_app; [assumption | repeat constructor; simpl; tauto |].
    intros x Hx [<-|[]]. contradiction.
Qed.

Lemma dict_set_length {V} (k : string) (v : V) (d : list (string * V)) :
  (length (dict_set k v d) <= S (length d))%nat.
Proof.
  induction d as [|[k' v'] d IH]; simpl; [lia |].
  destruct (String.eqb k k'); simpl; lia.
Qed.

(** A row of [d] that [d[k] = v] does not keep is the old row of [k]. *)
Lemma dict_set_In_old {V} (k : string) (v : V) (d : list (string * V))
    (x : string * V) :
  In x d -> fst x <> k -> In x (dict_set k v d).
Proof.
  induction d as [|[k' v'] d IH]; simpl; [tauto |].
  intros [<-|Hin] Hne.
  - simpl in Hne. destruct (String.eqb_spec k k'); [congruence | by left].
  - destruct (String.eqb k k'); simpl; [by right | right; auto].
Qed.

Lemma dict_set_In_new {V} (k : string) (v : V) (d : list (string * V))
    (x : string * V) :
  In x (dict_set k v d) -> In x d \/ x = (k, v).
Proof.
  induction d as [|[k' v'] d IH]; simpl.
  - intros [<-|[]]. by right.
  - destruct (String.eqb k k'); simpl.
    + intros [<-|Hin]; [by right | by left; right].
    + intros [<-|Hin]; [by left; left |].
      destruct (IH Hin); [left; by right | by right].
Qed.

(** ** What the cache operations leave alone *)

Ltac frame_split :=
  unfold cache_frame in *; cbn -[resume_calls utterances_started] in *;
  repeat match goal with
         | H : _ /\ _ |- _ => destruct H
         end;
  repeat split; try congruence.

Lemma cache_frame_refl (r : AudioRecorder) : cache_frame r r.
Proof. frame_split. Qed.

Lemma cache_frame_trans (r1 r2 r3 : AudioRecorder) :
  cache_frame r1 r2 -> cache_frame r2 r3 -> cache_frame r1 r3.
Proof. intros H12 H23. frame_split. Qed.

Lemma resume_calls_print (m : Message) (r : AudioRecorder) :
  resume_calls (print m r)
  = (resume_calls r + (if is_call_resume m then 1 else 0))%nat.
Proof.
  unfold resume_calls, print. cbn. rewrite List.filter_app, length_app. cbn.
  by destruct (is_call_resume m).
Qed.

Lemma utterances_started_print (m : Message) (r : AudioRecorder) :
  utterances_started (print m r)
  = (utterances_started r + (if is_start m then 1 else 0))%nat.
Proof.
  unfold utterances_started, print. cbn. rewrite List.filter_app, length_app. cbn.
  by destruct (is_start m).
Qed.

Lemma cache_frame_print (m : Message) (r : AudioRecorder) :
  is_call_resume m = false -> is_start m = false -> cache_frame r (print m r).
Proof.
  intros Hm Hs. unfold cache_frame.
  rewrite resume_calls_print, utterances_started_print, Hm, Hs.
  cbn. repeat split; lia.
Qed.

Section CacheFrame.
Context `{External}.

Lemma cache_frame_evict_entry (k : string) (info : FileInfo) (r : AudioRecorder) :
  cache_frame r (evict_entry k info r).
Proof.
  unfold evict_entry.
  destruct (bool_decide (filename info ∈ cache_files r));
    [destruct (unlink_raises (filename info)) |]; frame_split.
Qed.

Lemma cache_frame_evict_oldest (n : nat) (items : list (string * FileInfo))
    (r : AudioRecorder) :
  match evict_oldest n items r with
  | Done r' | Raised _ r' => cache_frame r r'
  end.
Proof.
  revert items r. induction n as [|n IH]; intros items r; simpl.
  - apply cache_frame_refl.
  - destruct items as [|[k info] items]; [apply cache_frame_refl |].
    specialize (IH items (evict_entry k info r)).
    destruct (evict_oldest n items (evict_entry k info r));
      (eapply cache_frame_trans; [apply cache_frame_evict_entry | exact IH]).
Qed.

Lemma cache_frame_cleanup (r : AudioRecorder) :
  match _cleanup_recording_cache r with
  | Done r' | Raised _ r' => cache_frame r r'
  end.
Proof.
  unfold _cleanup_recording_cache.
  destruct (len (recording_cache_index r) <=? max_cache_files (config r)).
  - apply cache_frame_refl.
  - apply cache_frame_evict_oldest.
Qed.

Lemma cache_frame_save_wav_file (fname : string) (r : AudioRecorder) :
  match save_wav_file fname r with
  | Done r' | Raised _ r' => cache_frame r r'
  end.
Proof.
  unfold save_wav_file. destruct (wav_write_raises fname); frame_split.
Qed.

Lemma cache_frame_save (audio_data : bytes) (t : option string) (now : Z)
    (r : AudioRecorder) :
  cache_frame r (fst (_save_recording_file audio_data t now r)).
Proof.
  unfold _save_recording_file.
  destruct (save_recordings (config r)); cbn [negb]; [| apply cache_frame_refl].
  set (fname := recording_filename now (_get_recording_hash audio_data)).
  assert (Hsaved : match (match speech_recognizer r with
                          | Some _ => save_wav_file fname r
                          | None => Done r
                          end) with
                   | Done r' | Raised _ r' => cache_frame r r'
                   end).
  { destruct (speech_recognizer r);
      [apply cache_frame_save_wav_file | apply cache_frame_refl]. }
  destruct (match speech_recognizer r with
            | Some _ => save_wav_file fname r
            | None => Done r
            end) as [r1|e r1]; cbn [fst].
  - destruct (py_truediv (len audio_data) (samplerate (config r1) * 2))
      as [d|]; cbn [fst].
    + match goal with
      | |- context [_cleanup_recording_cache ?x] =>
          pose proof (cache_frame_cleanup x) as Hc;
          assert (Hx : cache_frame r1 x) by frame_split;
          destruct (_cleanup_recording_cache x) as [r2|e r2]; cbn [fst]
      end.
      * eapply cache_frame_trans; [exact Hsaved |].
        eapply cache_frame_trans; [exact Hx |].
        eapply cache_frame_trans; [exact Hc |]. frame_split.
      * eapply cache_frame_trans; [exact Hsaved |].
        eapply cache_frame_trans; [exact Hx |].
        eapply cache_frame_trans; [exact Hc |].
        by apply cache_frame_print.
    + eapply cache_frame_trans; [exact Hsaved |]. by apply cache_frame_print.
  - eapply cache_frame_trans; [exact Hsaved |]. by apply cache_frame_print.
Qed.

End CacheFrame.

(** ** Lookup by text *)

Section Find.
Context `{External}.

Lemma find_loop_spec (query : string) (r : AudioRecorder)
    (items : list (string * FileInfo)) (results : list Found) :
  find_loop query r items results
  = results ++ map (found_row r) (List.filter (row_matches query r) items).
Proof.
  revert results. induction items as [|[k info] items IH]; intros results.
  - simpl. by rewrite app_nil_r.
  - cbn [find_loop List.filter]. rewrite IH. unfold row_matches at 2.
    cbn [fst snd].
    destruct (str_in (lower query) (lower (text info))); cbn [andb];
      [| reflexivity].
    destruct (bool_decide (filename info ∈ cache_files r)); [| reflexivity].
    rewrite <- app_assoc. reflexivity.
Qed.

(** C10. [find_recording_by_text] returns, in the order of the index,
    exactly the rows whose text contains the query once both are put in
    lower case and whose file is in the cache directory; a row that
    matches but whose file is missing is left out. *)
Theorem find_recording_by_text_exact (query : string) (r : AudioRecorder) :
  find_recording_by_text query r
  = map (found_row r)
      (List.filter (row_matches query r) (recording_cache_index r))
  /\ (forall f : Found,
        In f (find_recording_by_text query r) <->
        exists (hash_key : string) (file_info : FileInfo),
          In (hash_key, file_info) (recording_cache_index r)
          /\ Substring (lower query) (lower (text file_info))
          /\ filename file_info ∈ cache_files r
          /\ f = found_row r (hash_key, file_info)).
Proof.
  assert (Heq : find_recording_by_text query r
                = map (found_row r)
                    (List.filter (row_matches query r) (recording_cache_index r)))
    by (unfold find_recording_by_text; by rewrite find_loop_spec).
  assert (Hiff : forall f : Found,
        In f (find_recording_by_text query r) <->
        exists (hash_key : string) (file_info : FileInfo),
          In (hash_key, file_info) (recording_cache_index r)
          /\ Substring (lower query) (lower (text file_info))
          /\ filename file_info ∈ cache_files r
          /\ f = found_row r (hash_key, file_info)).
  { intros f. rewrite Heq, in_map_iff. split.
    - intros ([k info] & <- & Hin). apply filter_In in Hin as [Hin Hm].
      unfold row_matches in Hm. apply andb_true_iff in Hm as [Hs Hf].
      exists k, info. split_and!; try done.
      + by apply str_in_spec.
      + by apply bool_decide_eq_true_1 in Hf.
    - intros (k & info & Hin & Hs & Hf & ->). exists (k, info).
      split; [reflexivity |]. apply filter_In. split; [assumption |].
      unfold row_matches. apply andb_true_iff. split.
      + by apply str_in_spec.
      + by apply bool_decide_eq_true_2. }
  split; [exact Heq | exact Hiff].
Qed.

End Find.

(** ** Capture gate *)

Lemma resume_recording_opens (r : AudioRecorder) :
  is_paused (resume_recording r) = false
  /\ resume_calls (resume_recording r) = S (resume_calls r).
Proof.
  unfold resume_recording. cbn [is_paused print set_console].
  destruct (is_paused r) eqn:E.
  - split; [reflexivity |].
    change (resume_calls (print CallResume r) = S (resume_calls r)).
    rewrite resume_calls_print. cbn. lia.
  - split; [exact E |]. rewrite resume_calls_print. cbn. lia.
Qed.

(** Every path of [process_ai_response] opens the gate; [resume_recording]
    is called once, except when the inner [try] block of the speech output
    raises: then the [finally] clause and the handler both call it, and the
    second call finds the gate open. *)
Lemma process_ai_response_resumes (d : Downstream) (r : AudioRecorder) :
  is_paused (process_ai_response d r) = false
  /\ resume_calls (process_ai_response d r)
     = match get_ai_response d, create_conversation_record d, tts_enabled d,
             import_run_tts_async d, speak d with
       | Returns, Returns, true, Returns, Raises => S (S (resume_calls r))
       | _, _, _, _, _ => S (resume_calls r)
       end.
Proof.
  unfold process_ai_response.
  destruct (get_ai_response d), (create_conversation_record d), (tts_enabled d),
    (import_run_tts_async d), (speak d);
    repeat match goal with
           | |- context [resume_recording ?x] =>
               lazymatch goal with
               | _ : is_paused (resume_recording x) = false |- _ => fail
               | _ => destruct (resume_recording_opens x)
               end
           end;
    split; congruence.
Qed.

Section Gate.
Context `{External}.

(** Nothing is saved, and [None] is returned, when saving is switched off
    or the WAV file cannot be written. *)
Lemma save_recording_file_None (audio_data : bytes) (t : option string)
    (now : Z) (r : AudioRecorder) :
  save_recordings (config r) = false
  \/ (is_Some (speech_recognizer r)
      /\ wav_write_raises
           (recording_filename now (md5_hexdigest audio_data)) = true) ->
  snd (_save_recording_file audio_data t now r) = None.
Proof.
  unfold _save_recording_file, _get_recording_hash.
  intros [Hoff|[[s Hs] Hw]].
  - by rewrite Hoff.
  - destruct (save_recordings (config r)); [| reflexivity]. cbn [negb].
    rewrite Hs. unfold save_wav_file. by rewrite Hw.
Qed.

(** The other paths of a turn of the worker do open the gate. When the
    recognition fails and a recording file is returned, the worker calls
    [resume_recording] once. *)
Lemma recognition_failure_with_file_resumes_once
    (cb : option Callback) (w : Recognition) (r : AudioRecorder)
    (audio_item : AudioItem) (q : list (option AudioItem)) (file : string) :
  asr_consumer_active r = true ->
  asr_queue r = Some audio_item :: q ->
  is_paused r = true ->
  text_truthy (recognized_text w) = false ->
  snd (_save_recording_file (fst (fst audio_item)) (recognized_text w)
         (save_time w)
         (set_asr_stats (count_processed (asr_stats r)) (set_asr_queue q r)))
  = Some file ->
  snd (asr_consumer_turn cb w r) = Looping
  /\ is_paused (fst (asr_consumer_turn cb w r)) = false
  /\ resume_calls (fst (asr_consumer_turn cb w r)) = S (resume_calls r).
Proof.
  intros Hact Hq Hp Htext Hfile.
  unfold asr_consumer_turn. rewrite Hact, Hq. cbn [negb].
  destruct audio_item as [[audio_data audio_length] speech].
  unfold process_item. cbn [fst] in Hfile.
  set (r0 := set_asr_stats _ (set_asr_queue q r)) in *.
  pose proof (cache_frame_save audio_data (recognized_text w) (save_time w) r0)
    as Hframe.
  destruct (_save_recording_file audio_data (recognized_text w) (save_time w) r0)
    as [r1 file']. cbn [fst snd] in *. subst file'. rewrite Htext.
  unfold cache_frame in Hframe. subst r0.
  cbn -[resume_calls utterances_started] in Hframe.
  destruct Hframe as (_ & _ & _ & _ & Hp1 & _ & _ & _ & _ & _ & _ & _ & _ & _
                      & _ & _ & _ & Hc1 & _).
  set (r2 := _ensure_recording_resumed _).
  assert (Hr2 : is_paused r2 = false /\ resume_calls r2 = S (resume_calls r)).
  { subst r2. unfold _ensure_recording_resumed.
    cbn [is_paused print set_console set_recording_stats].
    rewrite Hp1, Hp.
    match goal with
    | |- context [resume_recording ?x] =>
        destruct (resume_recording_opens x) as [Ho Hn]
    end.
    split; [exact Ho |]. rewrite Hn, resume_calls_print. cbn [is_call_resume].
    assert (Hc : resume_calls r1 = resume_calls r) by exact Hc1.
    change (resume_calls (set_recording_stats (count_failed (recording_stats r1)) r1))
      with (resume_calls r1).
    lia. }
  assert (Hdone : match recognized_text w, cb with
                  | Some t, Some cb0 =>
                      if strip_truthy t
                      then call_on_recognition_result cb0 t (Some file) r2
                      else Done r2
                  | _, _ => Done r2
                  end = Done r2).
  { unfold text_truthy in Htext. destruct (recognized_text w) as [t|];
      [rewrite Htext |]; by destruct cb. }
  rewrite Hdone. cbn [fst snd]. destruct Hr2 as [Ho Hn].
  split_and!; [reflexivity | exact Ho | exact Hn].
Qed.

(** When the recognition succeeds, the callback of [main.py] runs
    [process_ai_response], which opens the gate on each of its paths. *)
Lemma recognition_success_resumes
    (d : Downstream) (w : Recognition) (r : AudioRecorder)
    (audio_item : AudioItem) (q : list (option AudioItem)) (t : string) :
  asr_consumer_active r = true ->
  asr_queue r = Some audio_item :: q ->
  recognized_text w = Some t ->
  strip_truthy t = true ->
  snd (asr_consumer_turn (Some (on_recognition_result d)) w r) = Looping
  /\ is_paused (fst (asr_consumer_turn (Some (on_recognition_result d)) w r))
     = false
  /\ resume_calls (fst (asr_consumer_turn (Some (on_recognition_result d)) w r))
     = match get_ai_response d, create_conversation_record d, tts_enabled d,
             import_run_tts_async d, speak d with
       | Returns, Returns, true, Returns, Raises => S (S (resume_calls r))
       | _, _, _, _, _ => S (resume_calls r)
       end.
Proof.
  intros Hact Hq Ht Hstrip.
  unfold asr_consumer_turn. rewrite Hact, Hq. cbn [negb].
  destruct audio_item as [[audio_data audio_length] speech].
  unfold process_item. rewrite Ht. cbn [text_truthy]. rewrite Hstrip.
  set (r0 := set_asr_stats _ (set_asr_queue q r)).
  pose proof (cache_frame_save audio_data (Some t) (save_time w) r0) as Hframe.
  destruct (_save_recording_file audio_data (Some t) (save_time w) r0)
    as [r1 file]. cbn [fst] in Hframe.
  unfold cache_frame in Hframe. subst r0.
  cbn -[resume_calls utterances_started] in Hframe.
  destruct Hframe as (_ & _ & _ & _ & _ & _ & _ & _ & _ & _ & _ & _ & _ & _
                      & _ & _ & _ & Hc1 & _).
  assert (Hc : resume_calls r1 = resume_calls r) by exact Hc1.
  match goal with
  | |- context [call_on_recognition_result _ _ _ ?x] => set (r2 := x)
  end.
  assert (Hc2 : resume_calls r2 = resume_calls r).
  { subst r2. destruct file; [| exact Hc].
    rewrite !resume_calls_print. cbn [is_call_resume]. lia. }
  unfold call_on_recognition_result, on_recognition_result.
  cbn [cb_accepts_recording_file cb_call fst snd].
  destruct (process_ai_response_resumes d r2) as [Ho Hn].
  rewrite Hc2 in Hn. split_and!; [reflexivity | exact Ho | exact Hn].
Qed.

(** C1. A turn of the worker on an utterance whose recognition fails and for
    which no recording file is returned (saving switched off, or the WAV
    file cannot be written) never calls [resume_recording]: the gate, closed
    when the utterance was finalised, is still closed after the turn, and
    the worker goes on to wait for the next item. *)
Theorem gate_left_closed_without_recording_file
    (cb : option Callback) (w : Recognition) (r : AudioRecorder)
    (audio_item : AudioItem) (q : list (option AudioItem)) :
  asr_consumer_active r = true ->
  asr_queue r = Some audio_item :: q ->
  is_paused r = true ->
  text_truthy (recognized_text w) = false ->
  save_recordings (config r) = false
  \/ (is_Some (speech_recognizer r)
      /\ wav_write_raises
           (recording_filename (save_time w)
              (md5_hexdigest (fst (fst audio_item)))) = true) ->
  snd (asr_consumer_turn cb w r) = Looping
  /\ asr_queue (fst (asr_consumer_turn cb w r)) = q
  /\ is_paused (fst (asr_consumer_turn cb w r)) = true
  /\ resume_calls (fst (asr_consumer_turn cb w r)) = resume_calls r.
Proof.
  intros Hact Hq Hp Htext Hsave.
  unfold asr_consumer_turn. rewrite Hact, Hq. cbn [negb].
  destruct audio_item as [[audio_data audio_length] speech].
  unfold process_item. cbn [fst] in Hsave.
  set (r0 := set_asr_stats _ (set_asr_queue q r)).
  pose proof (cache_frame_save audio_data (recognized_text w) (save_time w) r0)
    as Hframe.
  pose proof (save_recording_file_None audio_data (recognized_text w)
                (save_time w) r0 Hsave) as Hnone.
  destruct (_save_recording_file audio_data (recognized_text w) (save_time w) r0)
    as [r1 file]. cbn [fst snd] in *. subst file.
  assert (Hdone : match recognized_text w, cb with
                  | Some t, Some cb0 =>
                      if strip_truthy t
                      then call_on_recognition_result cb0 t None r1
                      else Done r1
                  | _, _ => Done r1
                  end = Done r1).
  { unfold text_truthy in Htext. destruct (recognized_text w) as [t|];
      [rewrite Htext |]; by destruct cb. }
  rewrite Hdone. cbn [fst snd].
  unfold cache_frame in Hframe. subst r0.
  cbn -[resume_calls utterances_started] in Hframe.
  destruct Hframe as (_ & _ & _ & _ & Hp1 & _ & _ & _ & _ & _ & _ & _ & _ & _
                      & Hq1 & _ & _ & Hc1 & _).
  split_and!; [reflexivity | exact Hq1 | congruence | exact Hc1].
Qed.

End Gate.

(** ** Dispatch queue *)

Lemma py_truediv_Some (a b : Z) :
  b <> 0 -> py_truediv a b = Some (inject_Z a / inject_Z b)%Q.
Proof.
  intros Hb. unfold py_truediv. destruct (Z.eqb_spec b 0); [contradiction | done].
Qed.

Lemma is_nil_false {A} (l : list A) : l <> [] -> is_nil l = false.
Proof. by destruct l. Qed.

(** The item that [process_speech_segments] builds from the recorder. *)
Lemma process_speech_segments_dispatch (r : AudioRecorder) :
  speech_segments r <> [] ->
  is_processing r = false ->
  enable_asr r = true ->
  is_Some (speech_recognizer r) ->
  samplerate (config r) <> 0 ->
  let mono_audio := stereo_to_mono (channels (config r)) (concat (speech_segments r)) in
  let audio_length := (inject_Z (len mono_audio) / inject_Z (samplerate (config r) * 2))%Q in
  process_speech_segments r
  = set_is_processing false
      (set_speech_segments []
         (enqueue_or_drop (mono_audio, audio_length, actual_speech_duration r)
            (set_is_processing true r))).
Proof.
  intros Hseg Hproc Hasr Hrec Hsr mono_audio audio_length.
  unfold process_speech_segments. rewrite is_nil_false, Hproc by assumption.
  cbn [orb]. unfold dispatch_segments.
  cbn [speech_segments config set_is_processing enable_asr speech_recognizer
       actual_speech_duration].
  rewrite py_truediv_Some by lia. rewrite Hasr.
  rewrite bool_decide_eq_true_2 by assumption. reflexivity.
Qed.

Lemma put_nowait_full {A} (maxsize : Z) (q : list A) (x : A) :
  0 < maxsize <= len q -> put_nowait maxsize q x = None.
Proof.
  intros [Hpos Hle]. unfold put_nowait.
  destruct (Z.ltb_spec 0 maxsize); [| lia].
  destruct (Z.leb_spec maxsize (len q)); [reflexivity | lia].
Qed.

Lemma put_nowait_room {A} (maxsize : Z) (q : list A) (x : A) :
  ~ (0 < maxsize <= len q) -> put_nowait maxsize q x = Some (q ++ [x]).
Proof.
  intros Hroom. unfold put_nowait.
  destruct (Z.ltb_spec 0 maxsize); [| reflexivity].
  destruct (Z.leb_spec maxsize (len q)); [lia | reflexivity].
Qed.

(** C6. On a full queue the enqueue step of [process_speech_segments]
    returns at once ([put_nowait] answers [queue.Full]), the item is not
    queued, and [dropped] goes up by one; this holds for the step alone and
    for the whole of [process_speech_segments] when it gets as far as the
    enqueue. *)
Theorem full_queue_drops (r : AudioRecorder) :
  queue_full r ->
  (forall audio_item : AudioItem,
     put_nowait (asr_queue_size (config r)) (asr_queue r) (Some audio_item) = None
     /\ asr_queue (enqueue_or_drop audio_item r) = asr_queue r
     /\ dropped (asr_stats (enqueue_or_drop audio_item r))
        = dropped (asr_stats r) + 1
     /\ queued (asr_stats (enqueue_or_drop audio_item r)) = queued (asr_stats r))
  /\ (speech_segments r <> [] ->
      is_processing r = false ->
      enable_asr r = true ->
      is_Some (speech_recognizer r) ->
      samplerate (config r) <> 0 ->
      asr_queue (process_speech_segments r) = asr_queue r
      /\ dropped (asr_stats (process_speech_segments r))
         = dropped (asr_stats r) + 1
      /\ queued (asr_stats (process_speech_segments r)) = queued (asr_stats r)
      /\ speech_segments (process_speech_segments r) = []
      /\ is_processing (process_speech_segments r) = false
      /\ is_paused (process_speech_segments r) = is_paused r).
Proof.
  intros Hfull.
  assert (Hstep : forall (audio_item : AudioItem) (r0 : AudioRecorder),
             config r0 = config r -> asr_queue r0 = asr_queue r ->
             enqueue_or_drop audio_item r0
             = print (MsgQueueFull (snd (fst audio_item)))
                 (set_asr_stats (count_dropped (asr_stats r0)) r0)).
  { intros audio_item r0 Hc Hq. unfold enqueue_or_drop.
    rewrite Hc, Hq. by rewrite put_nowait_full. }
  split.
  - intros audio_item. rewrite Hstep by reflexivity.
    split_and!; try reflexivity. by apply put_nowait_full.
  - intros Hseg Hproc Hasr Hrec Hsr.
    rewrite process_speech_segments_dispatch by assumption.
    rewrite Hstep by reflexivity. split_and!; reflexivity.
Qed.

(** ** Down-mixing *)

Lemma left_channel_frames (n : nat) (d : bytes) :
  length d = (4 * n)%nat ->
  exists m, left_channel d = Some m /\ length m = (2 * n)%nat.
Proof.
  revert d. induction n as [|n IH]; intros d Hd.
  - destruct d; [| discriminate]. exists []. by split.
  - destruct d as [|b0 [|b1 [|b2 [|b3 d]]]]; simpl in Hd; try lia.
    destruct (IH d) as (m & Hm & Hlen); [lia |].
    exists (b0 :: b1 :: m). simpl. rewrite Hm. split; [reflexivity | simpl; lia].
Qed.

Lemma left_channel_app (n : nat) (a b : bytes) :
  length a = (4 * n)%nat ->
  left_channel (a ++ b)
  = match left_channel a, left_channel b with
    | Some x, Some y => Some (x ++ y)
    | _, _ => None
    end.
Proof.
  revert a. induction n as [|n IH]; intros a Ha.
  - destruct a; [| discriminate]. simpl. by destruct (left_channel b).
  - destruct a as [|b0 [|b1 [|b2 [|b3 a]]]]; simpl in Ha; try lia.
    cbn [app left_channel]. rewrite (IH a) by lia.
    destruct (left_channel a), (left_channel b); reflexivity.
Qed.

(** On whole stereo frames the mono stream has half the bytes; with another
    channel count the bytes are returned as they are. *)
Lemma stereo_to_mono_length (channels : Z) (n : nat) (d : bytes) :
  (channels = 2 -> length d = (4 * n)%nat) ->
  length (stereo_to_mono channels d)
  = if channels =? 2 then (2 * n)%nat else length d.
Proof.
  intros Hd. unfold stereo_to_mono.
  destruct (Z.eqb_spec channels 2) as [Hc|Hc].
  - specialize (Hd Hc). destruct (left_channel_frames n d Hd) as (m & Hm & Hlen).
    rewrite Hm.
    assert (He : Nat.even (length d) = true)
      by (apply Nat.even_spec; exists (2 * n)%nat; lia).
    by rewrite He.
  - by destruct (Nat.even (length d)).
Qed.

Lemma stereo_to_mono_app (channels : Z) (n m : nat) (a b : bytes) :
  (channels = 2 -> length a = (4 * n)%nat /\ length b = (4 * m)%nat) ->
  stereo_to_mono channels (a ++ b)
  = stereo_to_mono channels a ++ stereo_to_mono channels b.
Proof.
  intros Hab. unfold stereo_to_mono.
  destruct (Z.eqb_spec channels 2) as [Hc|Hc].
  - destruct (Hab Hc) as [Ha Hb].
    assert (Hea : Nat.even (length a) = true)
      by (apply Nat.even_spec; exists (2 * n)%nat; lia).
    assert (Heb : Nat.even (length b) = true)
      by (apply Nat.even_spec; exists (2 * m)%nat; lia).
    assert (Heab : Nat.even (length (a ++ b)) = true)
      by (apply Nat.even_spec; exists (2 * (n + m))%nat; rewrite length_app; lia).
    rewrite Hea, Heb, Heab.
    rewrite (left_channel_app n) by assumption.
    destruct (left_channel_frames n a Ha) as (x & -> & _).
    destruct (left_channel_frames m b Hb) as (y & -> & _). reflexivity.
  - destruct (Nat.even (length (a ++ b))), (Nat.even (length a)),
      (Nat.even (length b)); reflexivity.
Qed.

(** ** Segmentation *)

(** [classify_window] touches the segmentation state and the console only. *)
Lemma classify_window_frame (raw_audio : bytes) (o : Observation)
    (r : AudioRecorder) :
  let r1 := flow_state (classify_window raw_audio o r) in
  config r1 = config r
  /\ enable_asr r1 = enable_asr r
  /\ speech_recognizer r1 = speech_recognizer r
  /\ recording_cache_index r1 = recording_cache_index r
  /\ cache_files r1 = cache_files r
  /\ is_paused r1 = is_paused r
  /\ is_processing r1 = is_processing r
  /\ recording_stats r1 = recording_stats r
  /\ asr_queue r1 = asr_queue r
  /\ asr_consumer_active r1 = asr_consumer_active r
  /\ asr_stats r1 = asr_stats r
  /\ resume_calls r1 = resume_calls r.
Proof.
  unfold classify_window, resume_calls, print.
  destruct (is_speech_candidate o);
    cbn [is_recording_speech set_consecutive_speech_count show_standby_status
         consecutive_speech_count];
    destruct (is_recording_speech r) eqn:Hrec; cbn [negb andb];
    try destruct (speech_confirmation_threshold <=? consecutive_speech_count r + 1);
    try destruct (show_standby_status r);
    cbn [is_recording_speech set_console set_consecutive_speech_count];
    rewrite ?Hrec; cbn;
    rewrite ?List.filter_app, ?length_app; cbn;
    repeat split; lia.
Qed.

(** A window that is not a speech candidate, met while recording. *)
Lemma classify_window_silence (raw_audio : bytes) (o : Observation)
    (r : AudioRecorder) :
  is_speech_candidate o = false ->
  is_recording_speech r = true ->
  classify_window raw_audio o r
  = Running (set_speech_segments (speech_segments r ++ [raw_audio])
               (set_consecutive_speech_count 0 r)).
Proof.
  intros Ho Hrec. unfold classify_window. rewrite Ho.
  cbn [is_recording_speech set_consecutive_speech_count]. rewrite Hrec.
  cbn [negb andb is_recording_speech set_consecutive_speech_count].
  by rewrite Hrec.
Qed.

Lemma end_of_utterance_check_idle (o : Observation) (r : AudioRecorder) :
  silence_elapsed o r = false -> end_of_utterance_check o r = r.
Proof. intros He. unfold end_of_utterance_check. by rewrite He. Qed.

(** When the utterance ends, the speech duration is set back to zero. *)
Lemma end_of_utterance_check_resets (o : Observation) (r : AudioRecorder) :
  silence_elapsed o r = true ->
  actual_speech_duration (end_of_utterance_check o r) = 0%Q
  /\ is_recording_speech (end_of_utterance_check o r) = false.
Proof.
  intros He. unfold end_of_utterance_check. rewrite He.
  match goal with
  | |- context [if negb (is_paused ?x) then _ else _] =>
      destruct (negb (is_paused x))
  end; split; reflexivity.
Qed.

(** C8. While an utterance is being recorded, a window that is not a speech
    candidate is appended to the segment list: its bytes extend the recorded
    byte stream (and, on whole frames, the mono stream from which the total
    duration is computed), and the speech duration is left as it is. If the
    silence time-out has not elapsed the recorder goes on recording with
    exactly this state; if it has, the utterance ends with this window
    included. No window that is not a speech candidate raises the speech
    duration: after such a window it is what it was, or zero once the
    utterance has ended; a speech candidate met while recording adds the
    0.3 s of its window. *)
Theorem silence_is_retained (o : Observation) (r : AudioRecorder) :
  is_paused r = false ->
  is_recording_speech r = true ->
  let raw_audio := concat (audio_buffer r) in
  (is_speech_candidate o = false ->
   exists r1 : AudioRecorder,
     classify_window raw_audio o r = Running r1
     /\ process_audio_buffer o r = set_audio_buffer [] (end_of_utterance_check o r1)
     /\ speech_segments r1 = speech_segments r ++ [raw_audio]
     /\ recorded_bytes r1 = recorded_bytes r ++ raw_audio
     /\ (len (recorded_bytes r1) = len (recorded_bytes r) + len raw_audio)
     /\ ((channels (config r) = 2 ->
          whole_frames (recorded_bytes r) /\ whole_frames raw_audio) ->
         recorded_mono r1
         = recorded_mono r ++ stereo_to_mono (channels (config r)) raw_audio)
     /\ actual_speech_duration r1 = actual_speech_duration r
     /\ (silence_elapsed o r1 = false ->
         speech_segments (process_audio_buffer o r)
         = speech_segments r ++ [raw_audio]
         /\ actual_speech_duration (process_audio_buffer o r)
            = actual_speech_duration r
         /\ is_recording_speech (process_audio_buffer o r) = true)
     /\ (silence_elapsed o r1 = true ->
         actual_speech_duration (process_audio_buffer o r) = 0%Q
         /\ is_recording_speech (process_audio_buffer o r) = false))
  /\ (is_speech_candidate o = true ->
      exists r1 : AudioRecorder,
        classify_window raw_audio o r = Running r1
        /\ speech_segments r1 = speech_segments r ++ [raw_audio]
        /\ actual_speech_duration r1
           = (actual_speech_duration r + (3 # 10))%Q).
Proof.
  intros Hp Hrec raw_audio. split.
  - intros Ho.
    pose proof (classify_window_silence raw_audio o r Ho Hrec) as Hc.
    eexists. split; [exact Hc |].
    assert (Hpab : process_audio_buffer o r
                   = set_audio_buffer []
                       (end_of_utterance_check o
                          (set_speech_segments (speech_segments r ++ [raw_audio])
                             (set_consecutive_speech_count 0 r)))).
    { unfold process_audio_buffer. rewrite Hp. fold raw_audio. by rewrite Hc. }
    split; [exact Hpab |].
    split; [reflexivity |].
    assert (Hbytes : forall segs : list bytes,
               concat (segs ++ [raw_audio]) = concat segs ++ raw_audio).
    { intros segs. rewrite concat_app. simpl. by rewrite app_nil_r. }
    split; [unfold recorded_bytes; cbn [speech_segments set_speech_segments];
            apply Hbytes |].
    split.
    { unfold recorded_bytes, len. cbn [speech_segments set_speech_segments].
      rewrite Hbytes, length_app. lia. }
    split.
    { intros Hframes. unfold recorded_mono, recorded_bytes.
      cbn [speech_segments set_speech_segments config
           set_consecutive_speech_count].
      rewrite Hbytes.
      destruct (Z.eq_dec (channels (config r)) 2) as [Hc2|Hc2].
      - destruct (Hframes Hc2) as [[n Hn] [m Hm]].
        apply (stereo_to_mono_app _ n m). by intros _.
      - apply (stereo_to_mono_app _ 0 0). intros; contradiction. }
    split; [reflexivity |].
    split.
    + intros Hidle. rewrite Hpab, end_of_utterance_check_idle by exact Hidle.
      cbn. by rewrite Hrec.
    + intros Hend. rewrite Hpab.
      destruct (end_of_utterance_check_resets o _ Hend) as [Hd Hr].
      cbn [actual_speech_duration is_recording_speech set_audio_buffer].
      by split.
  - intros Ho. unfold classify_window. rewrite Ho.
    cbn [is_recording_speech set_consecutive_speech_count]. rewrite Hrec.
    cbn [negb]. eexists. split; [reflexivity |]. split; reflexivity.
Qed.

Lemma classify_window_segments (raw_audio : bytes) (o : Observation)
    (r r1 : AudioRecorder) :
  classify_window raw_audio o r = Running r1 ->
  is_recording_speech r1 = true ->
  exists segs, speech_segments r1 = segs ++ [raw_audio].
Proof.
  destruct (is_speech_candidate o) eqn:Ho, (is_recording_speech r) eqn:Hrec.
  - unfold classify_window. rewrite Ho.
    cbn [is_recording_speech set_consecutive_speech_count]. rewrite Hrec.
    cbn [negb]. intros [= <-] _. eexists. reflexivity.
  - unfold classify_window. rewrite Ho.
    cbn [is_recording_speech set_consecutive_speech_count consecutive_speech_count].
    rewrite Hrec. cbn [negb].
    destruct (speech_confirmation_threshold <=? consecutive_speech_count r + 1);
      [| discriminate].
    intros [= <-] _. by exists [].
  - rewrite classify_window_silence by assumption.
    intros [= <-] _. eexists. reflexivity.
  - intros Hc Hrec1.
    pose proof (classify_window_frame raw_audio o r) as Hf.
    unfold classify_window in Hc. rewrite Ho in Hc.
    cbn [is_recording_speech set_consecutive_speech_count show_standby_status
         negb andb] in Hc.
    rewrite Hrec in Hc. cbn [negb andb] in Hc.
    destruct (show_standby_status r);
      cbn [print is_recording_speech set_console set_consecutive_speech_count] in Hc;
      rewrite Hrec in Hc; injection Hc as <-; cbn in Hrec1; congruence.
Qed.

Lemma silence_elapsed_inv (o : Observation) (r : AudioRecorder) :
  silence_elapsed o r = true ->
  is_recording_speech r = true /\ is_processing r = false.
Proof.
  unfold silence_elapsed. intros He.
  apply andb_true_iff in He as [He Hp]. apply andb_true_iff in He as [Hr _].
  split; [exact Hr | by apply negb_true_iff].
Qed.

(** C2 (as amended). When the silence time-out has elapsed while recording,
    an utterance whose speech duration is below [min_speech_duration] is
    discarded: the queue and its counters are as before, the segments are
    cleared, [short_recordings] goes up by one and the gate stays open. An
    utterance whose speech duration is at least [min_speech_duration] closes
    the gate and is put on the dispatch queue provided recognition is enabled
    with a recogniser present, the sample rate is not zero and the queue is
    not full. *)
Theorem minimum_duration_filter (o : Observation) (r r1 : AudioRecorder) :
  is_paused r = false ->
  classify_window (concat (audio_buffer r)) o r = Running r1 ->
  silence_elapsed o r1 = true ->
  ((actual_speech_duration r1 < min_speech_duration (config r))%Q ->
   asr_queue (process_audio_buffer o r) = asr_queue r
   /\ asr_stats (process_audio_buffer o r) = asr_stats r
   /\ speech_segments (process_audio_buffer o r) = []
   /\ short_recordings (recording_stats (process_audio_buffer o r))
      = short_recordings (recording_stats r) + 1
   /\ is_recording_speech (process_audio_buffer o r) = false
   /\ is_paused (process_audio_buffer o r) = false)
  /\ ((min_speech_duration (config r) <= actual_speech_duration r1)%Q ->
      enable_asr r = true ->
      is_Some (speech_recognizer r) ->
      samplerate (config r) <> 0 ->
      ~ queue_full r ->
      asr_queue (process_audio_buffer o r)
      = asr_queue r
        ++ [Some (recorded_mono r1,
                  (inject_Z (len (recorded_mono r1))
                   / inject_Z (samplerate (config r) * 2))%Q,
                  actual_speech_duration r1)]
      /\ queued (asr_stats (process_audio_buffer o r)) = queued (asr_stats r) + 1
      /\ dropped (asr_stats (process_audio_buffer o r)) = dropped (asr_stats r)
      /\ speech_segments (process_audio_buffer o r) = []
      /\ is_recording_speech (process_audio_buffer o r) = false
      /\ is_paused (process_audio_buffer o r) = true).
Proof.
  intros Hp Hc Hend.
  pose proof (classify_window_frame (concat (audio_buffer r)) o r) as Hf.
  rewrite Hc in Hf. cbn [flow_state] in Hf.
  destruct Hf as (Hcfg & Hasr & Hrecog & _ & _ & Hp1 & _ & Hst & Hq & _ & Hqs & _).
  destruct (silence_elapsed_inv o r1 Hend) as [Hrec1 Hproc1].
  destruct (classify_window_segments _ o r r1 Hc Hrec1) as [segs Hsegs].
  assert (Hpab : process_audio_buffer o r
                 = set_audio_buffer [] (end_of_utterance_check o r1)).
  { unfold process_audio_buffer. by rewrite Hp, Hc. }
  rewrite Hpab. unfold end_of_utterance_check. rewrite Hend, Hcfg.
  split.
  - intros Hshort.
    assert (Hb : Qle_bool (min_speech_duration (config r))
                   (actual_speech_duration r1) = false).
    { destruct (Qle_bool _ _) eqn:E; [| reflexivity].
      apply Qle_bool_iff in E. exfalso. eapply Qlt_not_le; eassumption. }
    rewrite Hb. cbn. rewrite Hp1, Hp. cbn. rewrite Hq, Hqs, Hst.
    split_and!; try reflexivity; congruence.
  - intros Hlong Hen Hsome Hsr Hroom.
    assert (Hb : Qle_bool (min_speech_duration (config r))
                   (actual_speech_duration r1) = true)
      by (by apply Qle_bool_iff).
    rewrite Hb.
    set (r2 := set_show_standby_status false (set_is_paused true r1)).
    assert (Hdisp := process_speech_segments_dispatch r2).
    cbn [r2 speech_segments is_processing enable_asr speech_recognizer config
         set_show_standby_status set_is_paused actual_speech_duration] in Hdisp.
    rewrite Hcfg in Hdisp.
    rewrite Hdisp; try congruence.
    2: { rewrite Hsegs. by destruct segs. }
    unfold enqueue_or_drop.
    cbn [config asr_queue set_is_processing set_show_standby_status set_is_paused r2].
    rewrite Hcfg, Hq.
    rewrite put_nowait_room by exact Hroom.
    cbn. rewrite Hqs. unfold recorded_mono, recorded_bytes. rewrite Hcfg.
    split_and!; reflexivity.
Qed.

(** *** Confirmation hysteresis *)

Ltac crush_frame :=
  unfold utterances_started, resume_calls, print in *;
  cbn in *; rewrite ?List.filter_app, ?length_app; cbn;
  repeat split; try lia; try congruence.

(** What the dispatch and the end of an utterance leave alone. *)
Lemma process_speech_segments_frame (r : AudioRecorder) :
  let r' := process_speech_segments r in
  config r' = config r
  /\ consecutive_speech_count r' = consecutive_speech_count r
  /\ utterances_started r' = utterances_started r
  /\ resume_calls r' = resume_calls r
  /\ is_paused r' = is_paused r
  /\ audio_buffer r' = audio_buffer r
  /\ is_recording_speech r' = is_recording_speech r
  /\ actual_speech_duration r' = actual_speech_duration r
  /\ enable_asr r' = enable_asr r
  /\ speech_recognizer r' = speech_recognizer r
  /\ recording_active r' = recording_active r.
Proof.
  unfold process_speech_segments.
  destruct (is_nil (speech_segments r) || is_processing r); [crush_frame |].
  unfold dispatch_segments, enqueue_or_drop.
  cbn [speech_segments config set_is_processing enable_asr speech_recognizer
       actual_speech_duration asr_queue].
  destruct (py_truediv _ _); [| crush_frame].
  destruct (enable_asr r && bool_decide (is_Some (speech_recognizer r))).
  - destruct (put_nowait _ _ _); crush_frame.
  - destruct (speech_recognizer r) eqn:Hs; crush_frame.
Qed.

Lemma end_of_utterance_check_frame (o : Observation) (r : AudioRecorder) :
  let r' := end_of_utterance_check o r in
  config r' = config r
  /\ consecutive_speech_count r' = consecutive_speech_count r
  /\ utterances_started r' = utterances_started r
  /\ resume_calls r' = resume_calls r
  /\ audio_buffer r' = audio_buffer r
  /\ enable_asr r' = enable_asr r
  /\ speech_recognizer r' = speech_recognizer r
  /\ recording_active r' = recording_active r.
Proof.
  unfold end_of_utterance_check.
  destruct (silence_elapsed o r); [| crush_frame].
  destruct (Qle_bool _ _).
  - pose proof (process_speech_segments_frame
                  (set_show_standby_status false (set_is_paused true r))) as Hf.
    cbn zeta in Hf.
    destruct Hf as (H1 & H2 & H3 & H4 & H5 & H6 & H7 & H8 & H9 & H10 & H11).
    match goal with
    | |- context [if negb (is_paused ?x) then _ else _] =>
        destruct (negb (is_paused x))
    end;
      cbn -[process_speech_segments utterances_started resume_calls] in *;
      repeat split; assumption.
  - match goal with
    | |- context [if negb (is_paused ?x) then _ else _] =>
        destruct (negb (is_paused x))
    end; crush_frame.
Qed.

Lemma utterances_started_after_check (o : Observation) (r : AudioRecorder) :
  utterances_started (set_audio_buffer [] (end_of_utterance_check o r))
  = utterances_started r.
Proof.
  destruct (end_of_utterance_check_frame o r) as (_ & _ & Hu & _). exact Hu.
Qed.

Lemma count_after_check (o : Observation) (r : AudioRecorder) :
  consecutive_speech_count (set_audio_buffer [] (end_of_utterance_check o r))
  = consecutive_speech_count r.
Proof.
  destruct (end_of_utterance_check_frame o r) as (_ & Hu & _). exact Hu.
Qed.

(** An utterance begins in a run of [process_audio_buffer] only on a speech
    candidate that brings the counter to the threshold. *)
Lemma start_needs_confirmation (o : Observation) (r : AudioRecorder) :
  utterances_started (process_audio_buffer o r) <> utterances_started r ->
  is_paused r = false
  /\ is_speech_candidate o = true
  /\ is_recording_speech r = false
  /\ speech_confirmation_threshold <= consecutive_speech_count r + 1.
Proof.
  unfold process_audio_buffer.
  destruct (is_paused r) eqn:Hp; [congruence |].
  set (raw_audio := concat (audio_buffer r)).
  destruct (is_speech_candidate o) eqn:Ho.
  - destruct (is_recording_speech r) eqn:Hrec.
    + unfold classify_window. rewrite Ho.
      cbn [is_recording_speech set_consecutive_speech_count]. rewrite Hrec.
      cbn [negb]. intros Hne. exfalso. apply Hne.
      rewrite utterances_started_after_check. reflexivity.
    + intros Hne. split_and!; try reflexivity.
      destruct (Z.leb_spec speech_confirmation_threshold
                  (consecutive_speech_count r + 1)) as [Hle|Hlt]; [exact Hle |].
      exfalso. apply Hne. unfold classify_window. rewrite Ho.
      cbn [is_recording_speech set_consecutive_speech_count
           consecutive_speech_count]. rewrite Hrec. cbn [negb].
      destruct (Z.leb_spec speech_confirmation_threshold
                  (consecutive_speech_count r + 1)); [lia | reflexivity].
  - intros Hne. exfalso. apply Hne.
    unfold classify_window. rewrite Ho.
    rewrite utterances_started_after_check.
    cbn [is_recording_speech set_consecutive_speech_count show_standby_status].
    destruct (negb (is_recording_speech r) && show_standby_status r);
      destruct (is_recording_speech r) eqn:Hrec;
      cbn [print is_recording_speech set_console set_consecutive_speech_count];
      rewrite ?Hrec; crush_frame.
Qed.

(** The counter goes back to zero on every evaluated window that is not a
    speech candidate. *)
Lemma nonspeech_resets_counter (o : Observation) (r : AudioRecorder) :
  is_paused r = false ->
  is_speech_candidate o = false ->
  consecutive_speech_count (process_audio_buffer o r) = 0.
Proof.
  intros Hp Ho. unfold process_audio_buffer. rewrite Hp.
  unfold classify_window. rewrite Ho. rewrite count_after_check.
  cbn [is_recording_speech set_consecutive_speech_count show_standby_status].
  destruct (negb (is_recording_speech r) && show_standby_status r);
    destruct (is_recording_speech r) eqn:Hrec;
    cbn [print is_recording_speech set_console set_consecutive_speech_count];
    rewrite ?Hrec; reflexivity.
Qed.

(** A step that evaluates no window leaves the counter alone. *)
Lemma idle_step_keeps_counter (r : AudioRecorder) (e : Event) :
  match e with
  | EvWindow _ _ => is_paused r = true
  | _ => True
  end ->
  consecutive_speech_count (capture_step r e) = consecutive_speech_count r.
Proof.
  destruct e as [buffer o| |]; cbn [capture_step].
  - intros Hp. unfold process_audio_buffer. cbn [is_paused set_audio_buffer].
    by rewrite Hp.
  - intros _. unfold pause_recording. by destruct (negb (is_paused r)).
  - intros _. unfold resume_recording.
    cbn [is_paused print set_console]. by destruct (is_paused r).
Qed.

(** If the counter is positive after a run, then either no window was
    evaluated and the counter is what it was, or the last evaluated window
    was a speech candidate. *)
Lemma positive_counter_last_window (es : list Event) (r : AudioRecorder) :
  1 <= consecutive_speech_count (capture_run r es) ->
  (evaluated r es = []
   /\ consecutive_speech_count (capture_run r es) = consecutive_speech_count r)
  \/ (exists h o', evaluated r es = h ++ [o'] /\ is_speech_candidate o' = true).
Proof.
  revert r. induction es as [|e es IH]; intros r Hpos.
  - left. by split.
  - cbn [capture_run fold_left] in Hpos |- *.
    change (fold_left capture_step es (capture_step r e))
      with (capture_run (capture_step r e) es) in *.
    cbn [evaluated].
    destruct (IH _ Hpos) as [[Hnil Hsame]|(h & o' & Hev & Ho')].
    + rewrite Hnil, app_nil_r.
      destruct e as [buffer o| |].
      * destruct (is_paused r) eqn:Hp.
        -- left. split; [reflexivity |]. rewrite Hsame.
           by apply idle_step_keeps_counter.
        -- right. exists [], o. split; [reflexivity |].
           destruct (is_speech_candidate o) eqn:Ho; [reflexivity |].
           exfalso. rewrite Hsame in Hpos. cbn [capture_step] in Hpos.
           rewrite nonspeech_resets_counter in Hpos by done. lia.
      * left. split; [reflexivity |]. rewrite Hsame.
        by apply idle_step_keeps_counter.
      * left. split; [reflexivity |]. rewrite Hsame.
        by apply idle_step_keeps_counter.
    + right. rewrite Hev, app_assoc. eauto.
Qed.

Section Hysteresis.
Context `{External}.

(** A recorder fresh from its constructor: gate open, nothing recorded. *)
Lemma init_fresh (c : Config) (enable_asr0 model_loads : bool)
    (index : list (string * FileInfo)) (files : gset string) (now : Q)
    (r0 : AudioRecorder) :
  init c enable_asr0 model_loads index files now = Done r0 ->
  config r0 = c
  /\ is_paused r0 = false
  /\ is_recording_speech r0 = false
  /\ consecutive_speech_count r0 = 0
  /\ speech_segments r0 = []
  /\ audio_buffer r0 = []
  /\ asr_queue r0 = []
  /\ actual_speech_duration r0 = 0%Q
  /\ recording_active r0 = true.
Proof.
  unfold init. destruct (max_cache_files c <? len index).
  - match goal with
    | |- _cleanup_recording_cache ?x = _ -> _ =>
        pose proof (cache_frame_cleanup x) as Hf
    end.
    intros Hc. rewrite Hc in Hf. unfold cache_frame in Hf. cbn in Hf.
    destruct Hf as (? & ? & ? & ? & ? & ? & ? & ? & ? & ? & ? & ? & ? & ? & ? & ?).
    split_and!; assumption.
  - intros [= <-]. split_and!; reflexivity.
Qed.

(** C4. From a freshly built recorder, over every sequence of detection
    windows and gate operations: an utterance begins only on a window that
    is a speech candidate (verdict true and amplitude above the threshold)
    and whose predecessor among the evaluated windows is one too, that is
    after [speech_confirmation_threshold] = 2 consecutive candidates. From
    any recorder at rest with its counter at zero, a speech candidate
    followed by a window that is not one begins no utterance, records
    nothing and leaves the counter at zero; and every evaluated window that
    is not a speech candidate sets the counter to zero. *)
Theorem confirmation_hysteresis (c : Config) (enable_asr0 model_loads : bool)
    (index : list (string * FileInfo)) (files : gset string) (now : Q)
    (r0 : AudioRecorder) :
  init c enable_asr0 model_loads index files now = Done r0 ->
  (forall (es : list Event) (buffer : list bytes) (o : Observation),
     utterances_started (capture_step (capture_run r0 es) (EvWindow buffer o))
     <> utterances_started (capture_run r0 es) ->
     is_paused (capture_run r0 es) = false
     /\ is_speech_candidate o = true
     /\ exists (h : list Observation) (o' : Observation),
          evaluated r0 es = h ++ [o'] /\ is_speech_candidate o' = true)
  /\ (forall (r : AudioRecorder) (b1 b2 : list bytes) (o1 o2 : Observation),
        is_paused r = false ->
        is_recording_speech r = false ->
        consecutive_speech_count r = 0 ->
        is_speech_candidate o1 = true ->
        is_speech_candidate o2 = false ->
        let r1 := capture_step r (EvWindow b1 o1) in
        let r2 := capture_step r1 (EvWindow b2 o2) in
        utterances_started r1 = utterances_started r
        /\ utterances_started r2 = utterances_started r
        /\ is_recording_speech r1 = false
        /\ is_recording_speech r2 = false
        /\ speech_segments r2 = speech_segments r
        /\ asr_queue r2 = asr_queue r
        /\ consecutive_speech_count r2 = 0)
  /\ (forall (r : AudioRecorder) (buffer : list bytes) (o : Observation),
        is_paused r = false ->
        is_speech_candidate o = false ->
        consecutive_speech_count (capture_step r (EvWindow buffer o)) = 0).
Proof.
  intros Hinit.
  destruct (init_fresh _ _ _ _ _ _ _ Hinit) as (_ & _ & _ & Hc0 & _).
  split_and!.
  - intros es buffer o Hne. cbn [capture_step] in Hne.
    change (utterances_started (capture_run r0 es))
      with (utterances_started (set_audio_buffer buffer (capture_run r0 es)))
      in Hne.
    apply start_needs_confirmation in Hne as (Hp & Ho & _ & Hth).
    cbn [is_paused consecutive_speech_count set_audio_buffer] in Hp, Hth.
    unfold speech_confirmation_threshold in Hth.
    split_and!; [exact Hp | exact Ho |].
    destruct (positive_counter_last_window es r0) as [[_ Hsame]|Hlast];
      [lia | | exact Hlast].
    rewrite Hsame, Hc0 in Hth. lia.
  - intros r b1 b2 o1 o2 Hp Hrec Hc Ho1 Ho2 r1 r2.
    assert (Hr1 : r1 = set_consecutive_speech_count 1 (set_audio_buffer b1 r)).
    { subst r1. cbn [capture_step]. unfold process_audio_buffer.
      cbn [is_paused set_audio_buffer]. rewrite Hp.
      unfold classify_window. rewrite Ho1.
      cbn [is_recording_speech set_consecutive_speech_count
           consecutive_speech_count set_audio_buffer].
      rewrite Hrec, Hc. reflexivity. }
    assert (Hr2 : exists x,
               r2 = set_audio_buffer [] x
               /\ utterances_started x = utterances_started r
               /\ is_recording_speech x = false
               /\ speech_segments x = speech_segments r
               /\ asr_queue x = asr_queue r
               /\ consecutive_speech_count x = 0).
    { subst r2. rewrite Hr1. cbn [capture_step]. unfold process_audio_buffer.
      cbn [is_paused set_audio_buffer set_consecutive_speech_count]. rewrite Hp.
      unfold classify_window. rewrite Ho2.
      cbn [is_recording_speech set_consecutive_speech_count set_audio_buffer
           show_standby_status].
      rewrite Hrec. cbn [negb andb].
      destruct (show_standby_status r);
        cbn [print is_recording_speech set_console set_consecutive_speech_count
             set_audio_buffer];
        rewrite Hrec;
        (rewrite end_of_utterance_check_idle;
         [| unfold silence_elapsed; cbn; by rewrite Hrec]);
        eexists; (split; [reflexivity |]); crush_frame. }
    destruct Hr2 as (x & -> & Hu & Hr & Hs & Hq & Hcnt).
    rewrite Hr1. split_and!; try done.
  - intros r buffer o Hp Ho. cbn [capture_step].
    by apply nonspeech_resets_counter.
Qed.

End Hysteresis.

(** ** Recording cache *)

(** *** Sorting *)

Section SortedBy.
Context {A : Type} (key : A -> Z).

Lemma insert_by_perm (x : A) (l : list A) : Permutation (insert_by key x l) (x :: l).
Proof.
  induction l as [|y l IH]; simpl; [reflexivity |].
  destruct (key x <=? key y); [reflexivity |].
  rewrite IH. apply perm_swap.
Qed.

Lemma sorted_by_perm (l : list A) : Permutation (sorted_by key l) l.
Proof.
  induction l as [|x l IH]; simpl; [reflexivity |].
  rewrite insert_by_perm. by constructor.
Qed.

Lemma insert_by_sorted (x : A) (l : list A) :
  StronglySorted (fun a b => key a <= key b) l ->
  StronglySorted (fun a b => key a <= key b) (insert_by key x l).
Proof.
  induction 1 as [|y l Hs IH Hy]; simpl; [repeat constructor |].
  destruct (Z.leb_spec (key x) (key y)).
  - constructor; [by constructor |]. constructor; [assumption |].
    eapply List.Forall_impl; [| exact Hy]. simpl. intros. lia.
  - constructor; [assumption |].
    eapply Permutation_Forall; [symmetry; apply insert_by_perm |].
    constructor; [lia | assumption].
Qed.

Lemma sorted_by_sorted (l : list A) :
  StronglySorted (fun a b => key a <= key b) (sorted_by key l).
Proof.
  induction l as [|x l IH]; simpl; [constructor | by apply insert_by_sorted].
Qed.

Lemma sorted_app_le (l1 l2 : list A) (x y : A) :
  StronglySorted (fun a b => key a <= key b) (l1 ++ l2) ->
  In x l1 -> In y l2 -> key x <= key y.
Proof.
  induction l1 as [|a l1 IH]; simpl; [tauto |].
  intros Hs [<-|Hx] Hy; inversion Hs as [|? ? Hs' Ha]; subst.
  - rewrite List.Forall_forall in Ha. apply Ha, in_or_app. by right.
  - by apply IH.
Qed.
End SortedBy.

(** *** Removing several keys *)

Lemma dict_del_keeps_key {V} (k k0 : string) (d : list (string * V)) :
  In k0 (dict_keys d) -> k0 <> k -> In k0 (dict_keys (dict_del k d)).
Proof.
  induction d as [|[k' v] d IH]; simpl; [tauto |].
  intros [<-|Hin] Hne.
  - destruct (String.eqb_spec k k'); [congruence | by left].
  - destruct (String.eqb k k'); [assumption | right; auto].
Qed.

Lemma remove_keys_NoDup {V} (ks : list string) (d : list (string * V)) :
  List.NoDup (dict_keys d) -> List.NoDup (dict_keys (remove_keys ks d)).
Proof.
  revert d. induction ks as [|k ks IH]; intros d Hnd; simpl; [assumption |].
  apply IH. by apply dict_del_NoDup.
Qed.

Lemma remove_keys_In {V} (ks : list string) (d : list (string * V))
    (x : string * V) :
  List.NoDup (dict_keys d) ->
  In x (remove_keys ks d) <-> In x d /\ ~ In (fst x) ks.
Proof.
  revert d. induction ks as [|k ks IH]; intros d Hnd; simpl; [tauto |].
  rewrite IH by (by apply dict_del_NoDup). split.
  - intros [Hin Hni]. split; [by eapply dict_del_In |].
    intros [->|Hk]; [| contradiction].
    eapply dict_del_gone; [exact Hnd |].
    unfold dict_keys. apply in_map_iff. eauto.
  - intros [Hin Hni]. split; [| tauto].
    apply dict_del_other; [assumption | intros Heq; apply Hni; by left].
Qed.

Lemma remove_keys_length {V} (ks : list string) (d : list (string * V)) :
  List.NoDup (dict_keys d) -> List.NoDup ks -> incl ks (dict_keys d) ->
  (length (remove_keys ks d) + length ks = length d)%nat.
Proof.
  revert d. induction ks as [|k ks IH]; intros d Hnd Hks Hincl; simpl; [lia |].
  apply List.NoDup_cons_iff in Hks as [Hk Hks].
  rewrite <- (dict_del_length k d) by (apply Hincl; by left).
  rewrite <- (IH (dict_del k d)); [lia | by apply dict_del_NoDup | assumption |].
  intros k0 Hk0. apply dict_del_keeps_key; [apply Hincl; by right | congruence].
Qed.

Lemma NoDup_keys_unique {V} (d : list (string * V)) (k : string) (v v' : V) :
  List.NoDup (dict_keys d) -> In (k, v) d -> In (k, v') d -> v = v'.
Proof.
  induction d as [|[k0 v0] d IH]; simpl; [tauto |].
  intros Hnd. apply List.NoDup_cons_iff in Hnd as [Hni Hnd].
  intros [E|Hin] [E'|Hin']; simplify_eq.
  - reflexivity.
  - exfalso. apply Hni. unfold dict_keys. apply in_map_iff. by exists (k, v').
  - exfalso. apply Hni. unfold dict_keys. apply in_map_iff. by exists (k, v).
  - by apply IH.
Qed.

(** *** Eviction *)

Section Eviction.
Context `{External}.
Hypothesis unlink_works : forall f : string, unlink_raises f = false.

Lemma evict_entry_index (k : string) (info : FileInfo) (r : AudioRecorder) :
  recording_cache_index (evict_entry k info r)
  = dict_del k (recording_cache_index r)
  /\ config (evict_entry k info r) = config r.
Proof.
  unfold evict_entry. rewrite unlink_works.
  by destruct (bool_decide (filename info ∈ cache_files r)).
Qed.

Lemma evict_oldest_index (n : nat) (items : list (string * FileInfo))
    (r : AudioRecorder) :
  (n <= length items)%nat ->
  exists r',
    evict_oldest n items r = Done r'
    /\ recording_cache_index r'
       = remove_keys (map fst (firstn n items)) (recording_cache_index r)
    /\ config r' = config r.
Proof.
  revert items r. induction n as [|n IH]; intros items r Hn.
  - exists r. by split_and!.
  - destruct items as [|[k info] items]; [simpl in Hn; lia |].
    destruct (IH items (evict_entry k info r)) as (r' & Hr' & Hidx & Hcfg);
      [simpl in Hn; lia |].
    destruct (evict_entry_index k info r) as [Hi Hc].
    exists r'. split_and!; [exact Hr' | | congruence].
    rewrite Hidx, Hi. reflexivity.
Qed.

(** After a clean-up the index is within the limit, and what went is no
    newer than what stayed. *)
Lemma cleanup_bounds (r : AudioRecorder) :
  0 <= max_cache_files (config r) ->
  List.NoDup (dict_keys (recording_cache_index r)) ->
  exists r',
    _cleanup_recording_cache r = Done r'
    /\ config r' = config r
    /\ len (recording_cache_index r') <= max_cache_files (config r)
    /\ List.NoDup (dict_keys (recording_cache_index r'))
    /\ newest_retained (recording_cache_index r) (recording_cache_index r')
    /\ (forall x, In x (recording_cache_index r') -> In x (recording_cache_index r)).
Proof.
  intros Hmax Hnd. unfold _cleanup_recording_cache.
  destruct (Z.leb_spec (len (recording_cache_index r)) (max_cache_files (config r)))
    as [Hle|Hgt].
  - exists r. split_and!; try done. intros k v k' v' Hin Hni. contradiction.
  - set (d := recording_cache_index r) in *.
    set (s := sorted_by (fun x => created (snd x)) d).
    set (n := Z.to_nat (len d - max_cache_files (config r))).
    assert (Hperm : Permutation s d) by apply sorted_by_perm.
    assert (Hlen : length s = length d) by (by apply Permutation_length).
    assert (Hn : (n <= length s)%nat) by (unfold len in *; lia).
    destruct (evict_oldest_index n s r Hn) as (r' & Hr' & Hidx & Hcfg).
    fold d in Hidx. set (ks := map fst (firstn n s)) in *.
    assert (Hsplit : s = firstn n s ++ skipn n s) by (by rewrite firstn_skipn).
    assert (Hnds : List.NoDup (map fst s)).
    { eapply Permutation_NoDup; [| exact Hnd].
      symmetry. by apply Permutation_map. }
    assert (Hndks : List.NoDup ks).
    { rewrite Hsplit, map_app in Hnds. by apply List.NoDup_app_remove_r in Hnds. }
    assert (Hincl : incl ks (dict_keys d)).
    { intros k Hk. unfold ks in Hk. apply in_map_iff in Hk as (x & <- & Hx).
      unfold dict_keys. apply in_map. eapply Permutation_in; [exact Hperm |].
      rewrite Hsplit. apply in_or_app. by left. }
    exists r'. split_and!; [exact Hr' | exact Hcfg | | | |].
    + pose proof (remove_keys_length ks d Hnd Hndks Hincl) as Hl.
      assert (length ks = n) by (unfold ks; rewrite length_map, length_firstn; lia).
      rewrite Hidx. unfold len in *. lia.
    + rewrite Hidx. by apply remove_keys_NoDup.
    + intros k v k' v' Hin Hgone Hkept. rewrite Hidx in Hgone, Hkept.
      rewrite remove_keys_In in Hgone, Hkept by assumption.
      destruct Hkept as [Hin' Hk'].
      assert (Hk : In k ks).
      { destruct (in_dec string_dec k ks); [assumption |].
        exfalso. apply Hgone. by split. }
      assert (Hfirst : In (k, v) (firstn n s)).
      { unfold ks in Hk. apply in_map_iff in Hk as ([k0 v0] & Hk0 & Hx).
        simpl in Hk0. subst k0.
        assert (In (k, v0) d).
        { eapply Permutation_in; [exact Hperm |]. rewrite Hsplit.
          apply in_or_app. by left. }
        by rewrite (NoDup_keys_unique d k v v0 Hnd). }
      assert (Hlast : In (k', v') (skipn n s)).
      { assert (Hs' : In (k', v') s)
          by (eapply Permutation_in; [symmetry; exact Hperm | assumption]).
        rewrite Hsplit in Hs'. apply in_app_or in Hs' as [Hf|Hl]; [| assumption].
        exfalso. apply Hk'. unfold ks. apply in_map_iff. by exists (k', v'). }
      apply (sorted_app_le (fun x => created (snd x)) (firstn n s) (skipn n s)
               (k, v) (k', v')); [| assumption | assumption].
      rewrite <- Hsplit. apply sorted_by_sorted.
    + intros x Hx. rewrite Hidx in Hx.
      apply remove_keys_In in Hx; [tauto | assumption].
Qed.

End Eviction.

(** *** Puts *)

Section Puts.
Context `{External}.




End Puts.

(** ** Worker-fatal errors *)

Lemma ensure_resumed_opens (r : AudioRecorder) :
  is_paused (_ensure_recording_resumed r) = false
  /\ enable_asr (_ensure_recording_resumed r) = enable_asr r
  /\ speech_recognizer (_ensure_recording_resumed r) = speech_recognizer r
  /\ asr_queue (_ensure_recording_resumed r) = asr_queue r
  /\ config (_ensure_recording_resumed r) = config r.
Proof.
  unfold _ensure_recording_resumed, resume_recording.
  cbn [is_paused print set_console].
  destruct (is_paused r) eqn:Hp; cbn; by rewrite ?Hp.
Qed.

Section Worker.
Context `{External}.

(** C7 (as amended). When the turn of the worker on an item raises an
    exception whose message, in lower case, contains "memory" or "model",
    the worker opens the gate if it was closed, sets
    [asr_consumer_active] to false and leaves its loop, and any later turn
    exits at once. [enable_asr] and the recogniser are left as the failing
    turn found them, and [process_speech_segments] never reads
    [asr_consumer_active]: an utterance finalised afterwards is still put
    on the queue when recognition is enabled and the queue has room. *)
Theorem fatal_error_stops_the_worker_only
    (cb : option Callback) (w : Recognition) (r : AudioRecorder)
    (audio_item : AudioItem) (q : list (option AudioItem))
    (e : PyException) (r1 : AudioRecorder) :
  asr_consumer_active r = true ->
  asr_queue r = Some audio_item :: q ->
  process_item cb w audio_item (set_asr_queue q r) = Raised e r1 ->
  is_fatal e = true ->
  snd (asr_consumer_turn cb w r) = Exited
  /\ asr_consumer_active (fst (asr_consumer_turn cb w r)) = false
  /\ is_paused (fst (asr_consumer_turn cb w r)) = false
  /\ enable_asr (fst (asr_consumer_turn cb w r)) = enable_asr r1
  /\ speech_recognizer (fst (asr_consumer_turn cb w r)) = speech_recognizer r1
  /\ asr_queue (fst (asr_consumer_turn cb w r)) = asr_queue r1
  /\ (forall (cb' : option Callback) (w' : Recognition),
        asr_consumer_turn cb' w' (fst (asr_consumer_turn cb w r))
        = (fst (asr_consumer_turn cb w r), Exited))
  /\ (forall r2 : AudioRecorder,
        asr_consumer_active r2 = false ->
        speech_segments r2 <> [] ->
        is_processing r2 = false ->
        enable_asr r2 = true ->
        is_Some (speech_recognizer r2) ->
        samplerate (config r2) <> 0 ->
        ~ queue_full r2 ->
        asr_queue (process_speech_segments r2)
        = asr_queue r2
          ++ [Some (recorded_mono r2,
                    (inject_Z (len (recorded_mono r2))
                     / inject_Z (samplerate (config r2) * 2))%Q,
                    actual_speech_duration r2)]
        /\ queued (asr_stats (process_speech_segments r2))
           = queued (asr_stats r2) + 1
        /\ dropped (asr_stats (process_speech_segments r2))
           = dropped (asr_stats r2)).
Proof.
  intros Hact Hq Hraise Hfatal.
  assert (Hturn : asr_consumer_turn cb w r
                  = (set_asr_consumer_active false
                       (print MsgWorkerFatal
                          (_ensure_recording_resumed (print (MsgWorkerError e) r1))),
                     Exited)).
  { unfold asr_consumer_turn. rewrite Hact, Hq. cbn [negb].
    by rewrite Hraise, Hfatal. }
  rewrite Hturn. cbn [fst snd].
  destruct (ensure_resumed_opens (print (MsgWorkerError e) r1))
    as (Hp & Hen & Hrec & Hqueue & _).
  split_and!; try reflexivity.
  - exact Hp.
  - cbn [enable_asr set_asr_consumer_active print set_console]. exact Hen.
  - cbn [speech_recognizer set_asr_consumer_active print set_console]. exact Hrec.
  - cbn [asr_queue set_asr_consumer_active print set_console]. exact Hqueue.
  - intros r2 _ Hseg Hproc Hen2 Hrec2 Hsr Hroom.
    rewrite process_speech_segments_dispatch by assumption.
    unfold enqueue_or_drop. cbn [config asr_queue set_is_processing].
    rewrite put_nowait_room by exact Hroom.
    split_and!; reflexivity.
Qed.

End Worker.

(** ** Speech duration and total duration *)

Section Durations.
Variable c : Config.
Hypothesis samplerate_pos : 0 < samplerate c.
Hypothesis channels_pos : 1 <= channels c.

Lemma concat_segments_ok (segs : list bytes) :
  Forall (segment_ok c) segs ->
  3 * (samplerate c * channels c * 2) * len segs <= 10 * len (concat segs)
  /\ (channels c = 2 -> whole_frames (concat segs)).
Proof.
  induction 1 as [|s segs [Hs Hw] _ [IHl IHw]].
  - split; [unfold len; cbn [concat length]; lia | intros _; by exists 0%nat].
  - unfold len in *. cbn [concat length]. rewrite length_app. split; [lia |].
    intros Hc. destruct (Hw Hc) as [n Hn], (IHw Hc) as [m Hm].
    exists (n + m)%nat. rewrite length_app. lia.
Qed.

(** The mono stream of sound segments is at least 0.3 s per segment. *)
Lemma mono_length_bound (segs : list bytes) :
  Forall (segment_ok c) segs ->
  3 * (samplerate c * 2) * len segs
  <= 10 * len (stereo_to_mono (channels c) (concat segs)).
Proof.
  intros Hsegs. destruct (concat_segments_ok segs Hsegs) as [Hlen Hw].
  unfold len in *.
  destruct (Z.eq_dec (channels c) 2) as [Hc|Hc].
  - destruct (Hw Hc) as [n Hn].
    rewrite (stereo_to_mono_length _ n) by (by intros _).
    rewrite Hc in *. cbn [Z.eqb Pos.eqb]. lia.
  - rewrite (stereo_to_mono_length _ 0).
    + destruct (Z.eqb_spec (channels c) 2); [contradiction | nia].
    + intros; contradiction.
Qed.

Lemma speech_le_total (segs : list bytes) (speech : Q) :
  Forall (segment_ok c) segs ->
  (speech <= (3 # 10) * inject_Z (len segs))%Q ->
  (speech
   <= inject_Z (len (stereo_to_mono (channels c) (concat segs)))
      / inject_Z (samplerate c * 2))%Q.
Proof.
  intros Hsegs Hspeech. pose proof (mono_length_bound segs Hsegs) as Hb.
  eapply Qle_trans; [exact Hspeech |].
  apply Qle_shift_div_l.
  - unfold Qlt, inject_Z. cbn. lia.
  - unfold Qle, Qmult, inject_Z. cbn. lia.
Qed.

Lemma durations_ok_gate (r r' : AudioRecorder) :
  config r' = config r ->
  audio_buffer r' = audio_buffer r ->
  speech_segments r' = speech_segments r ->
  actual_speech_duration r' = actual_speech_duration r ->
  asr_queue r' = asr_queue r ->
  durations_ok c r -> durations_ok c r'.
Proof. unfold durations_ok. intros -> -> -> -> ->. tauto. Qed.

Lemma durations_ok_pause (r : AudioRecorder) :
  durations_ok c r -> durations_ok c (pause_recording r).
Proof.
  apply durations_ok_gate; unfold pause_recording;
    by destruct (negb (is_paused r)).
Qed.

Lemma durations_ok_resume (r : AudioRecorder) :
  durations_ok c r -> durations_ok c (resume_recording r).
Proof.
  apply durations_ok_gate; unfold resume_recording;
    cbn [is_paused print set_console]; by destruct (is_paused r).
Qed.

(** The dispatch keeps the queue sound; it may clear the segments. *)
Lemma process_speech_segments_ok (r : AudioRecorder) :
  durations_ok c r ->
  let r' := process_speech_segments r in
  config r' = c
  /\ audio_buffer r' = audio_buffer r
  /\ Forall (segment_ok c) (speech_segments r')
  /\ Forall (item_ok c) (asr_queue r').
Proof.
  intros (Hc & Hbuf & Hsegs & Hdur & Hq). unfold process_speech_segments.
  destruct (is_nil (speech_segments r) || is_processing r); [by split_and! |].
  unfold dispatch_segments.
  cbn [speech_segments config set_is_processing enable_asr speech_recognizer
       actual_speech_duration].
  rewrite Hc. rewrite py_truediv_Some by lia.
  destruct (enable_asr r && bool_decide (is_Some (speech_recognizer r))).
  - unfold enqueue_or_drop. cbn [config asr_queue set_is_processing].
    destruct (put_nowait _ _ _) as [q'|] eqn:Hput.
    + cbn. split_and!; try done.
      unfold put_nowait in Hput.
      destruct ((0 <? _) && _); [discriminate |]. injection Hput as <-.
      apply Forall_app. split; [exact Hq |]. constructor; [| constructor].
      cbn [item_ok]. split; [by rewrite py_truediv_Some by lia |].
      by apply speech_le_total.
    + cbn. by split_and!.
  - destruct (speech_recognizer r); cbn; by split_and!.
Qed.

Lemma Qle_step (x : Q) (n : nat) :
  (x <= (3 # 10) * inject_Z (Z.of_nat n))%Q ->
  (x + (3 # 10) <= (3 # 10) * inject_Z (Z.of_nat (n + 1)))%Q.
Proof.
  intros Hx. rewrite Nat2Z.inj_add, inject_Z_plus. change (inject_Z (Z.of_nat 1)) with 1%Q.
  lra.
Qed.

Lemma Qle_weaken (x : Q) (n : nat) :
  (x <= (3 # 10) * inject_Z (Z.of_nat n))%Q ->
  (x <= (3 # 10) * inject_Z (Z.of_nat (n + 1)))%Q.
Proof.
  intros Hx. rewrite Nat2Z.inj_add, inject_Z_plus.
  change (inject_Z (Z.of_nat 1)) with 1%Q.
  lra.
Qed.

Lemma Qle_zero (n : nat) : (0 <= (3 # 10) * inject_Z (Z.of_nat n))%Q.
Proof.
  apply Qmult_le_0_compat; [discriminate |].
  unfold Qle, inject_Z. cbn. lia.
Qed.

(** The end of an utterance keeps the invariant. *)
Lemma end_of_utterance_check_ok (o : Observation) (r : AudioRecorder) :
  durations_ok c r -> durations_ok c (end_of_utterance_check o r).
Proof.
  intros Hok. unfold end_of_utterance_check.
  destruct (silence_elapsed o r); [| exact Hok].
  destruct (Qle_bool _ _).
  - assert (Hok2 : durations_ok c
                     (set_show_standby_status false (set_is_paused true r)))
      by (revert Hok; by apply durations_ok_gate).
    destruct (process_speech_segments_ok _ Hok2) as (Hc & Hbuf & Hsegs & Hq).
    cbn [audio_buffer set_show_standby_status set_is_paused] in Hbuf.
    destruct Hok as (_ & Hbuf0 & _).
    match goal with
    | |- context [if negb (is_paused ?x) then _ else _] =>
        destruct (negb (is_paused x))
    end; unfold durations_ok;
      cbn -[process_speech_segments Qle Qmult inject_Z len];
      rewrite Hbuf; split_and!; try assumption; apply Qle_zero.
  - destruct Hok as (Hc & Hbuf & Hsegs & Hdur & Hq).
    match goal with
    | |- context [if negb (is_paused ?x) then _ else _] =>
        destruct (negb (is_paused x))
    end; unfold durations_ok; cbn -[Qle Qmult inject_Z len];
      split_and!; try assumption; try constructor; apply Qle_zero.
Qed.

(** One run of [process_audio_buffer] on a buffer that holds a sound
    window keeps the invariant. *)
Lemma process_audio_buffer_ok (o : Observation) (r : AudioRecorder) :
  durations_ok c r ->
  segment_ok c (concat (audio_buffer r)) ->
  durations_ok c (process_audio_buffer o r).
Proof.
  intros Hok Hraw. unfold process_audio_buffer.
  destruct (is_paused r); [exact Hok |].
  set (raw_audio := concat (audio_buffer r)) in *.
  assert (Hfinish : forall r1,
             durations_ok c r1 ->
             durations_ok c (set_audio_buffer [] (end_of_utterance_check o r1))).
  { intros r1 H1. apply (end_of_utterance_check_ok o) in H1.
    destruct H1 as (? & ? & ? & ? & ?). unfold durations_ok. cbn.
    by split_and!. }
  destruct Hok as (Hc & Hbuf & Hsegs & Hdur & Hq).
  unfold classify_window. destruct (is_speech_candidate o).
  - cbn [is_recording_speech set_consecutive_speech_count consecutive_speech_count].
    destruct (is_recording_speech r); cbn [negb].
    + apply Hfinish. unfold durations_ok. cbn -[Qle Qmult inject_Z Qplus].
      split_and!; try assumption.
      * apply Forall_app. split; [assumption |].
        constructor; [exact Hraw | constructor].
      * unfold len in *. rewrite length_app. cbn [length]. by apply Qle_step.
    + destruct (speech_confirmation_threshold <=? consecutive_speech_count r + 1).
      * apply Hfinish. unfold durations_ok. cbn -[Qle Qmult inject_Z Qplus].
        split_and!; try assumption; [constructor; [exact Hraw | constructor] |].
        exact (Qle_step 0%Q 0 (Qle_zero 0)).
      * unfold durations_ok. cbn. by split_and!.
  - cbn [is_recording_speech set_consecutive_speech_count show_standby_status].
    destruct (negb (is_recording_speech r) && show_standby_status r);
      destruct (is_recording_speech r) eqn:Hrec;
      cbn [print is_recording_speech set_console set_consecutive_speech_count];
      rewrite ?Hrec; apply Hfinish; unfold durations_ok;
      cbn -[Qle Qmult inject_Z Qplus]; split_and!; try assumption;
      try (apply Forall_app; split;
           [assumption | constructor; [exact Hraw | constructor]]);
      unfold len in *; rewrite length_app; cbn [length]; by apply Qle_weaken.
Qed.

(** The gate of [audio_callback] lets [process_audio_buffer] run only on a
    buffer that holds at least 0.3 s. *)
Lemma buffer_is_a_window (buffer : list bytes) (d : Q) :
  Forall (fun b => len b = block_bytes c) buffer ->
  py_truediv (len buffer * blocksize c) (samplerate c) = Some d ->
  Qle_bool (3 # 10) d = true ->
  segment_ok c (concat buffer).
Proof.
  intros Hbuf Hdiv Hgate.
  rewrite py_truediv_Some in Hdiv by lia. injection Hdiv as <-.
  apply Qle_bool_iff in Hgate.
  assert (Hz : 3 * samplerate c <= 10 * (len buffer * blocksize c)).
  { assert (Hsr : ~ (inject_Z (samplerate c) == 0)%Q)
      by (unfold Qeq, inject_Z; cbn; lia).
    apply (Qmult_le_compat_r _ _ (inject_Z (samplerate c))) in Hgate;
      [| unfold Qle, inject_Z; cbn; lia].
    rewrite (Qmult_comm (_ / _)), Qmult_div_r in Hgate by exact Hsr.
    revert Hgate. unfold Qle, Qmult, inject_Z. cbn. lia. }
  assert (Hlen : len (concat buffer) = len buffer * block_bytes c).
  { clear Hz Hgate. induction Hbuf as [|b buffer Hb _ IH]; [reflexivity |].
    unfold len in *. cbn [concat length]. rewrite length_app. lia. }
  unfold segment_ok. rewrite Hlen. unfold block_bytes. split; [nia |].
  intros Hc2. exists (Z.to_nat (len buffer * blocksize c)).
  apply Nat2Z.inj. fold (len (concat buffer)). rewrite Hlen.
  unfold block_bytes. rewrite Hc2. lia.
Qed.

Lemma audio_callback_ok (audio_data : bytes) (o : Observation)
    (r : AudioRecorder) :
  len audio_data = block_bytes c ->
  durations_ok c r ->
  durations_ok c (audio_callback audio_data o r).
Proof.
  intros Hblock Hok. unfold audio_callback.
  destruct (is_paused r).
  { destruct Hok as (? & ? & ? & ? & ?). unfold durations_ok. cbn.
    by split_and!. }
  destruct (recording_active r); [| exact Hok].
  assert (Hok' : durations_ok c
                   (set_audio_buffer (audio_buffer r ++ [audio_data]) r)).
  { destruct Hok as (? & ? & ? & ? & ?). unfold durations_ok. cbn.
    split_and!; try assumption.
    apply Forall_app. split; [assumption |].
    constructor; [exact Hblock | constructor]. }
  cbn [audio_buffer config set_audio_buffer].
  destruct (py_truediv _ _) as [d|] eqn:Hdiv.
  - destruct (Qle_bool (3 # 10) d) eqn:Hgate; [| exact Hok'].
    apply process_audio_buffer_ok; [exact Hok' |].
    cbn [audio_buffer set_audio_buffer].
    destruct Hok' as (Hc & Hbuf & _).
    cbn [config audio_buffer set_audio_buffer] in Hc, Hbuf.
    rewrite Hc in Hdiv. by eapply buffer_is_a_window.
  - revert Hok'. by apply durations_ok_gate.
Qed.

Lemma device_run_ok (es : list DeviceEvent) (r : AudioRecorder) :
  Forall (device_event c) es ->
  durations_ok c r ->
  durations_ok c (device_run r es).
Proof.
  intros Hes. revert r. induction Hes as [|e es He _ IH]; intros r Hok;
    [exact Hok |].
  cbn [device_run fold_left]. apply IH.
  destruct e as [audio_data o| |]; cbn [device_step].
  - by apply audio_callback_ok.
  - by apply durations_ok_pause.
  - by apply durations_ok_resume.
Qed.

End Durations.

Section TotalDuration.
Context `{External}.

(** C9. With a positive sample rate and at least one channel, from a
    freshly built recorder and over every sequence of blocks of
    [blocksize] frames delivered to [audio_callback] and of gate
    operations, every item on the dispatch queue has its total duration
    equal to its number of mono bytes divided by [samplerate * 2], and a
    speech duration, made of 0.3 s per speech-positive window, that does
    not exceed it. *)
Theorem speech_duration_within_total (c : Config)
    (enable_asr0 model_loads : bool) (index : list (string * FileInfo))
    (files : gset string) (now : Q) (r0 : AudioRecorder)
    (es : list DeviceEvent) :
  0 < samplerate c ->
  1 <= channels c ->
  init c enable_asr0 model_loads index files now = Done r0 ->
  Forall (device_event c) es ->
  forall (mono_audio : bytes) (audio_length speech : Q),
    In (Some (mono_audio, audio_length, speech)) (asr_queue (device_run r0 es)) ->
    audio_length = (inject_Z (len mono_audio) / inject_Z (samplerate c * 2))%Q
    /\ (speech <= audio_length)%Q.
Proof.
  intros Hsr Hch Hinit Hes mono_audio audio_length speech Hin.
  destruct (init_fresh _ _ _ _ _ _ _ Hinit)
    as (Hc & _ & _ & _ & Hsegs & Hbuf & Hq & Hdur & _).
  assert (Hok : durations_ok c r0).
  { unfold durations_ok. rewrite Hc, Hsegs, Hbuf, Hq, Hdur.
    split_and!; try constructor. exact (Qle_zero 0). }
  pose proof (device_run_ok c Hsr Hch es r0 Hes Hok) as (_ & _ & _ & _ & Hitems).
  rewrite List.Forall_forall in Hitems. specialize (Hitems _ Hin).
  cbn [item_ok] in Hitems. destruct Hitems as [Hdiv Hle].
  rewrite py_truediv_Some in Hdiv by lia. injection Hdiv as <-.
  split; [reflexivity | exact Hle].
Qed.

End TotalDuration.

(** ** The properties at concrete recorders *)

(** C3. The content hash is a function of the bytes, so two puts of the same
    bytes get the same hash. But the file name also carries the time of the
    put: two puts of the same clip at seconds 100 and 200 return two
    different paths, both files are in the cache directory afterwards, and
    the index has one row, for the second file; the first file is left
    without a row. *)
Theorem same_clip_saved_twice_leaves_two_files :
  _get_recording_hash (H := reliable) clip = "d16"
  /\ snd first_put = Some "recording_cache/rec_100_d16.wav"
  /\ snd second_put = Some "recording_cache/rec_200_d16.wav"
  /\ "rec_100_d16.wav" ∈ cache_files (fst second_put)
  /\ "rec_200_d16.wav" ∈ cache_files (fst second_put)
  /\ dict_keys (recording_cache_index (fst second_put)) = ["d16"]
  /\ map (fun row => filename (snd row)) (recording_cache_index (fst second_put))
     = ["rec_200_d16.wav"].
Proof.
  split_and!; try (vm_compute; reflexivity);
    apply bool_decide_unpack; vm_compute; exact I.
Qed.

(** C1, at a recorder. The utterance is finalised, the gate is closed, the
    recogniser returns nothing and the WAV file cannot be written: after the
    turn of the worker the gate is still closed and [resume_recording] has
    not been called. *)
Lemma gate_left_closed_on_a_full_disk :
  is_paused finalised = true
  /\ snd turn_on_full_disk = Looping
  /\ is_paused (fst turn_on_full_disk) = true
  /\ resume_calls (fst turn_on_full_disk) = resume_calls finalised.
Proof.
  split; [vm_compute; reflexivity |]. unfold turn_on_full_disk.
  edestruct (gate_left_closed_without_recording_file (H := disk_full)
               (Some (on_recognition_result quiet_pipeline))
               (mkRecognition None 100) finalised)
    as (Hs & _ & Hp & Hc);
    [vm_compute; reflexivity | vm_compute; reflexivity
     | vm_compute; reflexivity | vm_compute; reflexivity
     | right; split; [eexists; vm_compute; reflexivity | vm_compute; reflexivity]
     | split_and!; [exact Hs | exact Hp | exact Hc]].
Defined.

(** C2, the claim refuted. A second utterance with 0.9 s of speech, above the
    minimum of 0.5 s, ends while the first is still on a queue of size one:
    it does not reach the queue, and [dropped] counts it. *)
Lemma long_utterance_lost_on_a_full_queue :
  is_recording_speech at_end_with_full_queue = true
  /\ Qle_bool (min_speech_duration (config at_end_with_full_queue))
       (actual_speech_duration at_end_with_full_queue) = true
  /\ is_recording_speech
       (process_audio_buffer (heard_silence 20) at_end_with_full_queue) = false
  /\ asr_queue (process_audio_buffer (heard_silence 20) at_end_with_full_queue)
     = asr_queue at_end_with_full_queue
  /\ queued (asr_stats
               (process_audio_buffer (heard_silence 20) at_end_with_full_queue))
     = queued (asr_stats at_end_with_full_queue)
  /\ dropped (asr_stats
                (process_audio_buffer (heard_silence 20) at_end_with_full_queue))
     = dropped (asr_stats at_end_with_full_queue) + 1.
Proof. split_and!; vm_compute; reflexivity. Qed.

(** C2 as amended, at a recorder: a burst with 0.3 s of speech is discarded,
    and an utterance with 0.9 s of speech is queued. *)
Lemma minimum_duration_filter_witness :
  (asr_queue (process_audio_buffer (heard_silence 8) at_end_of_burst) = []
   /\ short_recordings
        (recording_stats (process_audio_buffer (heard_silence 8) at_end_of_burst))
      = 1)
  /\ length (asr_queue (process_audio_buffer (heard_silence 10) at_end_of_utterance))
     = 1%nat.
Proof.
  split.
  - edestruct (minimum_duration_filter (heard_silence 8) at_end_of_burst)
      as [Hshort _];
      [vm_compute; reflexivity | vm_compute; reflexivity
       | vm_compute; reflexivity |].
    destruct Hshort as (Hq & _ & _ & Hn & _); [vm_compute; reflexivity |].
    split; [rewrite Hq | rewrite Hn]; vm_compute; reflexivity.
  - edestruct (minimum_duration_filter (heard_silence 10) at_end_of_utterance)
      as [_ Hlong];
      [vm_compute; reflexivity | vm_compute; reflexivity
       | vm_compute; reflexivity |].
    destruct Hlong as (Hq & _);
      [apply Qle_bool_iff; vm_compute; reflexivity
      | vm_compute; reflexivity
      | eexists; vm_compute; reflexivity
      | vm_compute; discriminate
      | unfold queue_full; vm_compute; intros [_ Hle]; by apply Hle
      |].
    rewrite Hq. rewrite length_app. vm_compute. reflexivity.
Defined.

(** C4, at a recorder: one window of speech followed by silence starts
    nothing, and the utterance that starts on the second of two windows of
    speech has a speech candidate before it. *)
Lemma confirmation_hysteresis_witness :
  is_recording_speech (capture_run (fresh 20) [speech 1; silence 2]) = false
  /\ utterances_started (capture_run (fresh 20) [speech 1; silence 2]) = 0%nat
  /\ utterances_started (capture_run (fresh 20) [speech 1; speech 2]) = 1%nat
  /\ exists h o',
       evaluated (fresh 20) [speech 1] = h ++ [o']
       /\ is_speech_candidate o' = true.
Proof.
  assert (Hinit : init (H := reliable) (main_config 20 5) true true [] ∅ 0%Q
                  = Done (fresh 20)) by (vm_compute; reflexivity).
  destruct (confirmation_hysteresis (H := reliable) (main_config 20 5) true true
              [] ∅ 0%Q (fresh 20) Hinit) as (Hstart & Hisolated & _).
  destruct (Hisolated (fresh 20) frames frames (heard_speech 1) (heard_silence 2))
    as (_ & Hu & _ & Hr & _); try (vm_compute; reflexivity).
  split_and!;
    [exact Hr
    | transitivity (utterances_started (fresh 20));
      [exact Hu | vm_compute; reflexivity]
    | vm_compute; reflexivity |].
  destruct (Hstart [speech 1] frames (heard_speech 2)) as (_ & _ & Hlast);
    [vm_compute; discriminate | exact Hlast].
Defined.



(** C6, at a recorder: the queue of size one is full, and the utterance that
    is dispatched is dropped. *)
Lemma full_queue_drops_witness :
  asr_queue (process_speech_segments (set_is_paused true at_end_with_full_queue))
  = asr_queue at_end_with_full_queue
  /\ dropped (asr_stats
                (process_speech_segments
                   (set_is_paused true at_end_with_full_queue)))
     = 1.
Proof.
  destruct (full_queue_drops (set_is_paused true at_end_with_full_queue))
    as [_ Hall].
  - unfold queue_full. vm_compute. split; [reflexivity | discriminate].
  - destruct Hall as (Hq & Hd & _);
      [vm_compute; discriminate | vm_compute; reflexivity
       | vm_compute; reflexivity | eexists; vm_compute; reflexivity
       | vm_compute; discriminate |].
    split; [rewrite Hq | rewrite Hd]; vm_compute; reflexivity.
Defined.

(** C7, the claim refuted. The callback raises "CUDA out of memory": the
    worker stops, but [enable_asr] is still true, and the next utterance is
    put on the queue that nobody reads any more. *)
Lemma dispatch_goes_on_after_a_fatal_error :
  snd turn_that_crashes = Exited
  /\ asr_consumer_active (fst turn_that_crashes) = false
  /\ enable_asr (fst turn_that_crashes) = true
  /\ length (asr_queue (fst turn_that_crashes)) = 0%nat
  /\ length (asr_queue (capture_run (fst turn_that_crashes) (utterance 11)))
     = 1%nat
  /\ queued (asr_stats (capture_run (fst turn_that_crashes) (utterance 11)))
     = queued (asr_stats (fst turn_that_crashes)) + 1.
Proof. split_and!; vm_compute; reflexivity. Qed.

(** C7 as amended, at a recorder. *)
Lemma fatal_error_stops_the_worker_only_witness :
  snd turn_that_crashes = Exited
  /\ asr_consumer_active (fst turn_that_crashes) = false
  /\ is_paused (fst turn_that_crashes) = false.
Proof.
  unfold turn_that_crashes.
  edestruct (fatal_error_stops_the_worker_only (H := reliable)
               (Some crashing_callback) (mkRecognition (Some "hi") 100) finalised)
    as (Hs & Ha & Hp & _);
    [vm_compute; reflexivity | vm_compute; reflexivity
     | vm_compute; reflexivity | vm_compute; reflexivity
     | split_and!; [exact Hs | exact Ha | exact Hp]].
Defined.

(** C8, at a recorder: in the middle of an utterance a window of silence
    makes the segments three and leaves the speech duration where it was. *)
Lemma silence_is_retained_witness :
  length (speech_segments (process_audio_buffer (heard_silence 4) mid_utterance))
  = 3%nat
  /\ actual_speech_duration (process_audio_buffer (heard_silence 4) mid_utterance)
     = actual_speech_duration mid_utterance.
Proof.
  destruct (silence_is_retained (heard_silence 4) mid_utterance) as [Hsil _];
    [vm_compute; reflexivity | vm_compute; reflexivity |].
  destruct Hsil as (r1 & Hc & _ & _ & _ & _ & _ & _ & Hidle & _);
    [vm_compute; reflexivity |].
  destruct Hidle as (Hs & Hd & _);
    [vm_compute in Hc; injection Hc as <-; vm_compute; reflexivity |].
  split; [rewrite Hs; vm_compute; reflexivity | exact Hd].
Defined.

(** C9, at a recorder: the utterance that the slow device delivers is queued
    with 0.9 s of speech in 3 s of audio. *)
Lemma speech_duration_within_total_witness :
  exists (mono_audio : bytes) (audio_length speech : Q),
    asr_queue (device_run slow_fresh slow_utterance)
    = [Some (mono_audio, audio_length, speech)]
    /\ (speech <= audio_length)%Q.
Proof.
  assert (Hq : exists x, asr_queue (device_run slow_fresh slow_utterance) = [Some x])
    by (eexists; vm_compute; reflexivity).
  destruct Hq as ([[mono_audio audio_length] speech] & Hq).
  exists mono_audio, audio_length, speech. split; [exact Hq |].
  eapply (speech_duration_within_total (H := reliable) slow_config true true [] ∅
            0%Q slow_fresh slow_utterance).
  - reflexivity.
  - vm_compute. discriminate.
  - vm_compute. reflexivity.
  - repeat constructor.
  - rewrite Hq. by left.
Defined.

(** * Further properties of the recorder *)

(** ** The gate, the buffer and the stop *)

Lemma audio_callback_paused (audio_data : bytes) (o : Observation)
    (r : AudioRecorder) :
  is_paused r = true -> audio_callback audio_data o r = set_audio_buffer [] r.
Proof. intros Hp. unfold audio_callback. by rewrite Hp. Qed.

Lemma paused_blocks_fold (bs : list (bytes * Observation)) (r : AudioRecorder) :
  is_paused r = true ->
  device_run (set_audio_buffer [] r) (map (fun x => DevBlock (fst x) (snd x)) bs)
  = set_audio_buffer [] r.
Proof.
  intros Hp. induction bs as [|b bs IH]; [reflexivity |].
  cbn [map device_run fold_left device_step].
  rewrite audio_callback_paused by exact Hp. exact IH.
Qed.

(** X1. While the gate is closed the capture side does nothing with the
    audio: [process_audio_buffer] returns the recorder as it is, and after
    any non-empty sequence of blocks delivered to [audio_callback] the
    recorder is what it was with an empty buffer. *)
Theorem paused_blocks_are_discarded (r : AudioRecorder) :
  is_paused r = true ->
  (forall o : Observation, process_audio_buffer o r = r)
  /\ (forall (b : bytes * Observation) (bs : list (bytes * Observation)),
        device_run r (map (fun x => DevBlock (fst x) (snd x)) (b :: bs))
        = set_audio_buffer [] r).
Proof.
  intros Hp. split.
  - intros o. unfold process_audio_buffer. by rewrite Hp.
  - intros b bs. cbn [map device_run fold_left device_step].
    rewrite audio_callback_paused by exact Hp.
    by apply paused_blocks_fold.
Qed.

(** The test [buffer_duration >= 0.3] of [audio_callback], on integers. *)
Lemma window_gate (a samplerate : Z) :
  0 < samplerate ->
  Qle_bool (3 # 10) (inject_Z a / inject_Z samplerate) = true
  <-> 3 * samplerate <= 10 * a.
Proof.
  intros Hsr. rewrite Qle_bool_iff.
  destruct samplerate as [|p|p]; try lia.
  unfold Qle, Qdiv, Qmult, Qinv, inject_Z. cbn. lia.
Qed.

(** Once the buffer holds a window, [audio_callback] runs
    [process_audio_buffer]. *)
Lemma audio_callback_runs (audio_data : bytes) (o : Observation)
    (r : AudioRecorder) :
  is_paused r = false ->
  recording_active r = true ->
  0 < samplerate (config r) ->
  3 * samplerate (config r)
  <= 10 * ((len (audio_buffer r) + 1) * blocksize (config r)) ->
  audio_callback audio_data o r
  = process_audio_buffer o (set_audio_buffer (audio_buffer r ++ [audio_data]) r).
Proof.
  intros Hp Hact Hsr Hcmp. unfold audio_callback. rewrite Hp, Hact.
  cbn [audio_buffer config set_audio_buffer].
  rewrite py_truediv_Some by lia.
  assert (Hlen : len (audio_buffer r ++ [audio_data]) = len (audio_buffer r) + 1)
    by (unfold len; rewrite length_app; cbn [length]; lia).
  rewrite Hlen.
  assert (Hgate : Qle_bool (3 # 10)
                    (inject_Z ((len (audio_buffer r) + 1) * blocksize (config r))
                     / inject_Z (samplerate (config r))) = true)
    by (by apply window_gate).
  by rewrite Hgate.
Qed.

(** Below a window, [audio_callback] only stores the block. *)
Lemma audio_callback_buffers (audio_data : bytes) (o : Observation)
    (r : AudioRecorder) :
  is_paused r = false ->
  recording_active r = true ->
  0 < samplerate (config r) ->
  10 * ((len (audio_buffer r) + 1) * blocksize (config r))
  < 3 * samplerate (config r) ->
  audio_callback audio_data o r
  = set_audio_buffer (audio_buffer r ++ [audio_data]) r.
Proof.
  intros Hp Hact Hsr Hcmp. unfold audio_callback. rewrite Hp, Hact.
  cbn [audio_buffer config set_audio_buffer].
  rewrite py_truediv_Some by lia.
  assert (Hlen : len (audio_buffer r ++ [audio_data]) = len (audio_buffer r) + 1)
    by (unfold len; rewrite length_app; cbn [length]; lia).
  rewrite Hlen.
  pose proof (window_gate ((len (audio_buffer r) + 1) * blocksize (config r))
                (samplerate (config r)) Hsr) as Hgate.
  destruct (Qle_bool _ _); [| reflexivity].
  apply proj1 in Hgate. specialize (Hgate eq_refl). lia.
Qed.

Lemma device_run_buffers (bs : list (bytes * Observation)) (r : AudioRecorder) :
  is_paused r = false ->
  recording_active r = true ->
  0 < samplerate (config r) ->
  0 <= blocksize (config r) ->
  10 * ((len (audio_buffer r) + len bs) * blocksize (config r))
  < 3 * samplerate (config r) ->
  device_run r (map (fun x => DevBlock (fst x) (snd x)) bs)
  = set_audio_buffer (audio_buffer r ++ map fst bs) r.
Proof.
  revert r. induction bs as [|[b o] bs IH]; intros r Hp Hact Hsr Hbs Hcmp.
  - cbn. rewrite app_nil_r. by destruct r.
  - cbn [map device_run fold_left device_step fst snd].
    assert (Hlen : len ((b, o) :: bs) = len bs + 1)
      by (unfold len; cbn [length]; lia).
    assert (Hnn : 0 <= len bs) by (unfold len; lia).
    rewrite Hlen in Hcmp.
    rewrite audio_callback_buffers; [| assumption | assumption | assumption | nia].
    change (fold_left device_step ?es ?x) with (device_run x es).
    rewrite IH; cbn [is_paused recording_active config audio_buffer
                     set_audio_buffer]; try assumption.
    + by rewrite <- app_assoc.
    + unfold len in *. rewrite length_app. cbn [length]. nia.
Qed.

(** X2. A window is the smallest number of blocks that holds 0.3 s. With
    the gate open, the recorder active, an empty buffer and a positive
    sample rate: as long as the blocks delivered so far amount to less than
    0.3 s ([10 n blocksize < 3 samplerate]) they are only buffered, in
    order; the block that brings the buffer to 0.3 s or more is appended
    and the whole buffer is handed to [process_audio_buffer], with the
    observation of that block. With [blocksize = 0] no block ever does, and
    the buffer grows without bound. *)
Theorem blocks_accumulate_to_a_window (bs : list (bytes * Observation))
    (audio_data : bytes) (o : Observation) (r : AudioRecorder) :
  is_paused r = false ->
  recording_active r = true ->
  audio_buffer r = [] ->
  0 < samplerate (config r) ->
  0 <= blocksize (config r) ->
  10 * (len bs * blocksize (config r)) < 3 * samplerate (config r) ->
  device_run r (map (fun x => DevBlock (fst x) (snd x)) bs)
  = set_audio_buffer (map fst bs) r
  /\ (3 * samplerate (config r) <= 10 * ((len bs + 1) * blocksize (config r)) ->
      device_run r (map (fun x => DevBlock (fst x) (snd x))
                      (bs ++ [(audio_data, o)]))
      = process_audio_buffer o
          (set_audio_buffer (map fst bs ++ [audio_data]) r)).
Proof.
  intros Hp Hact Hbuf Hsr Hbs Hcmp.
  assert (Hrun : device_run r (map (fun x => DevBlock (fst x) (snd x)) bs)
                 = set_audio_buffer (map fst bs) r).
  { rewrite device_run_buffers; try assumption.
    - by rewrite Hbuf.
    - rewrite Hbuf. unfold len at 1. cbn [length]. lia. }
  split; [exact Hrun |]. intros Hfull.
  rewrite map_app. unfold device_run in *. rewrite fold_left_app, Hrun.
  cbn [map fold_left device_step fst snd].
  rewrite audio_callback_runs;
    cbn [is_paused recording_active config audio_buffer set_audio_buffer];
    try assumption.
  - reflexivity.
  - unfold len in *. by rewrite length_map.
Qed.

(** X3. The window that only confirms is not lost. When a speech candidate
    arrives at an idle recorder with its counter at zero, [process_audio_buffer]
    returns before it clears the buffer; the next block is appended to the
    same buffer, and if the window is again a speech candidate the utterance
    begins with one segment that holds the audio of both windows, while its
    speech duration counts one window of 0.3 s. *)
Theorem confirming_window_is_kept (b1 b2 : bytes) (o1 o2 : Observation)
    (r : AudioRecorder) :
  is_paused r = false ->
  recording_active r = true ->
  is_recording_speech r = false ->
  consecutive_speech_count r = 0 ->
  0 < samplerate (config r) ->
  (0 <= silence_timeout (config r))%Q ->
  3 * samplerate (config r)
  <= 10 * ((len (audio_buffer r) + 1) * blocksize (config r)) ->
  is_speech_candidate o1 = true ->
  is_speech_candidate o2 = true ->
  audio_buffer (audio_callback b1 o1 r) = audio_buffer r ++ [b1]
  /\ is_recording_speech (audio_callback b1 o1 r) = false
  /\ is_recording_speech (audio_callback b2 o2 (audio_callback b1 o1 r)) = true
  /\ speech_segments (audio_callback b2 o2 (audio_callback b1 o1 r))
     = [concat (audio_buffer r ++ [b1; b2])]
  /\ actual_speech_duration (audio_callback b2 o2 (audio_callback b1 o1 r))
     = (0 + (3 # 10))%Q
  /\ audio_buffer (audio_callback b2 o2 (audio_callback b1 o1 r)) = [].
Proof.
  intros Hp Hact Hrec Hcnt Hsr Hto Hgate Ho1 Ho2.
  assert (H1 : audio_callback b1 o1 r
               = set_consecutive_speech_count 1
                   (set_audio_buffer (audio_buffer r ++ [b1]) r)).
  { rewrite audio_callback_runs by assumption.
    unfold process_audio_buffer. cbn [is_paused set_audio_buffer]. rewrite Hp.
    unfold classify_window. rewrite Ho1.
    cbn [is_recording_speech set_consecutive_speech_count
         consecutive_speech_count set_audio_buffer].
    rewrite Hrec, Hcnt. reflexivity. }
  rewrite H1. split; [reflexivity |]. split; [exact Hrec |].
  set (r1 := set_consecutive_speech_count 1 _).
  assert (Hgate2 : 3 * samplerate (config r1)
                   <= 10 * ((len (audio_buffer r1) + 1) * blocksize (config r1))).
  { subst r1. cbn [config audio_buffer set_consecutive_speech_count
                   set_audio_buffer].
    unfold len in *. rewrite length_app. cbn [length]. nia. }
  rewrite audio_callback_runs by assumption.
  unfold process_audio_buffer. cbn [is_paused set_audio_buffer r1
                                     set_consecutive_speech_count].
  rewrite Hp. unfold classify_window. rewrite Ho2.
  cbn [is_recording_speech set_consecutive_speech_count
       consecutive_speech_count set_audio_buffer r1].
  rewrite Hrec. cbn [negb].
  change (speech_confirmation_threshold <=? 1 + 1) with true. cbv iota.
  rewrite end_of_utterance_check_idle.
  - cbn. rewrite <- app_assoc. cbn. split_and!; reflexivity.
  - unfold silence_elapsed. cbn.
    assert (Hle : Qle_bool (current_time o2 - current_time o2)
                    (silence_timeout (config r)) = true)
      by (apply Qle_bool_iff; lra).
    unfold Qgt_bool. rewrite Hle. reflexivity.
Qed.

(** ** Stopping, and the states that capture cannot leave *)

Lemma waiting_app (q1 q2 : list (option AudioItem)) :
  waiting (q1 ++ q2) = waiting q1 + waiting q2.
Proof. unfold waiting, len. rewrite List.filter_app, length_app. lia. Qed.

(** X4. [stop_recording] switches the recorder off: with the gate open every
    later block is ignored by [audio_callback]; when recognition is enabled
    the worker is told to stop, its next turn exits without taking an item,
    so the utterances still waiting are never recognised, and the stop
    signal joins the queue unless the queue is full; when recognition is
    disabled the queue and the worker flag are not touched. *)
Theorem stop_recording_switches_off (r : AudioRecorder) :
  recording_active (fst (stop_recording r)) = false
  /\ is_paused (fst (stop_recording r)) = is_paused r
  /\ waiting (asr_queue (fst (stop_recording r))) = waiting (asr_queue r)
  /\ (is_paused r = false ->
      forall (audio_data : bytes) (o : Observation),
        audio_callback audio_data o (fst (stop_recording r))
        = fst (stop_recording r))
  /\ (enable_asr r = true ->
      asr_consumer_active (fst (stop_recording r)) = false
      /\ (forall `{External} (cb : option Callback) (w : Recognition),
            asr_consumer_turn cb w (fst (stop_recording r))
            = (fst (stop_recording r), Exited))
      /\ ((~ queue_full r
           /\ asr_queue (fst (stop_recording r)) = asr_queue r ++ [None]
           /\ snd (stop_recording r) = false)
          \/ (queue_full r
              /\ asr_queue (fst (stop_recording r)) = asr_queue r
              /\ snd (stop_recording r) = true)))
  /\ (enable_asr r = false ->
      asr_queue (fst (stop_recording r)) = asr_queue r
      /\ asr_consumer_active (fst (stop_recording r)) = asr_consumer_active r
      /\ snd (stop_recording r) = false).
Proof.
  assert (Hcases : queue_full r \/ ~ queue_full r)
    by (unfold queue_full; lia).
  unfold stop_recording. cbn [enable_asr set_recording_active config asr_queue
                              set_asr_consumer_active].
  destruct (enable_asr r) eqn:Hen.
  - destruct Hcases as [Hfull | Hroom].
    + rewrite put_nowait_full by exact Hfull.
      cbn [fst snd]. split_and!; try reflexivity.
      * intros Hp audio_data o. unfold audio_callback. cbn. by rewrite Hp.
      * intros _. split_and!; [reflexivity | intros; reflexivity |].
        right. by split_and!.
      * discriminate.
    + rewrite put_nowait_room by exact Hroom.
      cbn [fst snd]. split_and!; try reflexivity.
      * cbn [asr_queue set_asr_queue]. rewrite waiting_app.
        change (waiting [None]) with 0. lia.
      * intros Hp audio_data o. unfold audio_callback. cbn. by rewrite Hp.
      * intros _. split_and!; [reflexivity | intros; reflexivity |].
        left. by split_and!.
      * discriminate.
  - cbn [fst snd]. split_and!; try reflexivity.
    + intros Hp audio_data o. unfold audio_callback. cbn. by rewrite Hp.
    + discriminate.
    + intros _. by split_and!.
Qed.

Section Trap.
Context `{External}.

(** With the gate closed and no utterance waiting, no event of the system
    opens the gate or queues anything. *)
Lemma closed_gate_step (r : AudioRecorder) (e : SystemEvent) :
  is_paused r = true ->
  waiting (asr_queue r) = 0 ->
  is_paused (system_step r e) = true
  /\ waiting (asr_queue (system_step r e)) = 0
  /\ resume_calls (system_step r e) = resume_calls r
  /\ asr_stats (system_step r e) = asr_stats r
  /\ speech_segments (system_step r e) = speech_segments r
  /\ recording_cache_index (system_step r e) = recording_cache_index r
  /\ enable_asr (system_step r e) = enable_asr r.
Proof.
  intros Hp Hw. destruct e as [buffer o|audio_data o|d w|]; cbn [system_step].
  - unfold process_audio_buffer. cbn [is_paused set_audio_buffer]. rewrite Hp.
    by split_and!.
  - rewrite audio_callback_paused by exact Hp. by split_and!.
  - unfold asr_consumer_turn.
    destruct (asr_consumer_active r); cbn [negb fst]; [| by split_and!].
    destruct (asr_queue r) as [|[item|] q] eqn:Hq; cbn [fst].
    + split_and!; rewrite ?Hq; done.
    + exfalso. unfold waiting, len in Hw.
      cbn [List.filter length] in Hw. lia.
    + by split_and!.
  - unfold stop_recording.
    cbn [enable_asr set_recording_active config asr_queue set_asr_consumer_active].
    destruct (enable_asr r) eqn:Hen; [| by split_and!].
    destruct (put_nowait _ _ _) as [q|] eqn:Hput; cbn [fst]; [| by split_and!].
    unfold put_nowait in Hput. destruct (_ && _); [discriminate |].
    injection Hput as <-. split_and!; try done.
    cbn [asr_queue set_asr_queue]. rewrite waiting_app.
    change (waiting [None]) with 0. lia.
Qed.

Lemma closed_gate_run (es : list SystemEvent) (r : AudioRecorder) :
  is_paused r = true ->
  waiting (asr_queue r) = 0 ->
  is_paused (system_run r es) = true
  /\ waiting (asr_queue (system_run r es)) = 0
  /\ resume_calls (system_run r es) = resume_calls r
  /\ asr_stats (system_run r es) = asr_stats r
  /\ speech_segments (system_run r es) = speech_segments r
  /\ recording_cache_index (system_run r es) = recording_cache_index r
  /\ enable_asr (system_run r es) = enable_asr r.
Proof.
  revert r. induction es as [|e es IH]; intros r Hp Hw; [by split_and! |].
  change (system_run r (e :: es)) with (system_run (system_step r e) es).
  destruct (closed_gate_step r e Hp Hw) as (Hp' & Hw' & H1 & H2 & H3 & H4 & H5).
  destruct (IH _ Hp' Hw') as (? & ? & ? & ? & ? & ? & ?).
  split_and!; congruence.
Qed.

(** X5. A closed gate with no utterance waiting is a state that the system
    does not leave by itself: whatever blocks and windows arrive, whatever
    turns the worker takes, and even if the recorder is stopped, the gate
    stays closed, [resume_recording] is not called, nothing is queued,
    counted, recorded or saved. Only a call of [resume_recording] from
    outside opens the gate again. *)
Theorem closed_gate_without_work_stays_closed (r : AudioRecorder)
    (es : list SystemEvent) :
  is_paused r = true ->
  waiting (asr_queue r) = 0 ->
  is_paused (system_run r es) = true
  /\ waiting (asr_queue (system_run r es)) = 0
  /\ resume_calls (system_run r es) = resume_calls r
  /\ asr_stats (system_run r es) = asr_stats r
  /\ speech_segments (system_run r es) = speech_segments r
  /\ recording_cache_index (system_run r es) = recording_cache_index r
  /\ is_paused (resume_recording (system_run r es)) = false.
Proof.
  intros Hp Hw.
  destruct (closed_gate_run es r Hp Hw) as (H1 & H2 & H3 & H4 & H5 & H6 & _).
  split_and!; try assumption.
  apply resume_recording_opens.
Qed.

Lemma process_speech_segments_disabled (r : AudioRecorder) :
  enable_asr r = false ->
  asr_queue (process_speech_segments r) = asr_queue r
  /\ asr_stats (process_speech_segments r) = asr_stats r.
Proof.
  intros Hen. unfold process_speech_segments.
  destruct (is_nil (speech_segments r) || is_processing r); [by split |].
  unfold dispatch_segments.
  cbn [speech_segments config set_is_processing enable_asr speech_recognizer].
  rewrite Hen. cbn [andb].
  destruct (py_truediv _ _); [| by split].
  destruct (speech_recognizer r); by split.
Qed.

(** X6. With recognition disabled (the recorder built with
    [enable_asr=False], or a model that failed to load), an utterance that is
    long enough still closes the gate when it ends, but nothing is put on
    the queue; if no utterance was waiting, nothing in the system opens the
    gate again: every later block is discarded. *)
Theorem disabled_recognition_closes_the_gate_for_good
    (o : Observation) (r r1 : AudioRecorder) (es : list SystemEvent) :
  enable_asr r = false ->
  is_paused r = false ->
  classify_window (concat (audio_buffer r)) o r = Running r1 ->
  silence_elapsed o r1 = true ->
  (min_speech_duration (config r) <= actual_speech_duration r1)%Q ->
  is_paused (process_audio_buffer o r) = true
  /\ asr_queue (process_audio_buffer o r) = asr_queue r
  /\ asr_stats (process_audio_buffer o r) = asr_stats r
  /\ (waiting (asr_queue r) = 0 ->
      is_paused (system_run (process_audio_buffer o r) es) = true
      /\ resume_calls (system_run (process_audio_buffer o r) es)
         = resume_calls r).
Proof.
  intros Hen Hp Hc Hend Hlong.
  pose proof (classify_window_frame (concat (audio_buffer r)) o r) as Hf.
  rewrite Hc in Hf. cbn [flow_state] in Hf.
  destruct Hf as (Hcfg & Hasr & _ & _ & _ & Hp1 & _ & _ & Hq & _ & Hqs & Hrc).
  assert (Hpab : process_audio_buffer o r
                 = set_audio_buffer [] (end_of_utterance_check o r1)).
  { unfold process_audio_buffer. by rewrite Hp, Hc. }
  assert (Hb : Qle_bool (min_speech_duration (config r1))
                 (actual_speech_duration r1) = true)
    by (rewrite Hcfg; by apply Qle_bool_iff).
  set (r2 := set_show_standby_status false (set_is_paused true r1)).
  assert (Hcheck : end_of_utterance_check o r1
                   = set_actual_speech_duration 0%Q
                       (set_speech_start_time None
                          (set_is_recording_speech false
                             (process_speech_segments r2)))).
  { unfold end_of_utterance_check. rewrite Hend, Hb. fold r2.
    destruct (process_speech_segments_frame r2) as (_ & _ & _ & _ & Hp2 & _).
    cbn [is_paused set_actual_speech_duration set_speech_start_time
         set_is_recording_speech].
    rewrite Hp2. reflexivity. }
  destruct (process_speech_segments_disabled r2) as [Hq2 Hs2];
    [subst r2; cbn; congruence |].
  destruct (process_speech_segments_frame r2)
    as (_ & _ & _ & Hrc2 & Hp2 & _).
  assert (Hfacts : is_paused (process_audio_buffer o r) = true
                   /\ asr_queue (process_audio_buffer o r) = asr_queue r
                   /\ asr_stats (process_audio_buffer o r) = asr_stats r
                   /\ resume_calls (process_audio_buffer o r) = resume_calls r).
  { rewrite Hpab, Hcheck.
    cbn [is_paused asr_queue asr_stats set_audio_buffer
         set_actual_speech_duration set_speech_start_time
         set_is_recording_speech].
    split_and!.
    - rewrite Hp2. reflexivity.
    - rewrite Hq2. subst r2. cbn. exact Hq.
    - rewrite Hs2. subst r2. cbn. exact Hqs.
    - transitivity (resume_calls (process_speech_segments r2)); [reflexivity |].
      rewrite Hrc2. transitivity (resume_calls r1); [reflexivity | exact Hrc]. }
  destruct Hfacts as (F1 & F2 & F3 & F4).
  split_and!; try assumption.
  intros Hw.
  destruct (closed_gate_run es (process_audio_buffer o r) F1)
    as (G1 & _ & G3 & _); [by rewrite F2 |].
  split; [exact G1 | congruence].
Qed.

End Trap.

(** ** Invariants of a running system *)

Ltac gate_frame_split :=
  unfold gate_frame, cache_frame in *; cbn in *;
  repeat match goal with
         | H : _ /\ _ |- _ => destruct H
         end;
  repeat split; try congruence.

Lemma gate_frame_refl (r : AudioRecorder) : gate_frame r r.
Proof. gate_frame_split. Qed.

Lemma gate_frame_trans (r1 r2 r3 : AudioRecorder) :
  gate_frame r1 r2 -> gate_frame r2 r3 -> gate_frame r1 r3.
Proof. intros H12 H23. gate_frame_split. Qed.

Lemma gate_frame_cache (r r' : AudioRecorder) :
  cache_frame r r' -> gate_frame r r'.
Proof. intros Hf. unfold gate_frame, cache_frame in *. tauto. Qed.

Lemma gate_frame_print (m : Message) (r : AudioRecorder) :
  gate_frame r (print m r).
Proof. gate_frame_split. Qed.

Lemma gate_frame_resume (r : AudioRecorder) : gate_frame r (resume_recording r).
Proof.
  unfold resume_recording. cbn [is_paused print set_console].
  destruct (is_paused r); gate_frame_split.
Qed.

Lemma gate_frame_pause (r : AudioRecorder) : gate_frame r (pause_recording r).
Proof. unfold pause_recording. destruct (is_paused r); gate_frame_split. Qed.

Lemma gate_frame_ensure (r : AudioRecorder) :
  gate_frame r (_ensure_recording_resumed r).
Proof.
  unfold _ensure_recording_resumed.
  destruct (is_paused r); [apply gate_frame_resume | apply gate_frame_refl].
Qed.

Lemma gate_frame_process_ai_response (d : Downstream) (r : AudioRecorder) :
  gate_frame r (process_ai_response d r).
Proof.
  unfold process_ai_response.
  destruct (get_ai_response d), (create_conversation_record d), (tts_enabled d),
    (import_run_tts_async d), (speak d);
    repeat (eapply gate_frame_trans; [| apply gate_frame_resume]);
    apply gate_frame_refl.
Qed.

Lemma gate_frame_stop (r : AudioRecorder) :
  config (fst (stop_recording r)) = config r
  /\ asr_stats (fst (stop_recording r)) = asr_stats r
  /\ speech_segments (fst (stop_recording r)) = speech_segments r
  /\ is_recording_speech (fst (stop_recording r)) = is_recording_speech r
  /\ speech_start_time (fst (stop_recording r)) = speech_start_time r
  /\ is_processing (fst (stop_recording r)) = is_processing r
  /\ actual_speech_duration (fst (stop_recording r)) = actual_speech_duration r
  /\ consecutive_speech_count (fst (stop_recording r))
     = consecutive_speech_count r.
Proof.
  unfold stop_recording.
  cbn [enable_asr set_recording_active config asr_queue set_asr_consumer_active].
  destruct (enable_asr r); [destruct (put_nowait _ _ _) |]; by split_and!.
Qed.

(** *** The accounts of the queue *)

Lemma queue_ok_frame (r r' : AudioRecorder) :
  gate_frame r r' -> queue_ok r -> queue_ok r'.
Proof.
  intros (Hc & Hq & Hs & _). unfold queue_ok. by rewrite Hc, Hq, Hs.
Qed.

Lemma queue_ok_same (r r' : AudioRecorder) :
  config r' = config r -> asr_queue r' = asr_queue r ->
  asr_stats r' = asr_stats r -> queue_ok r -> queue_ok r'.
Proof. intros Hc Hq Hs. unfold queue_ok. by rewrite Hc, Hq, Hs. Qed.

Lemma queue_ok_enqueue_or_drop (audio_item : AudioItem) (r : AudioRecorder) :
  queue_ok r -> queue_ok (enqueue_or_drop audio_item r).
Proof.
  intros [Hacc Hbound]. unfold enqueue_or_drop.
  assert (Hcases : 0 < asr_queue_size (config r) <= len (asr_queue r)
                   \/ ~ (0 < asr_queue_size (config r) <= len (asr_queue r)))
    by lia.
  destruct Hcases as [Hfull | Hroom].
  - rewrite put_nowait_full by exact Hfull.
    unfold queue_ok. cbn. split; [exact Hacc | exact Hbound].
  - rewrite put_nowait_room by exact Hroom.
    unfold queue_ok.
    cbn [asr_stats asr_queue config set_asr_stats set_asr_queue count_queued
         queued processed].
    rewrite waiting_app. change (waiting [Some audio_item]) with 1.
    split; [lia |]. intros Hpos. specialize (Hbound Hpos).
    unfold len in *. rewrite length_app. cbn [length]. lia.
Qed.

Lemma queue_ok_process_speech_segments (r : AudioRecorder) :
  queue_ok r -> queue_ok (process_speech_segments r).
Proof.
  intros Hok. unfold process_speech_segments.
  destruct (is_nil (speech_segments r) || is_processing r); [exact Hok |].
  unfold dispatch_segments.
  cbn [speech_segments config set_is_processing enable_asr speech_recognizer
       actual_speech_duration].
  destruct (py_truediv _ _) as [audio_length|];
    [| by apply (queue_ok_same r)].
  destruct (enable_asr r && bool_decide (is_Some (speech_recognizer r))).
  - match goal with
    | |- queue_ok (set_is_processing false
                     (set_speech_segments [] (enqueue_or_drop ?i ?x))) =>
        apply (queue_ok_same (enqueue_or_drop i x)); try reflexivity;
        apply queue_ok_enqueue_or_drop; by apply (queue_ok_same r)
    end.
  - destruct (speech_recognizer r); by apply (queue_ok_same r).
Qed.

Lemma queue_ok_end_of_utterance_check (o : Observation) (r : AudioRecorder) :
  queue_ok r -> queue_ok (end_of_utterance_check o r).
Proof.
  intros Hok. unfold end_of_utterance_check.
  destruct (silence_elapsed o r); [| exact Hok].
  destruct (Qle_bool _ _).
  - pose proof (queue_ok_process_speech_segments
                  (set_show_standby_status false (set_is_paused true r))) as Hp.
    match goal with
    | |- context [if negb (is_paused ?x) then _ else _] =>
        destruct (negb (is_paused x))
    end;
      (eapply queue_ok_same; [| | | apply Hp; by apply (queue_ok_same r)]);
      reflexivity.
  - match goal with
    | |- context [if negb (is_paused ?x) then _ else _] =>
        destruct (negb (is_paused x))
    end; by apply (queue_ok_same r).
Qed.

Lemma queue_ok_process_audio_buffer (o : Observation) (r : AudioRecorder) :
  queue_ok r -> queue_ok (process_audio_buffer o r).
Proof.
  intros Hok. unfold process_audio_buffer.
  destruct (is_paused r); [exact Hok |].
  pose proof (classify_window_frame (concat (audio_buffer r)) o r) as Hf.
  cbn zeta in Hf.
  destruct Hf as (Hc & _ & _ & _ & _ & _ & _ & _ & Hq & _ & Hs & _).
  destruct (classify_window _ _ _) as [r1|r1]; cbn [flow_state] in *.
  - by apply (queue_ok_same r).
  - apply (queue_ok_same (end_of_utterance_check o r1)); try reflexivity.
    apply queue_ok_end_of_utterance_check. by apply (queue_ok_same r).
Qed.

Lemma queue_ok_audio_callback (audio_data : bytes) (o : Observation)
    (r : AudioRecorder) :
  queue_ok r -> queue_ok (audio_callback audio_data o r).
Proof.
  intros Hok. unfold audio_callback.
  destruct (is_paused r); [by apply (queue_ok_same r) |].
  destruct (recording_active r); [| exact Hok].
  cbn [audio_buffer set_audio_buffer config].
  destruct (py_truediv _ _); [| by apply (queue_ok_same r)].
  destruct (Qle_bool _ _); [| by apply (queue_ok_same r)].
  apply queue_ok_process_audio_buffer. by apply (queue_ok_same r).
Qed.

Section WorkerInvariants.
Context `{External}.

(** A turn of the worker on an item leaves the segmentation alone, and counts
    the item as processed. *)
Lemma process_item_frame (cb : option Downstream) (w : Recognition)
    (audio_item : AudioItem) (r : AudioRecorder) :
  exists r',
    process_item (option_map on_recognition_result cb) w audio_item r = Done r'
    /\ gate_frame (set_asr_stats (count_processed (asr_stats r)) r) r'.
Proof.
  unfold process_item. destruct audio_item as [[audio_data audio_length] speech].
  set (r0 := set_asr_stats (count_processed (asr_stats r)) r).
  pose proof (cache_frame_save audio_data (recognized_text w) (save_time w) r0)
    as Hsave.
  apply gate_frame_cache in Hsave.
  destruct (_save_recording_file audio_data (recognized_text w) (save_time w) r0)
    as [r1 recording_file]. cbn [fst] in Hsave.
  match goal with
  | |- context [match recognized_text w with
                | Some _ => _ | None => Done ?x end] =>
      set (r2 := x); assert (H2 : gate_frame r0 r2)
  end.
  { subst r2. destruct recording_file as [file|]; [| exact Hsave].
    destruct (text_truthy (recognized_text w)).
    - eapply gate_frame_trans; [exact Hsave |].
      eapply gate_frame_trans; apply gate_frame_print.
    - eapply gate_frame_trans; [exact Hsave |].
      eapply gate_frame_trans; [| apply gate_frame_ensure].
      eapply gate_frame_trans; [| apply gate_frame_print].
      gate_frame_split. }
  clearbody r2.
  destruct (recognized_text w) as [t|]; [| by exists r2].
  destruct cb as [d|]; cbn [option_map]; [| by exists r2].
  destruct (strip_truthy t); [| by exists r2].
  unfold call_on_recognition_result, on_recognition_result.
  cbn [cb_accepts_recording_file cb_call].
  eexists. split; [reflexivity |].
  eapply gate_frame_trans; [exact H2 | apply gate_frame_process_ai_response].
Qed.

Lemma waiting_cons_Some (x : AudioItem) (q : list (option AudioItem)) :
  waiting (Some x :: q) = waiting q + 1.
Proof. unfold waiting, len. cbn [List.filter length]. lia. Qed.

Lemma waiting_cons_None (q : list (option AudioItem)) :
  waiting (None :: q) = waiting q.
Proof. reflexivity. Qed.

Lemma queue_ok_turn (cb : option Downstream) (w : Recognition)
    (r : AudioRecorder) :
  queue_ok r ->
  queue_ok (fst (asr_consumer_turn (option_map on_recognition_result cb) w r)).
Proof.
  intros [Hacc Hbound]. unfold asr_consumer_turn.
  destruct (asr_consumer_active r); cbn [negb fst]; [| by split].
  destruct (asr_queue r) as [|[audio_item|] q] eqn:Hq; cbn [fst].
  - split; [by rewrite Hq | by rewrite Hq].
  - destruct (process_item_frame cb w audio_item (set_asr_queue q r))
      as (r' & -> & Hf). cbn [fst].
    eapply queue_ok_frame; [exact Hf |].
    rewrite waiting_cons_Some in Hacc.
    unfold queue_ok.
    cbn [asr_stats asr_queue config set_asr_stats set_asr_queue count_processed
         queued processed].
    split; [lia |]. intros Hpos. specialize (Hbound Hpos).
    unfold len in *. cbn [length] in Hbound. lia.
  - rewrite waiting_cons_None in Hacc. unfold queue_ok.
    cbn [asr_stats asr_queue config set_asr_queue].
    split; [exact Hacc |]. intros Hpos. specialize (Hbound Hpos).
    unfold len in *. cbn [length] in Hbound. lia.
Qed.

Lemma queue_ok_stop (r : AudioRecorder) :
  queue_ok r -> queue_ok (fst (stop_recording r)).
Proof.
  intros [Hacc Hbound].
  assert (Hcases : queue_full r \/ ~ queue_full r) by (unfold queue_full; lia).
  unfold stop_recording.
  cbn [enable_asr set_recording_active config asr_queue set_asr_consumer_active].
  destruct (enable_asr r); [| by split].
  destruct Hcases as [Hfull | Hroom].
  - rewrite put_nowait_full by exact Hfull. by split.
  - rewrite put_nowait_room by exact Hroom. cbn [fst]. unfold queue_ok.
    cbn [asr_stats asr_queue config set_asr_queue set_asr_consumer_active
         set_recording_active].
    rewrite waiting_app. change (waiting [None]) with 0.
    split; [lia |]. intros Hpos. specialize (Hbound Hpos).
    unfold queue_full in Hroom. unfold len in *. rewrite length_app.
    cbn [length]. lia.
Qed.

Lemma queue_ok_action (r : AudioRecorder) (a : Action) :
  queue_ok r -> queue_ok (action_step r a).
Proof.
  intros Hok. destruct a as [[buffer o|audio_data o|d w|]| |];
    cbn [action_step system_step].
  - apply queue_ok_process_audio_buffer. by apply (queue_ok_same r).
  - by apply queue_ok_audio_callback.
  - by apply queue_ok_turn.
  - by apply queue_ok_stop.
  - eapply queue_ok_frame; [apply gate_frame_pause | exact Hok].
  - eapply queue_ok_frame; [apply gate_frame_resume | exact Hok].
Qed.

Lemma queue_ok_init (c : Config) (enable_asr0 model_loads : bool)
    (index : list (string * FileInfo)) (files : gset string) (now : Q) :
  queue_ok (recorder_of (init c enable_asr0 model_loads index files now)).
Proof.
  unfold init.
  match goal with
  | |- context [_cleanup_recording_cache ?x] =>
      set (r0 := x); assert (H0 : queue_ok r0)
  end.
  { unfold queue_ok. cbn. split; [reflexivity |]. intros Hpos.
    unfold len. cbn. lia. }
  destruct (max_cache_files c <? len index); [| exact H0].
  pose proof (cache_frame_cleanup r0) as Hf.
  destruct (_cleanup_recording_cache r0); cbn [recorder_of];
    (eapply queue_ok_frame; [apply gate_frame_cache; exact Hf | exact H0]).
Qed.

(** X7. The accounts of the dispatch queue are always right. From
    construction on, whatever blocks and windows arrive, whatever turns the
    worker takes, and whenever the recorder is paused, resumed or stopped:
    the utterances counted as queued are exactly those counted as processed
    plus those still waiting on the queue, and a bounded queue never holds
    more than [asr_queue_size] entries, the stop signal included. *)
Theorem queue_accounts_balance (c : Config) (enable_asr0 model_loads : bool)
    (index : list (string * FileInfo)) (files : gset string) (now : Q)
    (acts : list Action) :
  let r := action_run
             (recorder_of (init c enable_asr0 model_loads index files now))
             acts in
  queued (asr_stats r) = processed (asr_stats r) + waiting (asr_queue r)
  /\ (0 < asr_queue_size c -> len (asr_queue r) <= asr_queue_size c)
  /\ config r = c.
Proof.
  cbn zeta.
  pose proof (queue_ok_init c enable_asr0 model_loads index files now) as H0.
  assert (Hc : config (recorder_of
                         (init c enable_asr0 model_loads index files now)) = c).
  { unfold init.
    match goal with
    | |- context [_cleanup_recording_cache ?x] =>
        pose proof (cache_frame_cleanup x) as Hf
    end.
    destruct (max_cache_files c <? len index); [| reflexivity].
    destruct (_cleanup_recording_cache _); cbn [recorder_of];
      destruct Hf as (Hf & _); exact Hf. }
  revert H0 Hc.
  generalize (recorder_of (init c enable_asr0 model_loads index files now)).
  induction acts as [|a acts IH]; intros r [Hacc Hbound] Hc.
  - cbn. rewrite Hc in Hbound. by split_and!.
  - change (action_run r (a :: acts)) with (action_run (action_step r a) acts).
    apply IH.
    + apply queue_ok_action. by split.
    + rewrite <- Hc. clear.
      destruct a as [[buffer o|audio_data o|d w|]| |];
        cbn [action_step system_step].
      * unfold process_audio_buffer. cbn [is_paused set_audio_buffer].
        destruct (is_paused r); [reflexivity |].
        pose proof (classify_window_frame
                      (concat (audio_buffer (set_audio_buffer buffer r))) o
                      (set_audio_buffer buffer r)) as Hf.
        cbn zeta in Hf. destruct Hf as (Hf & _).
        destruct (classify_window _ _ _) as [r1|r1]; cbn [flow_state] in Hf;
          [exact Hf |].
        destruct (end_of_utterance_check_frame o r1) as (He & _).
        cbn [config set_audio_buffer]. by rewrite He, Hf.
      * unfold audio_callback.
        destruct (is_paused r); [reflexivity |].
        destruct (recording_active r); [| reflexivity].
        cbn [audio_buffer set_audio_buffer config].
        destruct (py_truediv _ _); [| reflexivity].
        destruct (Qle_bool _ _); [| reflexivity].
        unfold process_audio_buffer. cbn [is_paused set_audio_buffer].
        destruct (is_paused r); [reflexivity |].
        match goal with
        | |- context [classify_window ?a ?b ?x] =>
            pose proof (classify_window_frame a b x) as Hf
        end.
        cbn zeta in Hf. destruct Hf as (Hf & _).
        destruct (classify_window _ _ _) as [r1|r1]; cbn [flow_state] in Hf;
          [exact Hf |].
        destruct (end_of_utterance_check_frame o r1) as (He & _).
        cbn [config set_audio_buffer]. by rewrite He, Hf.
      * unfold asr_consumer_turn.
        destruct (asr_consumer_active r); cbn [negb fst]; [| reflexivity].
        destruct (asr_queue r) as [|[audio_item|] q]; cbn [fst];
          [reflexivity | | reflexivity].
        destruct (process_item_frame d w audio_item (set_asr_queue q r))
          as (r' & -> & Hf). cbn [fst]. destruct Hf as (Hf & _). exact Hf.
      * destruct (gate_frame_stop r) as (Hf & _). exact Hf.
      * destruct (gate_frame_pause r) as (Hf & _). exact Hf.
      * destruct (gate_frame_resume r) as (Hf & _). exact Hf.
Qed.

End WorkerInvariants.

(** *** The state of the segmentation *)

Ltac seg_simpl :=
  cbn [is_processing consecutive_speech_count is_recording_speech
       actual_speech_duration speech_start_time speech_segments
       set_enable_asr set_speech_recognizer set_recording_cache_index
       set_cache_files set_recording_active set_is_paused set_audio_buffer
       set_last_active_time set_recording_stats set_speech_segments
       set_is_recording_speech set_speech_start_time set_is_processing
       set_actual_speech_duration set_show_standby_status
       set_consecutive_speech_count set_asr_queue set_asr_consumer_active
       set_asr_stats set_console print flow_state].

Lemma utterance_ok_frame (r r' : AudioRecorder) :
  gate_frame r r' -> utterance_ok r -> utterance_ok r'.
Proof.
  intros (_ & _ & _ & Hs & Hr & Ht & Hp & Hd & Hc). unfold utterance_ok.
  by rewrite Hs, Hr, Ht, Hp, Hd, Hc.
Qed.

Lemma utterance_ok_classify_window (raw_audio : bytes) (o : Observation)
    (r : AudioRecorder) :
  utterance_ok r -> utterance_ok (flow_state (classify_window raw_audio o r)).
Proof.
  intros (Hp & Hc & Hidle & Hrec). unfold classify_window, utterance_ok.
  destruct (is_speech_candidate o);
    cbn [is_recording_speech set_consecutive_speech_count show_standby_status
         consecutive_speech_count];
    destruct (is_recording_speech r) eqn:Hr; cbn [negb andb].
  - destruct Hrec as [Hseg Hst]; [reflexivity |].
    repeat (progress (seg_simpl; rewrite ?Hr)).
    split_and!; [exact Hp | lia | discriminate |].
    intros _. split; [by destruct (speech_segments r) | exact Hst].
  - destruct (speech_confirmation_threshold <=? consecutive_speech_count r + 1);
      repeat (progress (seg_simpl; rewrite ?Hr)).
    + split_and!; [exact Hp | lia | discriminate |]. intros _. by split.
    + split_and!; [exact Hp | lia | intros _; by apply Hidle | discriminate].
  - destruct Hrec as [Hseg Hst]; [reflexivity |].
    repeat (progress (seg_simpl; rewrite ?Hr)).
    split_and!; [exact Hp | lia | discriminate |].
    intros _. split; [by destruct (speech_segments r) | exact Hst].
  - destruct (show_standby_status r);
      repeat (progress (seg_simpl; rewrite ?Hr));
      (split_and!; [exact Hp | lia | intros _; by apply Hidle | discriminate]).
Qed.

Lemma process_speech_segments_releases (r : AudioRecorder) :
  is_processing r = false -> is_processing (process_speech_segments r) = false.
Proof.
  intros Hp. unfold process_speech_segments.
  destruct (is_nil (speech_segments r) || is_processing r); [exact Hp |].
  reflexivity.
Qed.

Lemma utterance_ok_end_of_utterance_check (o : Observation) (r : AudioRecorder) :
  utterance_ok r -> utterance_ok (end_of_utterance_check o r).
Proof.
  intros Hok. pose proof Hok as (Hp & Hc & _). unfold end_of_utterance_check.
  destruct (silence_elapsed o r); [| exact Hok].
  destruct (Qle_bool _ _).
  - set (r2 := set_show_standby_status false (set_is_paused true r)).
    destruct (process_speech_segments_frame r2) as (_ & Hc2 & _).
    pose proof (process_speech_segments_releases r2 Hp) as Hp2.
    match goal with
    | |- context [if negb (is_paused ?x) then _ else _] =>
        destruct (negb (is_paused x))
    end; unfold utterance_ok;
      cbn [is_processing consecutive_speech_count is_recording_speech
           actual_speech_duration speech_start_time speech_segments
           set_show_standby_status set_actual_speech_duration
           set_speech_start_time set_is_recording_speech];
      (split_and!; [exact Hp2 | rewrite Hc2; exact Hc | by intros _
                    | discriminate]).
  - match goal with
    | |- context [if negb (is_paused ?x) then _ else _] =>
        destruct (negb (is_paused x))
    end; unfold utterance_ok; cbn;
      (split_and!; [exact Hp | exact Hc | by intros _ | discriminate]).
Qed.

Lemma utterance_ok_buffer (buffer : list bytes) (r : AudioRecorder) :
  utterance_ok r -> utterance_ok (set_audio_buffer buffer r).
Proof. intros Hok. exact Hok. Qed.

Lemma utterance_ok_process_audio_buffer (o : Observation) (r : AudioRecorder) :
  utterance_ok r -> utterance_ok (process_audio_buffer o r).
Proof.
  intros Hok. unfold process_audio_buffer.
  destruct (is_paused r); [exact Hok |].
  pose proof (utterance_ok_classify_window (concat (audio_buffer r)) o r Hok)
    as Hc.
  destruct (classify_window _ _ _) as [r1|r1]; cbn [flow_state] in Hc;
    [exact Hc |].
  apply utterance_ok_buffer. by apply utterance_ok_end_of_utterance_check.
Qed.

Lemma utterance_ok_audio_callback (audio_data : bytes) (o : Observation)
    (r : AudioRecorder) :
  utterance_ok r -> utterance_ok (audio_callback audio_data o r).
Proof.
  intros Hok. unfold audio_callback.
  destruct (is_paused r); [exact Hok |].
  destruct (recording_active r); [| exact Hok].
  cbn [audio_buffer set_audio_buffer config].
  destruct (py_truediv _ _); [| exact Hok].
  destruct (Qle_bool _ _); [| exact Hok].
  by apply utterance_ok_process_audio_buffer.
Qed.

Section SegmentationInvariants.
Context `{External}.

Lemma utterance_ok_turn (cb : option Downstream) (w : Recognition)
    (r : AudioRecorder) :
  utterance_ok r ->
  utterance_ok (fst (asr_consumer_turn (option_map on_recognition_result cb) w r)).
Proof.
  intros Hok. unfold asr_consumer_turn.
  destruct (asr_consumer_active r); cbn [negb fst]; [| exact Hok].
  destruct (asr_queue r) as [|[audio_item|] q]; cbn [fst];
    [exact Hok | | exact Hok].
  destruct (process_item_frame cb w audio_item (set_asr_queue q r))
    as (r' & -> & Hf). cbn [fst].
  eapply utterance_ok_frame; [exact Hf | exact Hok].
Qed.

Lemma utterance_ok_stop (r : AudioRecorder) :
  utterance_ok r -> utterance_ok (fst (stop_recording r)).
Proof.
  intros Hok.
  destruct (gate_frame_stop r) as (_ & _ & Hs & Hr & Ht & Hp & Hd & Hc).
  unfold utterance_ok. by rewrite Hs, Hr, Ht, Hp, Hd, Hc.
Qed.

Lemma utterance_ok_action (r : AudioRecorder) (a : Action) :
  utterance_ok r -> utterance_ok (action_step r a).
Proof.
  intros Hok. destruct a as [[buffer o|audio_data o|d w|]| |];
    cbn [action_step system_step].
  - apply utterance_ok_process_audio_buffer. by apply utterance_ok_buffer.
  - by apply utterance_ok_audio_callback.
  - by apply utterance_ok_turn.
  - by apply utterance_ok_stop.
  - eapply utterance_ok_frame; [apply gate_frame_pause | exact Hok].
  - eapply utterance_ok_frame; [apply gate_frame_resume | exact Hok].
Qed.

(** X8. The segmentation never leaves a half-open utterance behind. From
    construction on, after any blocks, windows, worker turns, pauses,
    resumes and stops: [is_processing] is clear (so that
    [process_speech_segments] and the end-of-utterance check are never
    skipped because of it), an idle recorder carries no speech duration and
    no start time, and a recorder in an utterance has a start time and at
    least one recorded window. *)
Theorem segmentation_state_is_consistent (c : Config)
    (enable_asr0 model_loads : bool) (index : list (string * FileInfo))
    (files : gset string) (now : Q) (acts : list Action) :
  let r := action_run
             (recorder_of (init c enable_asr0 model_loads index files now))
             acts in
  is_processing r = false
  /\ 0 <= consecutive_speech_count r
  /\ (is_recording_speech r = false ->
      actual_speech_duration r = 0%Q /\ speech_start_time r = None)
  /\ (is_recording_speech r = true ->
      speech_segments r <> [] /\ speech_start_time r <> None).
Proof.
  cbn zeta. fold (utterance_ok (action_run
                     (recorder_of (init c enable_asr0 model_loads index files now))
                     acts)).
  assert (H0 : utterance_ok
                 (recorder_of (init c enable_asr0 model_loads index files now))).
  { unfold init.
    match goal with
    | |- context [_cleanup_recording_cache ?x] =>
        set (r0 := x); assert (H0 : utterance_ok r0)
    end.
    { unfold utterance_ok. cbn. split_and!; [reflexivity | lia | done | done]. }
    destruct (max_cache_files c <? len index); [| exact H0].
    pose proof (cache_frame_cleanup r0) as Hf.
    destruct (_cleanup_recording_cache r0); cbn [recorder_of];
      (eapply utterance_ok_frame; [apply gate_frame_cache; exact Hf | exact H0]). }
  revert H0.
  generalize (recorder_of (init c enable_asr0 model_loads index files now)).
  induction acts as [|a acts IH]; intros r Hok; [exact Hok |].
  change (action_run r (a :: acts)) with (action_run (action_step r a) acts).
  apply IH. by apply utterance_ok_action.
Qed.

End SegmentationInvariants.

(** ** More on the recording cache *)

Lemma dict_set_new {V} (k : string) (v : V) (d : list (string * V)) :
  ~ In k (dict_keys d) -> dict_set k v d = d ++ [(k, v)].
Proof.
  induction d as [|[k' v'] d IH]; simpl; [reflexivity |].
  destruct (String.eqb_spec k k') as [->|Hne]; [tauto |].
  intros Hni. rewrite IH; [reflexivity | tauto].
Qed.

Lemma dict_set_old_length {V} (k : string) (v : V) (d : list (string * V)) :
  In k (dict_keys d) -> length (dict_set k v d) = length d.
Proof.
  induction d as [|[k' v'] d IH]; simpl; [tauto |].
  destruct (String.eqb_spec k k') as [->|Hne]; simpl; [reflexivity |].
  intros [Heq|Hin]; [congruence | by rewrite IH].
Qed.

Lemma dict_set_has {V} (k : string) (v : V) (d : list (string * V)) :
  In (k, v) (dict_set k v d).
Proof.
  induction d as [|[k' v'] d IH]; simpl; [by left |].
  destruct (String.eqb k k'); [by left | by right].
Qed.

Section SortedLast.
Context {A : Type} (key : A -> Z).

Lemma insert_by_app_last (y x : A) (l : list A) :
  key y <= key x -> insert_by key y (l ++ [x]) = insert_by key y l ++ [x].
Proof.
  intros Hle. induction l as [|a l IH]; simpl.
  - destruct (Z.leb_spec (key y) (key x)); [reflexivity | lia].
  - destruct (key y <=? key a); [reflexivity | by rewrite IH].
Qed.

(** The sort is stable: an element appended to the list, with a key that is
    not below any other, stays last. *)
Lemma sorted_by_app_last (l : list A) (x : A) :
  (forall y, In y l -> key y <= key x) ->
  sorted_by key (l ++ [x]) = sorted_by key l ++ [x].
Proof.
  induction l as [|a l IH]; intros Hle; [reflexivity |].
  cbn [app sorted_by fold_right]. fold (sorted_by key (l ++ [x])).
  fold (sorted_by key l).
  rewrite IH by (intros y Hy; apply Hle; by right).
  apply insert_by_app_last. apply Hle. by left.
Qed.

End SortedLast.

Lemma append_empty_r (s : string) : s +:+ "" = s.
Proof.
  induction s as [|c s IH]; [reflexivity |].
  change (String c (s +:+ "") = String c s). by rewrite IH.
Qed.

Lemma str_in_refl (s : string) : str_in s s = true.
Proof.
  apply str_in_spec. exists "", "". change (s = s +:+ "").
  by rewrite append_empty_r.
Qed.

Lemma evict_oldest_overrun (n : nat) (items : list (string * FileInfo))
    `{External} (r : AudioRecorder) :
  (length items < n)%nat ->
  exists r', evict_oldest n items r
             = Raised (mkExc IndexError "list index out of range") r'.
Proof.
  revert items r. induction n as [|n IH]; intros items r Hn; [lia |].
  destruct items as [|[k info] items]; simpl.
  - by eexists.
  - apply IH. simpl in Hn. lia.
Qed.

Section NegativeLimit.
Context `{External}.

Lemma cleanup_negative (r : AudioRecorder) :
  max_cache_files (config r) < 0 ->
  exists r', _cleanup_recording_cache r
             = Raised (mkExc IndexError "list index out of range") r'.
Proof.
  intros Hneg. unfold _cleanup_recording_cache.
  destruct (Z.leb_spec (len (recording_cache_index r)) (max_cache_files (config r)))
    as [Hle|Hgt]; [unfold len in Hle; lia |].
  apply evict_oldest_overrun.
  rewrite (Permutation_length (sorted_by_perm _ _)). unfold len. lia.
Qed.

(** X9. A negative [max_cache_files] is not treated as "no limit". The
    constructor then always ends in an [IndexError], whatever index it
    loads, and a put that gets as far as the index (recordings are saved,
    the WAV file is written, the sample rate is not zero) ends in the same
    error inside [_save_recording_file], which prints it and returns
    [None]: no put ever returns a path. *)
Theorem negative_cache_limit_breaks_the_cache (c : Config)
    (enable_asr0 model_loads : bool) (index : list (string * FileInfo))
    (files : gset string) (now : Q) :
  max_cache_files c < 0 ->
  (exists r',
     init c enable_asr0 model_loads index files now
     = Raised (mkExc IndexError "list index out of range") r')
  /\ (forall (r : AudioRecorder) (audio_data : bytes) (t : option string)
        (timestamp : Z),
        config r = c ->
        snd (_save_recording_file audio_data t timestamp r) = None).
Proof.
  intros Hneg. split.
  - unfold init.
    destruct (Z.ltb_spec (max_cache_files c) (len index)) as [_|Hle];
      [| unfold len in Hle; lia].
    by apply cleanup_negative.
  - intros r audio_data t timestamp Hc.
    unfold _save_recording_file.
    destruct (save_recordings (config r)); cbn [negb snd]; [| reflexivity].
    destruct (match speech_recognizer r with
              | Some _ => save_wav_file _ r
              | None => Done r
              end) as [r1|e r1] eqn:Hsaved; [| reflexivity].
    assert (Hc1 : config r1 = c).
    { destruct (speech_recognizer r); [| by simplify_eq].
      unfold save_wav_file in Hsaved.
      destruct (wav_write_raises _); [discriminate |]. by simplify_eq. }
    destruct (py_truediv _ _) as [d|]; [| reflexivity].
    match goal with
    | |- context [_cleanup_recording_cache ?x] =>
        destruct (cleanup_negative x) as (r' & ->); [cbn; by rewrite Hc1 |]
    end.
    reflexivity.
Qed.

End NegativeLimit.

Section EvictionFiles.
Context `{External}.
Hypothesis unlink_works : forall f : string, unlink_raises f = false.

Lemma evict_entry_files (k : string) (info : FileInfo) (r : AudioRecorder)
    (f : string) :
  f ∈ cache_files (evict_entry k info r)
  <-> f ∈ cache_files r /\ f <> filename info.
Proof.
  unfold evict_entry. rewrite unlink_works.
  destruct (bool_decide_reflect (filename info ∈ cache_files r)) as [Hin|Hni];
    cbn [cache_files set_recording_cache_index set_cache_files].
  - by rewrite elem_of_difference, elem_of_singleton.
  - split; [intros Hf; split; [exact Hf | by intros ->] | tauto].
Qed.

Lemma evict_oldest_files (n : nat) (items : list (string * FileInfo))
    (r : AudioRecorder) :
  (n <= length items)%nat ->
  exists r',
    evict_oldest n items r = Done r'
    /\ forall f,
         f ∈ cache_files r'
         <-> f ∈ cache_files r
             /\ ~ In f (map (fun x => filename (snd x)) (firstn n items)).
Proof.
  revert items r. induction n as [|n IH]; intros items r Hn.
  - exists r. split; [reflexivity |]. intros f. simpl. tauto.
  - destruct items as [|[k info] items]; [simpl in Hn; lia |].
    destruct (IH items (evict_entry k info r)) as (r' & Hr' & Hf);
      [simpl in Hn; lia |].
    exists r'. split; [exact Hr' |]. intros f.
    rewrite Hf, evict_entry_files. simpl. split.
    + intros [[Hin Hne] Hni]. split; [exact Hin |]. intros [Heq|Hin'];
        [congruence | contradiction].
    + intros [Hin Hni]. split_and!; [exact Hin | |]; intros Hx; apply Hni;
        [left; congruence | by right].
Qed.

(** X10. Eviction and the files. Provided that deleting never raises, the
    limit is not negative and the keys of the index are distinct,
    [_cleanup_recording_cache] returns normally; every row that it removes
    from the index has no file in the cache directory afterwards; a file is
    removed only if a removed row names it; and no file appears. *)
Theorem evicted_rows_lose_their_files (r : AudioRecorder) :
  0 <= max_cache_files (config r) ->
  List.NoDup (dict_keys (recording_cache_index r)) ->
  exists r',
    _cleanup_recording_cache r = Done r'
    /\ (forall k v,
          In (k, v) (recording_cache_index r) ->
          ~ In (k, v) (recording_cache_index r') ->
          filename v ∉ cache_files r')
    /\ (forall f,
          f ∈ cache_files r ->
          (forall k v,
             In (k, v) (recording_cache_index r) ->
             ~ In (k, v) (recording_cache_index r') ->
             filename v <> f) ->
          f ∈ cache_files r')
    /\ (forall f, f ∈ cache_files r' -> f ∈ cache_files r).
Proof.
  intros Hmax Hnd. unfold _cleanup_recording_cache.
  destruct (Z.leb_spec (len (recording_cache_index r)) (max_cache_files (config r)))
    as [Hle|Hgt].
  - exists r. split_and!; [reflexivity | | auto | auto].
    intros k v Hin Hni. contradiction.
  - set (d := recording_cache_index r) in *.
    set (s := sorted_by (fun x => created (snd x)) d).
    set (n := Z.to_nat (len d - max_cache_files (config r))).
    assert (Hperm : Permutation s d) by apply sorted_by_perm.
    assert (Hlen : length s = length d) by (by apply Permutation_length).
    assert (Hn : (n <= length s)%nat) by (unfold len in *; lia).
    destruct (evict_oldest_index unlink_works n s r Hn) as (r' & Hr' & Hidx & _).
    destruct (evict_oldest_files n s r Hn) as (r'' & Hr'' & Hfiles).
    rewrite Hr' in Hr''. injection Hr'' as <-.
    fold d in Hidx. set (ks := map fst (firstn n s)) in *.
    assert (Hfirst : forall x, In x (firstn n s) -> In x d).
    { intros x Hx. eapply Permutation_in; [exact Hperm |].
      rewrite <- (firstn_skipn n s). apply in_or_app. by left. }
    assert (Hgone : forall k v,
               In (k, v) d -> ~ In (k, v) (recording_cache_index r') ->
               In (k, v) (firstn n s)).
    { intros k v Hin Hni. rewrite Hidx in Hni.
      rewrite remove_keys_In in Hni by assumption.
      assert (Hk : In k ks).
      { destruct (in_dec string_dec k ks); [assumption |].
        exfalso. apply Hni. by split. }
      unfold ks in Hk. apply in_map_iff in Hk as ([k0 v0] & Hk0 & Hx).
      simpl in Hk0. subst k0.
      by rewrite (NoDup_keys_unique d k v v0 Hnd Hin (Hfirst _ Hx)). }
    exists r'. split_and!; [exact Hr' | | |].
    + intros k v Hin Hni Hf. apply Hfiles in Hf as [_ Hf]. apply Hf.
      apply in_map_iff. exists (k, v). split; [reflexivity | by apply Hgone].
    + intros f Hf Hother. apply Hfiles. split; [exact Hf |].
      intros Hin. apply in_map_iff in Hin as ([k v] & Hname & Hx).
      simpl in Hname. apply (Hother k v); [by apply Hfirst | | exact Hname].
      rewrite Hidx, remove_keys_In by assumption. intros [_ Hk]. apply Hk.
      unfold ks. apply in_map_iff. by exists (k, v).
    + intros f Hf. by apply Hfiles in Hf as [Hf _].
Qed.

(** The clean-up that follows the insertion of a row at least as new as
    every other. *)
Lemma cleanup_keeps_newest_row (r : AudioRecorder)
    (d : list (string * FileInfo)) (h : string) (info : FileInfo) :
  recording_cache_index r = dict_set h info d ->
  List.NoDup (dict_keys d) ->
  len d <= max_cache_files (config r) ->
  1 <= max_cache_files (config r) ->
  (forall k v, In (k, v) d -> created v <= created info) ->
  exists r',
    _cleanup_recording_cache r = Done r'
    /\ config r' = config r
    /\ recording_stats r' = recording_stats r
    /\ In (h, info) (recording_cache_index r')
    /\ forall f,
         f ∈ cache_files r ->
         (forall k v, In (k, v) d -> k <> h -> filename v <> f) ->
         f ∈ cache_files r'.
Proof.
  intros Hidx Hnd Hlen Hmax Hnew. unfold _cleanup_recording_cache.
  destruct (Z.leb_spec (len (recording_cache_index r)) (max_cache_files (config r)))
    as [Hle|Hgt].
  - exists r. split_and!; try done. rewrite Hidx. apply dict_set_has.
  - assert (Hni : ~ In h (dict_keys d)).
    { intros Hin. rewrite Hidx in Hgt. unfold len in *.
      rewrite dict_set_old_length in Hgt by assumption. lia. }
    rewrite Hidx, dict_set_new by assumption.
    assert (Hn : Z.to_nat (len (d ++ [(h, info)]) - max_cache_files (config r))
                 = 1%nat).
    { rewrite Hidx, dict_set_new in Hgt by assumption.
      unfold len in *. rewrite length_app in *. cbn [length] in *. lia. }
    rewrite Hn.
    rewrite sorted_by_app_last
      by (intros [k v] Hy; cbn [snd]; by apply (Hnew k v)).
    pose proof (sorted_by_perm (fun x => created (snd x)) d) as Hperm.
    destruct (sorted_by (fun x => created (snd x)) d) as [|[ky vy] rest] eqn:Hs.
    { apply Permutation_length in Hperm. cbn [length] in Hperm.
      rewrite Hidx, dict_set_new in Hgt by assumption.
      unfold len in *. rewrite length_app in *. cbn [length] in *. lia. }
    assert (Hy : In (ky, vy) d)
      by (eapply Permutation_in; [exact Hperm | by left]).
    assert (Hky : ky <> h).
    { intros ->. apply Hni. unfold dict_keys. apply in_map_iff.
      by exists (h, vy). }
    cbn [app evict_oldest]. eexists. split; [reflexivity |].
    destruct (evict_entry_index unlink_works ky vy r) as [Hi Hc].
    split_and!.
    + exact Hc.
    + unfold evict_entry. rewrite unlink_works.
      by destruct (bool_decide (filename vy ∈ cache_files r)).
    + rewrite Hi, Hidx, dict_set_new by assumption.
      apply dict_del_other; [apply in_or_app; right; by left | by cbn].
    + intros f Hf Hother. apply evict_entry_files. split; [exact Hf |].
      intros ->. by apply (Hother ky vy).
Qed.

(** X11. Put, then find. Let the limit be at least one, the index within
    the limit with distinct keys, no row newer than the clock, and no row
    of another key with the file name of the new recording; let the WAV
    file be written and deleting never raise. Then
    [_save_recording_file] with a non-empty text returns the path of the
    new file, the index has the row of the new recording under its hash,
    the file is in the cache directory, and [find_recording_by_text] of
    that text returns the recording, with the same path. *)
Theorem saved_recording_is_found (c : Config) (r : AudioRecorder)
    (audio_data : bytes) (t : string) (timestamp : Z) :
  wav_write_raises
    (recording_filename timestamp (md5_hexdigest audio_data)) = false ->
  index_ok c r ->
  1 <= max_cache_files c ->
  save_recordings c = true ->
  samplerate c <> 0 ->
  is_Some (speech_recognizer r) ->
  t <> "" ->
  (forall k v, In (k, v) (recording_cache_index r) -> created v <= timestamp) ->
  (forall k v,
     In (k, v) (recording_cache_index r) ->
     k <> md5_hexdigest audio_data ->
     filename v <> recording_filename timestamp (md5_hexdigest audio_data)) ->
  let h := md5_hexdigest audio_data in
  let fname := recording_filename timestamp h in
  let path := path_join (recording_cache_dir c) fname in
  let r' := fst (_save_recording_file audio_data (Some t) timestamp r) in
  snd (_save_recording_file audio_data (Some t) timestamp r) = Some path
  /\ fname ∈ cache_files r'
  /\ (exists info : FileInfo,
        In (h, info) (recording_cache_index r')
        /\ filename info = fname /\ created info = timestamp
        /\ text info = t /\ size_bytes info = len audio_data
        /\ In (mkFound h path t timestamp (duration info))
             (find_recording_by_text t r'))
  /\ total_recordings (recording_stats r')
     = total_recordings (recording_stats r) + 1
  /\ cached_files (recording_stats r') = len (recording_cache_index r').
Proof.
  intros Hwrite (Hcfg & Hnd & Hlen) Hmax Hsave Hsr [rec Hrec] Ht Hnew Hnames.
  cbn zeta. unfold _save_recording_file, _get_recording_hash.
  rewrite Hcfg, Hsave. cbn [negb]. rewrite Hrec.
  unfold save_wav_file. rewrite Hwrite.
  cbn [config set_cache_files actual_speech_duration recording_cache_index].
  rewrite Hcfg, py_truediv_Some by lia.
  set (h := md5_hexdigest audio_data).
  set (fname := recording_filename timestamp h).
  match goal with
  | |- context [dict_set h ?i _] => set (info := i)
  end.
  match goal with
  | |- context [_cleanup_recording_cache ?x] => set (r2 := x)
  end.
  destruct (cleanup_keeps_newest_row r2 (recording_cache_index r) h info)
    as (r3 & -> & Hc3 & Hst3 & Hin3 & Hf3).
  { reflexivity. }
  { exact Hnd. }
  { subst r2. cbn. by rewrite Hcfg. }
  { subst r2. cbn. by rewrite Hcfg. }
  { intros k v Hin. subst info. cbn. by apply (Hnew k v). }
  cbn [fst snd].
  assert (Hfile : fname ∈ cache_files r3).
  { apply Hf3;
      [subst r2; cbn [cache_files set_cache_files set_recording_cache_index];
       apply elem_of_union_l; by apply elem_of_singleton |].
    intros k v Hin Hk. by apply (Hnames k v). }
  assert (Htext : text info = t) by (subst info; cbn; by destruct t).
  split_and!.
  - reflexivity.
  - exact Hfile.
  - exists info. split_and!; try reflexivity; [exact Hin3 | exact Htext |].
    unfold find_recording_by_text. rewrite find_loop_spec. cbn [app].
    apply in_map_iff. exists (h, info). split.
    + unfold found_row. cbn [fst snd config set_recording_stats].
      rewrite Hc3. subst r2. cbn [config set_recording_cache_index set_cache_files].
      rewrite Hcfg, Htext. reflexivity.
    + apply filter_In. split; [exact Hin3 |].
      unfold row_matches. cbn [snd cache_files set_recording_stats].
      rewrite Htext, str_in_refl. cbn [andb].
      by apply bool_decide_eq_true_2.
  - cbn. rewrite Hst3. subst r2. reflexivity.
  - reflexivity.
Qed.

End EvictionFiles.

Section CleanupStats.
Context `{External}.

Lemma evict_entry_stats (k : string) (info : FileInfo) (r : AudioRecorder) :
  recording_stats (evict_entry k info r) = recording_stats r.
Proof.
  unfold evict_entry.
  destruct (bool_decide (filename info ∈ cache_files r));
    [destruct (unlink_raises (filename info)) |]; reflexivity.
Qed.

Lemma evict_oldest_stats (n : nat) (items : list (string * FileInfo))
    (r : AudioRecorder) :
  match evict_oldest n items r with
  | Done r' | Raised _ r' => recording_stats r' = recording_stats r
  end.
Proof.
  revert items r. induction n as [|n IH]; intros items r; simpl;
    [reflexivity |].
  destruct items as [|[k info] items]; [reflexivity |].
  specialize (IH items (evict_entry k info r)).
  rewrite evict_entry_stats in IH. exact IH.
Qed.

Lemma cleanup_keeps_stats (r : AudioRecorder) :
  match _cleanup_recording_cache r with
  | Done r' | Raised _ r' => recording_stats r' = recording_stats r
  end.
Proof.
  unfold _cleanup_recording_cache.
  destruct (len (recording_cache_index r) <=? max_cache_files (config r));
    [reflexivity | apply evict_oldest_stats].
Qed.

End CleanupStats.

Section PutOutcome.
Context `{External}.
Hypothesis unlink_works : forall f : string, unlink_raises f = false.


(** X13. What a put that returns nothing leaves behind. Provided the limit
    is not negative, the keys are distinct and deleting never raises, a call
    of [_save_recording_file] that returns [None] leaves the index and the
    statistics as they were and removes no file; a call that returns a path
    returns the path of [rec_<timestamp>_<hash[:8]>.wav] in the cache
    directory, adds one to [total_recordings], adds one to
    [successful_recognitions] exactly when the text is a non-empty string,
    and sets [cached_files] to the size of the index. *)
Theorem put_outcome (r : AudioRecorder) (audio_data : bytes)
    (t : option string) (timestamp : Z) :
  0 <= max_cache_files (config r) ->
  List.NoDup (dict_keys (recording_cache_index r)) ->
  let r' := fst (_save_recording_file audio_data t timestamp r) in
  match snd (_save_recording_file audio_data t timestamp r) with
  | None =>
      recording_cache_index r' = recording_cache_index r
      /\ recording_stats r' = recording_stats r
      /\ (forall f, f ∈ cache_files r -> f ∈ cache_files r')
  | Some path =>
      path = path_join (recording_cache_dir (config r))
               (recording_filename timestamp (md5_hexdigest audio_data))
      /\ total_recordings (recording_stats r')
         = total_recordings (recording_stats r) + 1
      /\ successful_recognitions (recording_stats r')
         = successful_recognitions (recording_stats r)
           + (if str_truthy t then 1 else 0)
      /\ failed_recognitions (recording_stats r')
         = failed_recognitions (recording_stats r)
      /\ cached_files (recording_stats r') = len (recording_cache_index r')
  end.
Proof.
  intros Hmax Hnd. cbn zeta. unfold _save_recording_file, _get_recording_hash.
  destruct (save_recordings (config r)); cbn [negb fst snd]; [| by split_and!].
  set (fname := recording_filename timestamp (md5_hexdigest audio_data)).
  assert (Hsaved : exists r1,
             config r1 = config r
             /\ recording_cache_index r1 = recording_cache_index r
             /\ recording_stats r1 = recording_stats r
             /\ (forall f, f ∈ cache_files r -> f ∈ cache_files r1)
             /\ (match speech_recognizer r with
                 | Some _ => save_wav_file fname r
                 | None => Done r
                 end = Done r1
                 \/ exists e, match speech_recognizer r with
                              | Some _ => save_wav_file fname r
                              | None => Done r
                              end = Raised e r1)).
  { destruct (speech_recognizer r); [| exists r; split_and!; auto].
    unfold save_wav_file. destruct (wav_write_raises fname); eexists;
      (split_and!;
       [| | | | first [left; reflexivity | right; eexists; reflexivity]]);
      try reflexivity; cbn [cache_files set_cache_files]; intros f Hf;
      [exact Hf | by apply elem_of_union_r]. }
  destruct Hsaved as (r1 & Hc1 & Hi1 & Hs1 & Hf1 & [->| [e ->]]);
    cbn [fst snd]; [| by split_and!].
  destruct (py_truediv (len audio_data) (samplerate (config r1) * 2))
    as [d|]; cbn [fst snd]; [| by split_and!].
  match goal with
  | |- context [_cleanup_recording_cache ?x] => set (r2 := x)
  end.
  assert (Hnd2 : List.NoDup (dict_keys (recording_cache_index r2))).
  { subst r2. cbn. rewrite Hi1. by apply dict_set_NoDup. }
  assert (Hmax2 : 0 <= max_cache_files (config r2)).
  { subst r2. cbn. by rewrite Hc1. }
  destruct (cleanup_bounds unlink_works r2 Hmax2 Hnd2)
    as (r3 & Hr3 & Hc3 & _).
  rewrite Hr3.
  assert (Hst3 : recording_stats r3 = recording_stats r).
  { pose proof (cleanup_keeps_stats r2) as Hst. rewrite Hr3 in Hst.
    rewrite Hst. subst r2. cbn. exact Hs1. }
  cbn [fst snd recording_stats set_recording_stats count_recording
       total_recordings successful_recognitions failed_recognitions
       cached_files recording_cache_index].
  rewrite Hst3. split_and!; try reflexivity.
  destruct (str_truthy t); lia.
Qed.

End PutOutcome.

(** ** Down-mixing, voice activity and amplitude *)

Lemma left_channel_whole (n : nat) (d m : bytes) :
  (length d <= n)%nat -> left_channel d = Some m ->
  exists k, length d = (4 * k)%nat.
Proof.
  revert d m. induction n as [|n IH]; intros d m Hn Hd.
  - destruct d; [by exists 0%nat | simpl in Hn; lia].
  - destruct d as [|b0 [|b1 [|b2 [|b3 d]]]]; try discriminate;
      [by exists 0%nat |].
    cbn [left_channel] in Hd.
    destruct (left_channel d) as [m'|] eqn:Hm'; [| discriminate].
    destruct (IH d m') as [k Hk]; [simpl in Hn; lia | exact Hm' |].
    exists (S k). simpl. lia.
Qed.

Lemma left_channel_lookup (n : nat) (d m : bytes) (i : nat) :
  length d = (4 * n)%nat -> left_channel d = Some m ->
  (i < 2 * n)%nat ->
  m !! i = d !! (4 * (i / 2) + i mod 2)%nat.
Proof.
  revert d m i. induction n as [|n IH]; intros d m i Hd Hm Hi; [lia |].
  destruct d as [|b0 [|b1 [|b2 [|b3 d]]]]; simpl in Hd; try lia.
  cbn [left_channel] in Hm.
  destruct (left_channel d) as [m'|] eqn:Hm'; [| discriminate].
  injection Hm as <-.
  destruct i as [|[|j]]; [reflexivity | reflexivity |].
  replace (S (S j)) with (j + 1 * 2)%nat by lia.
  rewrite Nat.div_add, Nat.Div0.mod_add by lia.
  replace (4 * (j / 2 + 1) + j mod 2)%nat
    with (S (S (S (S (4 * (j / 2) + j mod 2))))) by lia.
  replace (j + 1 * 2)%nat with (S (S j)) by lia.
  cbn [lookup list_lookup]. apply (IH d m' j); [lia | exact Hm' | lia].
Qed.

(** X14. [stereo_to_mono] keeps the left channel: on [n] whole stereo
    frames of 16-bit samples its result has [2 n] bytes, and byte [i] of the
    result is byte [4 (i / 2) + i mod 2] of the input. With a channel count
    other than two, or when the input is not made of whole frames (its
    length is not a multiple of four), the input is returned as it is: the
    caller then treats stereo bytes as mono. *)
Theorem stereo_to_mono_keeps_the_left_channel (channels : Z) (d : bytes) :
  (forall n : nat,
     length d = (4 * n)%nat ->
     length (stereo_to_mono 2 d) = (2 * n)%nat
     /\ forall i : nat,
          (i < 2 * n)%nat ->
          stereo_to_mono 2 d !! i = d !! (4 * (i / 2) + i mod 2)%nat)
  /\ (channels <> 2 \/ (length d mod 4 <> 0)%nat ->
      stereo_to_mono channels d = d).
Proof.
  split.
  - intros n Hd.
    destruct (left_channel_frames n d Hd) as (m & Hm & Hlen).
    assert (He : Nat.even (length d) = true)
      by (apply Nat.even_spec; exists (2 * n)%nat; lia).
    unfold stereo_to_mono. rewrite He, Hm. cbn [Z.eqb Pos.eqb].
    split; [exact Hlen |]. intros i Hi. by apply (left_channel_lookup n).
  - intros Hcase. unfold stereo_to_mono.
    destruct (Nat.even (length d)); [| reflexivity].
    destruct (Z.eqb_spec channels 2) as [Hc|Hc]; [| reflexivity].
    destruct Hcase as [Hne|Hmod]; [contradiction |].
    destruct (left_channel d) as [m|] eqn:Hm; [| reflexivity].
    exfalso. apply Hmod.
    destruct (left_channel_whole (length d) d m) as [k Hk];
      [lia | exact Hm |].
    rewrite Hk, Nat.mul_comm. apply Nat.Div0.mod_mul.
Qed.

(** *** Voice activity *)

Lemma length_slice (d : bytes) (i n : nat) :
  length (slice d i n) = Nat.min n (length d - i).
Proof. unfold slice. by rewrite length_firstn, length_skipn. Qed.

Lemma filter_map_length {A B} (P : B -> bool) (f : A -> B) (l : list A) :
  length (List.filter P (map f l)) = length (List.filter (fun x => P (f x)) l).
Proof.
  induction l as [|x l IH]; [reflexivity |]. cbn [map List.filter].
  destruct (P (f x)); cbn [length]; by rewrite IH.
Qed.

Lemma filter_seq_bound (Q : nat -> bool) (b a m : nat) :
  (forall k, Q k = true -> (k < b)%nat) ->
  (length (List.filter Q (seq a m)) <= b - a)%nat.
Proof.
  intros HQ. revert a. induction m as [|m IH]; intros a; [simpl; lia |].
  cbn [seq List.filter]. specialize (IH (S a)).
  destruct (Q a) eqn:Ha; cbn [length]; [apply HQ in Ha |]; lia.
Qed.

Lemma filter_none_length {A} (P : A -> bool) (l : list A) :
  (forall x, P x = false) -> length (List.filter P l) = 0%nat.
Proof.
  intros HP. induction l as [|x l IH]; [reflexivity |].
  cbn [List.filter]. by rewrite HP.
Qed.

Lemma round_half_bounds (total : Z) :
  total - 1 <= 2 * round_half total <= total + 1.
Proof.
  unfold round_half.
  pose proof (Z.div_mod total 2 ltac:(lia)) as Hdm.
  pose proof (Zmod_even total) as He.
  destruct (Z.even total); [lia |].
  destruct (Z.even (total / 2)); lia.
Qed.

Lemma vad_step_pos (samplerate : Z) : 0 < vad_step samplerate.
Proof.
  unfold vad_step. cbn zeta.
  destruct (Z.leb_spec (Z.quot samplerate 50 * 2) 0); lia.
Qed.

Section VadProperties.
Variable is_speech : bytes -> option bool.

Lemma speech_chunks_bound (d : bytes) (s : nat) :
  (0 < s)%nat ->
  (length (List.filter (fun i => chunk_counts is_speech s (slice d i s))
             (range_step (length d) s))
   <= length d / s)%nat.
Proof.
  intros Hs. unfold range_step. rewrite filter_map_length.
  rewrite <- (Nat.sub_0_r (length d / s)).
  apply filter_seq_bound. intros k Hk.
  unfold chunk_counts in Hk. apply andb_true_iff in Hk as [Hk _].
  apply Nat.eqb_eq in Hk. rewrite length_slice in Hk.
  apply Nat.div_le_lower_bound with (a := length d) (b := s) (q := S k);
    [lia |].
  assert (s <= length d - k * s)%nat by lia. nia.
Qed.

(** X15. The verdict of [check_vad_activity] and its counts. The number of
    speech chunks is between zero and the number of chunks (the detector is
    asked about whole chunks only). A verdict of speech needs at least one
    speech chunk and at least half of the chunks, rounded as Python rounds:
    it implies [total <= 2 num + 1], and it is given whenever
    [num >= 1] and [2 num >= total + 1]. When the detector never answers
    "speech" (for instance because it raises on every chunk, as it does for
    a sample rate it does not support), the verdict is "no speech" with a
    count of zero, and nothing is raised. *)
Theorem vad_verdict_needs_half_the_chunks (samplerate channels : Z)
    (audio_data : bytes) :
  let verdict := fst (fst (check_vad_activity is_speech samplerate channels
                             audio_data)) in
  let num := snd (fst (check_vad_activity is_speech samplerate channels
                         audio_data)) in
  let total := snd (check_vad_activity is_speech samplerate channels
                      audio_data) in
  0 <= num <= total
  /\ total <= len (stereo_to_mono channels audio_data) / vad_step samplerate
  /\ (verdict = true -> 1 <= num /\ total <= 2 * num + 1)
  /\ (1 <= num -> total + 1 <= 2 * num -> verdict = true)
  /\ ((forall chunk, is_speech chunk <> Some true) ->
      verdict = false /\ num = 0).
Proof.
  cbn zeta. unfold check_vad_activity.
  set (mono_data := stereo_to_mono channels audio_data).
  pose proof (vad_step_pos samplerate) as Hstep.
  assert (Hdiv : 0 <= len mono_data / vad_step samplerate)
    by (apply Z.div_pos; unfold len; lia).
  destruct (len mono_data <? 640); cbn [fst snd];
    [split_and!; try lia; try discriminate; by intros _ |].
  destruct (Z.eqb_spec (len mono_data / vad_step samplerate) 0) as [Hz|Hz];
    cbn [fst snd]; [split_and!; try lia; try discriminate; by intros _ |].
  set (s := Z.to_nat (vad_step samplerate)).
  set (hits := List.filter _ _).
  assert (Hs : (0 < s)%nat) by (subst s; lia).
  assert (Hhits : len hits <= len mono_data / vad_step samplerate).
  { pose proof (speech_chunks_bound mono_data s Hs) as Hb. fold hits in Hb.
    unfold len. replace (vad_step samplerate) with (Z.of_nat s)
      by (subst s; lia).
    rewrite <- Nat2Z.inj_div. lia. }
  pose proof (round_half_bounds (len mono_data / vad_step samplerate)) as Hr.
  assert (Hnn : 0 <= len hits) by (unfold len; lia).
  split_and!; try lia.
  intros Hnever.
  assert (Hzero : len hits = 0).
  { unfold len. subst hits. rewrite filter_none_length; [reflexivity |].
    intros i. unfold chunk_counts.
    destruct (is_speech (slice mono_data i s)) as [[|]|] eqn:Hi;
      [by apply Hnever in Hi | |]; by rewrite andb_false_r. }
  rewrite Hzero. split; [| reflexivity]. apply Z.leb_gt. lia.
Qed.

End VadProperties.

(** *** Amplitude *)

Lemma int16_of_range (lo hi : byte) : -32768 <= int16_of lo hi <= 32767.
Proof.
  unfold int16_of. cbn zeta.
  pose proof (Byte.to_N_bounded lo). pose proof (Byte.to_N_bounded hi).
  destruct (Z.ltb_spec (Z.of_N (Byte.to_N lo) + 256 * Z.of_N (Byte.to_N hi))
              32768); lia.
Qed.

Lemma frombuffer_int16_even (n : nat) (d : bytes) :
  length d = (2 * n)%nat ->
  exists a,
    frombuffer_int16 d = Some a /\ length a = n
    /\ Forall (fun x => -32768 <= x <= 32767) a.
Proof.
  revert d. induction n as [|n IH]; intros d Hd.
  - destruct d; [| discriminate]. exists []. by split_and!.
  - destruct d as [|lo [|hi d]]; simpl in Hd; try lia.
    destruct (IH d) as (a & Ha & Hlen & Hr); [lia |].
    exists (int16_of lo hi :: a). cbn [frombuffer_int16]. rewrite Ha.
    split_and!; [reflexivity | simpl; lia |].
    constructor; [apply int16_of_range | exact Hr].
Qed.

Lemma frombuffer_int16_odd (n : nat) (d : bytes) :
  length d = S (2 * n) -> frombuffer_int16 d = None.
Proof.
  revert d. induction n as [|n IH]; intros d Hd.
  - destruct d as [|lo [|hi d]]; simpl in Hd; try lia. reflexivity.
  - destruct d as [|lo [|hi d]]; simpl in Hd; try lia.
    cbn [frombuffer_int16]. rewrite (IH d); [reflexivity | lia].
Qed.

Lemma fold_max_spec (l : list Z) (x : Z) :
  In (fold_left Z.max l x) (x :: l)
  /\ forall y, In y (x :: l) -> y <= fold_left Z.max l x.
Proof.
  revert x. induction l as [|z l IH]; intros x.
  - simpl. split; [by left | intros y [<-|[]]; lia].
  - cbn [fold_left]. destruct (IH (Z.max x z)) as [Hin Hmax]. split.
    + destruct Hin as [Heq|Hin]; [| right; by right].
      rewrite <- Heq. destruct (Z.max_spec x z) as [[_ ->]|[_ ->]];
        [right; by left | by left].
    + intros y [<-|[<-|Hy]].
      * specialize (Hmax (Z.max x z) ltac:(by left)). lia.
      * specialize (Hmax (Z.max x z) ltac:(by left)). lia.
      * apply Hmax. by right.
Qed.

Lemma abs_int16_range (x : Z) :
  -32768 <= x <= 32767 -> -32768 <= abs_int16 x <= 32767.
Proof. unfold abs_int16. destruct (Z.eqb_spec x (-32768)); lia. Qed.

Lemma abs_int16_loud (x : Z) :
  -32768 <= x <= 32767 ->
  3277 <= abs_int16 x <-> (3277 <= Z.abs x /\ x <> -32768).
Proof. unfold abs_int16. destruct (Z.eqb_spec x (-32768)); lia. Qed.

Lemma amplitude_gate (m : Z) :
  Qgt_bool (inject_Z m / 32768) amplitude_threshold = true <-> 3277 <= m.
Proof.
  unfold Qgt_bool, amplitude_threshold. rewrite negb_true_iff.
  rewrite <- not_true_iff_false, Qle_bool_iff.
  unfold Qle, Qdiv, Qmult, Qinv, inject_Z. cbn. lia.
Qed.

(** X16. [calculate_audio_amplitude]. It raises on an odd number of bytes
    and on an empty buffer. On a non-empty buffer of 16-bit samples it
    returns a value between -1 and 32767/32768; the value is above the
    threshold 0.1 of [process_audio_buffer] exactly when some sample has a
    magnitude of at least 3277 and is not -32768: a sample of -32768, the
    loudest there is, counts as the quietest, because [np.abs] leaves it
    negative. *)
Theorem amplitude_of_a_buffer (audio_data : bytes) :
  (Nat.odd (length audio_data) = true \/ audio_data = [] ->
   calculate_audio_amplitude audio_data = None)
  /\ (Nat.even (length audio_data) = true -> audio_data <> [] ->
      exists a : Q,
        calculate_audio_amplitude audio_data = Some a
        /\ (-1 <= a)%Q /\ (a <= 32767 # 32768)%Q
        /\ (Qgt_bool a amplitude_threshold = true
            <-> exists s : Z,
                  In s (samples audio_data)
                  /\ 3277 <= Z.abs s /\ s <> -32768)).
Proof.
  split.
  - intros [Hodd| ->]; [| reflexivity].
    apply Nat.odd_spec in Hodd as [n Hn]. unfold calculate_audio_amplitude.
    rewrite (frombuffer_int16_odd n); [reflexivity | lia].
  - intros Heven Hne. apply Nat.even_spec in Heven as [n Hn].
    destruct (frombuffer_int16_even n audio_data Hn) as (a & Ha & Hlen & Hr).
    unfold calculate_audio_amplitude, samples. rewrite Ha.
    destruct a as [|x a].
    { destruct audio_data; [contradiction | simpl in Hn, Hlen; lia]. }
    cbn [map np_max].
    destruct (fold_max_spec (map abs_int16 a) (abs_int16 x)) as [Hin Hmax].
    set (m := fold_left Z.max (map abs_int16 a) (abs_int16 x)) in *.
    change (abs_int16 x :: map abs_int16 a) with (map abs_int16 (x :: a)) in *.
    assert (Hm : -32768 <= m <= 32767).
    { apply in_map_iff in Hin as (y & <- & Hy). apply abs_int16_range.
      rewrite List.Forall_forall in Hr. by apply Hr. }
    eexists. split; [reflexivity |]. split_and!.
    + unfold Qle, Qdiv, Qmult, Qinv, inject_Z. cbn. lia.
    + unfold Qle, Qdiv, Qmult, Qinv, inject_Z. cbn. lia.
    + rewrite amplitude_gate. split.
      * intros Hloud. apply in_map_iff in Hin as (y & Hy & Hiny).
        exists y. split; [exact Hiny |]. apply abs_int16_loud; [| lia].
        rewrite List.Forall_forall in Hr. by apply Hr.
      * intros (s & Hs & Hloud).
        assert (Hs' : 3277 <= abs_int16 s).
        { apply abs_int16_loud; [| exact Hloud].
          rewrite List.Forall_forall in Hr. by apply Hr. }
        specialize (Hmax (abs_int16 s) ltac:(by apply in_map)). lia.
Qed.

(** *** The window as the recorder sees it *)

Lemma observe_amplitude (is_speech : bytes -> option bool)
    (samplerate channels : Z) (raw_audio : bytes) (now : Q) (o : Observation) :
  observe is_speech samplerate channels raw_audio now = Some o ->
  vad_result o
  = fst (fst (check_vad_activity is_speech samplerate channels raw_audio))
  /\ exists x a,
       samples raw_audio = x :: a
       /\ Forall (fun s => -32768 <= s <= 32767) (x :: a)
       /\ amplitude o
          = (inject_Z (fold_left Z.max (map abs_int16 a) (abs_int16 x))
             / 32768)%Q.
Proof.
  unfold observe, calculate_audio_amplitude, samples.
  destruct (check_vad_activity is_speech samplerate channels raw_audio)
    as [[v n] t].
  destruct (frombuffer_int16 raw_audio) as [[|x a]|] eqn:Hbuf;
    cbn [map np_max]; try discriminate.
  intros [= <-]. cbn [vad_result amplitude fst]. split; [reflexivity |].
  exists x, a. split_and!; try reflexivity.
  assert (Heven : exists k, length raw_audio = (2 * k)%nat).
  { destruct (Nat.Even_or_Odd (length raw_audio)) as [[k Hk]|[k Hk]];
      [by exists k |].
    rewrite (frombuffer_int16_odd k) in Hbuf; [discriminate | lia]. }
  destruct Heven as [k Hk].
  destruct (frombuffer_int16_even k raw_audio Hk) as (a' & Ha' & _ & Hr).
  rewrite Hbuf in Ha'. by injection Ha' as <-.
Qed.

(** X29. Which windows are speech candidates. For the observation that
    [process_audio_buffer] makes of its buffer, the window is a speech
    candidate exactly when [check_vad_activity] says speech and some sample
    of the buffer (of either channel) has a magnitude of at least 3277 and
    is not -32768. So on a buffer in which every sample is quieter than
    that, whatever the detector says, [process_audio_buffer] with the gate
    open resets the confirmation counter and, when no utterance is being
    recorded, starts none and queues nothing. *)
Theorem quiet_window_is_no_speech_candidate (is_speech : bytes -> option bool)
    (now : Q) (r : AudioRecorder) (o : Observation) :
  observe is_speech (samplerate (config r)) (channels (config r))
    (concat (audio_buffer r)) now = Some o ->
  (is_speech_candidate o = true
   <-> fst (fst (check_vad_activity is_speech (samplerate (config r))
                   (channels (config r)) (concat (audio_buffer r)))) = true
       /\ exists s : Z,
            In s (samples (concat (audio_buffer r)))
            /\ 3277 <= Z.abs s /\ s <> -32768)
  /\ ((forall s : Z,
         In s (samples (concat (audio_buffer r))) ->
         Z.abs s < 3277 \/ s = -32768) ->
      is_paused r = false ->
      is_speech_candidate o = false
      /\ consecutive_speech_count (process_audio_buffer o r) = 0
      /\ (is_recording_speech r = false ->
          is_recording_speech (process_audio_buffer o r) = false
          /\ speech_segments (process_audio_buffer o r) = speech_segments r
          /\ asr_queue (process_audio_buffer o r) = asr_queue r
          /\ is_paused (process_audio_buffer o r) = false)).
Proof.
  intros Hobs.
  destruct (observe_amplitude _ _ _ _ _ _ Hobs) as (Hv & x & a & Hs & Hr & Ha).
  destruct (fold_max_spec (map abs_int16 a) (abs_int16 x)) as [Hin Hmax].
  change (abs_int16 x :: map abs_int16 a) with (map abs_int16 (x :: a)) in *.
  assert (Hcand : is_speech_candidate o = true
                  <-> vad_result o = true
                      /\ exists s : Z,
                           In s (x :: a) /\ 3277 <= Z.abs s /\ s <> -32768).
  { unfold is_speech_candidate. rewrite andb_true_iff, Ha, amplitude_gate.
    split; intros [Hvad Hloud]; (split; [exact Hvad |]).
    - apply in_map_iff in Hin as (y & Hy & Hiny).
      exists y. split; [exact Hiny |]. apply abs_int16_loud; [| lia].
      rewrite List.Forall_forall in Hr. by apply Hr.
    - destruct Hloud as (s & Hins & Hloud).
      assert (Hs' : 3277 <= abs_int16 s).
      { apply abs_int16_loud; [| exact Hloud].
        rewrite List.Forall_forall in Hr. by apply Hr. }
      specialize (Hmax (abs_int16 s) ltac:(by apply in_map)). lia. }
  rewrite Hs, <- Hv. split; [exact Hcand |].
  intros Hquiet Hp.
  assert (Hno : is_speech_candidate o = false).
  { destruct (is_speech_candidate o); [| reflexivity].
    destruct Hcand as [Hc _]. destruct (Hc eq_refl) as (_ & s & Hins & Hl & Hne).
    destruct (Hquiet s Hins); [lia | contradiction]. }
  split; [exact Hno |].
  unfold process_audio_buffer. rewrite Hp. unfold classify_window.
  rewrite Hno.
  cbn [is_recording_speech set_consecutive_speech_count show_standby_status].
  split.
  - rewrite count_after_check.
    destruct (is_recording_speech r) eqn:Hrec;
      destruct (show_standby_status r); cbn [negb andb];
      repeat (progress (cbn; rewrite ?Hrec)); reflexivity.
  - intros Hrec. rewrite Hrec. cbn [negb andb].
    rewrite end_of_utterance_check_idle.
    + destruct (show_standby_status r);
        repeat (progress (cbn; rewrite ?Hrec, ?Hp)); by split_and!.
    + unfold silence_elapsed.
      destruct (show_standby_status r);
        repeat (progress (cbn; rewrite ?Hrec)); reflexivity.
Qed.

(** ** The history sent to the model *)

Lemma filter_all {A} (P : A -> bool) (l : list A) :
  Forall (fun x => P x = true) l -> List.filter P l = l.
Proof.
  induction 1 as [|x l Hx _ IH]; [reflexivity |].
  cbn [List.filter]. by rewrite Hx, IH.
Qed.

Lemma filter_none {A} (P : A -> bool) (l : list A) :
  Forall (fun x => P x = false) l -> List.filter P l = [].
Proof.
  induction 1 as [|x l Hx _ IH]; [reflexivity |].
  cbn [List.filter]. by rewrite Hx, IH.
Qed.

Lemma Forall_filter_true {A} (P : A -> bool) (l : list A) :
  Forall (fun x => P x = true) (List.filter P l).
Proof.
  apply List.Forall_forall. intros x Hx. by apply filter_In in Hx as [_ Hx].
Qed.

Lemma py_last_suffix {A} (n : Z) (l : list A) :
  exists dropped, l = dropped ++ py_last n l.
Proof.
  unfold py_last. destruct (0 <? n);
    eexists; symmetry; apply firstn_skipn.
Qed.

Lemma py_last_length {A} (n : Z) (l : list A) :
  1 <= n -> len (py_last n l) = Z.min n (len l).
Proof.
  intros Hn. unfold py_last, len.
  destruct (Z.ltb_spec 0 n); [| lia]. rewrite length_skipn. unfold len. lia.
Qed.

Lemma manage_parts (max_history_length : Z) (messages : list ChatMessage) :
  exists kept,
    _manage_conversation_history max_history_length messages
    = List.filter is_system messages ++ kept
    /\ (exists dropped,
          List.filter (fun msg => negb (is_system msg)) messages
          = dropped ++ kept)
    /\ kept
       = (if max_history_length
             <? len (List.filter (fun msg => negb (is_system msg)) messages)
          then py_last max_history_length
                 (List.filter (fun msg => negb (is_system msg)) messages)
          else List.filter (fun msg => negb (is_system msg)) messages).
Proof.
  unfold _manage_conversation_history. cbn zeta.
  eexists. split; [reflexivity |]. split; [| reflexivity].
  destruct (_ <? _); [apply py_last_suffix | by exists []].
Qed.

(** X17. [_manage_conversation_history] puts the system messages first, all
    of them and in their order, and after them a suffix of the other
    messages in their order. With [max_history_length >= 1] the suffix
    holds the last [max_history_length] of them (all, if there are fewer);
    with [max_history_length = 0] nothing is dropped at all, because
    [l[-0:]] is the whole list; with a negative value the first
    [-max_history_length] are dropped whatever the length. For a limit that
    is not negative the function is idempotent. *)
Theorem history_keeps_the_latest_messages (max_history_length : Z)
    (messages : list ChatMessage) :
  let system_messages := List.filter is_system messages in
  let conversation_messages :=
    List.filter (fun msg => negb (is_system msg)) messages in
  let managed := _manage_conversation_history max_history_length messages in
  (exists dropped kept,
     conversation_messages = dropped ++ kept
     /\ managed = system_messages ++ kept
     /\ (1 <= max_history_length ->
         len kept = Z.min max_history_length (len conversation_messages))
     /\ (max_history_length = 0 -> dropped = []))
  /\ (max_history_length < 0 ->
      managed
      = system_messages
        ++ skipn (Z.to_nat (- max_history_length)) conversation_messages)
  /\ (0 <= max_history_length ->
      _manage_conversation_history max_history_length managed = managed).
Proof.
  cbn zeta.
  set (sys := List.filter is_system messages).
  set (conv := List.filter (fun msg => negb (is_system msg)) messages).
  assert (Hsys : Forall (fun x => is_system x = true) sys)
    by apply Forall_filter_true.
  assert (Hconv : Forall (fun x => is_system x = false) conv).
  { apply List.Forall_forall. intros x Hx. apply filter_In in Hx as [_ Hx].
    by apply negb_true_iff. }
  split_and!.
  - unfold _manage_conversation_history. cbn zeta. fold sys conv.
    destruct (Z.ltb_spec max_history_length (len conv)) as [Hlt|Hge].
    + exists (firstn (length conv - length (py_last max_history_length conv))
                conv), (py_last max_history_length conv).
      assert (Hsplit : conv
                       = firstn (length conv
                                 - length (py_last max_history_length conv))
                           conv
                         ++ py_last max_history_length conv).
      { destruct (py_last_suffix max_history_length conv) as [dropped Hd].
        rewrite Hd at 2. rewrite length_app, Nat.add_sub.
        rewrite Hd at 2. rewrite firstn_app, Nat.sub_diag, firstn_all.
        cbn [firstn]. rewrite app_nil_r. exact Hd. }
      split_and!; [exact Hsplit | reflexivity | by apply py_last_length |].
      intros ->. unfold py_last. cbn [Z.ltb Z.compare Z.opp Z.to_nat skipn].
      by rewrite Nat.sub_diag.
    + exists [], conv. split_and!; try reflexivity.
      intros Hn. lia.
  - intros Hneg. unfold _manage_conversation_history. cbn zeta. fold sys conv.
    destruct (Z.ltb_spec max_history_length (len conv)) as [_|Hge];
      [| unfold len in Hge; lia].
    unfold py_last. destruct (Z.ltb_spec 0 max_history_length); [lia |].
    reflexivity.
  - intros Hn.
    destruct (manage_parts max_history_length messages)
      as (kept & Hm & [dropped Hd] & Hkept).
    fold sys in Hm. fold conv in Hd, Hkept. rewrite Hm.
    assert (Hk : Forall (fun x => is_system x = false) kept).
    { rewrite Hd in Hconv. by apply Forall_app in Hconv as [_ Hk]. }
    assert (Hk' : Forall (fun x => negb (is_system x) = true) kept).
    { eapply List.Forall_impl; [| exact Hk]. intros x Hx. cbn beta.
      by rewrite Hx. }
    assert (Hsys' : Forall (fun x => negb (is_system x) = false) sys).
    { eapply List.Forall_impl; [| exact Hsys]. intros x Hx. cbn beta.
      by rewrite Hx. }
    unfold _manage_conversation_history. cbn zeta.
    rewrite !List.filter_app.
    rewrite (filter_all is_system sys Hsys), (filter_none is_system kept Hk).
    rewrite (filter_none _ sys Hsys'), (filter_all _ kept Hk').
    rewrite app_nil_r. cbn [app].
    assert (Hlen : len kept <= max_history_length \/ max_history_length = 0).
    { rewrite Hkept.
      destruct (Z.ltb_spec max_history_length (len conv)) as [Hlt|Hge];
        [| by left].
      destruct (Z.eq_dec max_history_length 0) as [Hz|Hnz]; [by right |].
      left. rewrite py_last_length by lia. lia. }
    destruct (Z.ltb_spec max_history_length (len kept)) as [Hlt|Hge];
      [| reflexivity].
    destruct Hlen as [Hle| ->]; [lia |]. reflexivity.
Qed.

Lemma list_last_app {A} (l1 l2 : list A) (d : A) :
  l2 <> [] -> List.last (l1 ++ l2) d = List.last l2 d.
Proof.
  intros Hne. destruct (exists_last Hne) as (l' & a & ->).
  by rewrite app_assoc, !last_last.
Qed.

(** X18. What [chatbot_node] sends to the model. The prompt always begins
    with a system message. If the limit is not negative and the state ends
    with a message that is not a system message (the user's new message),
    the prompt ends with that message: the newest message is never cut off.
    With a limit of at least one, the prompt holds at most
    [max_history_length] messages that are not system messages. *)
Theorem prompt_starts_with_system_and_ends_with_the_user
    (system_prompt conversation_summary : string) (max_history_length : Z)
    (messages : list ChatMessage) :
  let prompt := chatbot_prompt system_prompt conversation_summary
                  max_history_length messages in
  (exists first rest, prompt = first :: rest /\ is_system first = true)
  /\ (0 <= max_history_length ->
      forall (earlier : list ChatMessage) (newest d : ChatMessage),
        messages = earlier ++ [newest] ->
        is_system newest = false ->
        List.last prompt d = newest)
  /\ (1 <= max_history_length ->
      len (List.filter (fun msg => negb (is_system msg)) prompt)
      <= max_history_length).
Proof.
  cbn zeta. unfold chatbot_prompt. cbn zeta.
  destruct (manage_parts max_history_length messages)
    as (kept & Hm & [dropped Hd] & Hkept).
  set (sys := List.filter is_system messages) in *.
  set (conv := List.filter (fun msg => negb (is_system msg)) messages) in *.
  set (managed := _manage_conversation_history max_history_length messages)
    in *.
  set (head := mkChatMessage SystemMessage _).
  assert (Hconv : Forall (fun x => is_system x = false) conv).
  { apply List.Forall_forall. intros x Hx. apply filter_In in Hx as [_ Hx].
    by apply negb_true_iff. }
  assert (Hk : Forall (fun x => negb (is_system x) = true) kept).
  { rewrite Hd in Hconv. apply Forall_app in Hconv as [_ Hk].
    eapply List.Forall_impl; [| exact Hk]. intros x Hx. cbn beta.
    by rewrite Hx. }
  assert (Hsys : Forall (fun x => negb (is_system x) = false) sys).
  { eapply List.Forall_impl; [| apply (Forall_filter_true is_system)].
    intros x Hx. cbn beta. by rewrite Hx. }
  assert (Hcount : List.filter (fun msg => negb (is_system msg)) managed = kept).
  { rewrite Hm, List.filter_app, (filter_none _ sys Hsys), (filter_all _ kept Hk).
    reflexivity. }
  split_and!.
  - destruct managed as [|m rest] eqn:Hmanaged; cbn [is_nil orb negb].
    + by exists head, [].
    + destruct (is_system m) eqn:Hsm; cbn [negb].
      * by exists m, rest.
      * by exists head, (m :: rest).
  - intros Hn earlier newest d Hmsg Hnew.
    assert (Hlast : List.last kept d = newest /\ kept <> []).
    { assert (Hc : conv = List.filter (fun msg => negb (is_system msg)) earlier
                          ++ [newest]).
      { subst conv. rewrite Hmsg, List.filter_app. cbn [List.filter].
        by rewrite Hnew. }
      rewrite Hkept.
      destruct (Z.ltb_spec max_history_length (len conv)) as [Hlt|Hge].
      - destruct (Z.eq_dec max_history_length 0) as [Hz|Hnz].
        + rewrite Hz. unfold py_last. cbn [Z.ltb Z.compare Z.opp Z.to_nat skipn].
          rewrite Hc. split; [apply last_last | by destruct (List.filter _ earlier)].
        + pose proof (py_last_length max_history_length conv ltac:(lia)) as Hl.
          destruct (py_last_suffix max_history_length conv) as [dr Hdr].
          destruct (py_last max_history_length conv) as [|k ks] eqn:Hpl.
          { unfold len in Hl, Hlt. cbn [length] in Hl. lia. }
          split; [| discriminate].
          rewrite Hc in Hdr.
          assert (Hks : exists ks', k :: ks = ks' ++ [newest]).
          { destruct (exists_last (l := k :: ks)) as (ks' & z & Hz);
              [discriminate |].
            rewrite Hz, app_assoc in Hdr.
            apply app_inj_tail in Hdr as [_ <-]. by exists ks'. }
          destruct Hks as [ks' ->]. apply last_last.
      - rewrite Hc. split; [apply last_last | by destruct (List.filter _ earlier)]. }
    destruct Hlast as [Hlast Hne].
    assert (Hml : List.last managed d = newest /\ managed <> []).
    { rewrite Hm. split.
      - rewrite list_last_app by exact Hne. exact Hlast.
      - intros Happ. apply app_eq_nil in Happ as [_ Hk']. contradiction. }
    destruct Hml as [Hml Hmne].
    destruct managed as [|m rest] eqn:Hmanaged; [contradiction |].
    cbn [is_nil orb].
    destruct (is_system m); cbn [negb]; [exact Hml |].
    change (head :: m :: rest) with ([head] ++ m :: rest).
    rewrite list_last_app by discriminate. exact Hml.
  - intros Hn.
    assert (Hlen : len kept <= max_history_length).
    { rewrite Hkept.
      destruct (Z.ltb_spec max_history_length (len conv)) as [Hlt|Hge];
        [| exact Hge].
      rewrite py_last_length by lia. lia. }
    destruct (is_nil managed || negb _).
    + cbn [List.filter is_system kind head negb]. by rewrite Hcount.
    + by rewrite Hcount.
Qed.

(** ** Conversation records *)

Section SortedByTimeFacts.
Context {A : Type} (key : A -> Q).

Lemma insert_by_time_perm (x : A) (l : list A) :
  Permutation (insert_by_time key x l) (x :: l).
Proof.
  induction l as [|y l IH]; simpl; [reflexivity |].
  destruct (Qle_bool (key x) (key y)); [reflexivity |].
  rewrite IH. apply perm_swap.
Qed.

Lemma sorted_by_time_perm (l : list A) : Permutation (sorted_by_time key l) l.
Proof.
  induction l as [|x l IH]; simpl; [reflexivity |].
  rewrite insert_by_time_perm. by constructor.
Qed.

Lemma insert_by_time_app_last (y x : A) (l : list A) :
  (key y <= key x)%Q ->
  insert_by_time key y (l ++ [x]) = insert_by_time key y l ++ [x].
Proof.
  intros Hle. apply Qle_bool_iff in Hle.
  induction l as [|a l IH]; simpl; [by rewrite Hle |].
  destruct (Qle_bool (key y) (key a)); [reflexivity | by rewrite IH].
Qed.

Lemma sorted_by_time_app_last (l : list A) (x : A) :
  (forall y, In y l -> (key y <= key x)%Q) ->
  sorted_by_time key (l ++ [x]) = sorted_by_time key l ++ [x].
Proof.
  induction l as [|a l IH]; intros Hle; [reflexivity |].
  cbn [app sorted_by_time fold_right]. fold (sorted_by_time key (l ++ [x])).
  fold (sorted_by_time key l).
  rewrite IH by (intros y Hy; apply Hle; by right).
  apply insert_by_time_app_last. apply Hle. by left.
Qed.

End SortedByTimeFacts.

Lemma dict_get_In {V} (k : string) (v : V) (d : list (string * V)) :
  dict_get k d = Some v -> In (k, v) d.
Proof.
  induction d as [|[k' v'] d IH]; simpl; [discriminate |].
  destruct (String.eqb_spec k k') as [->|Hne].
  - intros [= ->]. by left.
  - intros Hg. right. by apply IH.
Qed.

Lemma dict_get_None {V} (k : string) (d : list (string * V)) :
  dict_get k d = None <-> ~ In k (dict_keys d).
Proof.
  induction d as [|[k' v'] d IH]; simpl; [tauto |].
  destruct (String.eqb_spec k k') as [->|Hne].
  - split; [discriminate | intros Hni; exfalso; apply Hni; by left].
  - rewrite IH. split; [intros Hni [Heq|Hin]; [congruence | tauto] | tauto].
Qed.

Lemma In_dict_get {V} (k : string) (v : V) (d : list (string * V)) :
  List.NoDup (dict_keys d) -> In (k, v) d -> dict_get k d = Some v.
Proof.
  intros Hnd Hin. destruct (dict_get k d) as [v'|] eqn:Hg.
  - apply dict_get_In in Hg. by rewrite (NoDup_keys_unique d k v v' Hnd Hin Hg).
  - exfalso. apply dict_get_None in Hg. apply Hg. unfold dict_keys.
    apply in_map_iff. by exists (k, v).
Qed.

Lemma dict_get_set_same {V} (k : string) (v : V) (d : list (string * V)) :
  dict_get k (dict_set k v d) = Some v.
Proof.
  induction d as [|[k' v'] d IH]; simpl; [by rewrite String.eqb_refl |].
  destruct (String.eqb_spec k k') as [->|Hne]; simpl.
  - by rewrite String.eqb_refl.
  - destruct (String.eqb_spec k k'); [congruence | exact IH].
Qed.

Lemma dict_get_set_other {V} (k k0 : string) (v : V) (d : list (string * V)) :
  k0 <> k -> dict_get k0 (dict_set k v d) = dict_get k0 d.
Proof.
  intros Hne. induction d as [|[k' v'] d IH]; simpl.
  - destruct (String.eqb_spec k0 k); [congruence | reflexivity].
  - destruct (String.eqb_spec k k') as [->|Hne']; simpl.
    + destruct (String.eqb_spec k0 k'); [congruence | reflexivity].
    + destruct (String.eqb_spec k0 k'); [reflexivity | exact IH].
Qed.

Section ConversationFacts.
Import ConversationManager.

Lemma remove_oldest_spec (n : nat)
    (items : list (string * ConversationRecord)) (m : t) :
  (n <= length items)%nat ->
  remove_oldest n items m
  = Returns (mk (max_conversations m)
               (remove_keys (map fst (firstn n items)) (conversation_index m))
               (conversation_counter m)).
Proof.
  revert items m. induction n as [|n IH]; intros items m Hn.
  - by destruct m.
  - destruct items as [|[k info] items]; [simpl in Hn; lia |].
    cbn [remove_oldest]. rewrite IH by (simpl in Hn; lia). reflexivity.
Qed.

Lemma remove_oldest_overrun (n : nat)
    (items : list (string * ConversationRecord)) (m : t) :
  (length items < n)%nat ->
  exists m',
    remove_oldest n items m
    = Raises (mkExc IndexError "list index out of range") m'
    /\ conversation_counter m' = conversation_counter m.
Proof.
  revert items m. induction n as [|n IH]; intros items m Hn; [lia |].
  destruct items as [|[k info] items]; cbn [remove_oldest].
  - by eexists.
  - destruct (IH items (mk (max_conversations m)
                          (dict_del k (conversation_index m))
                          (conversation_counter m))) as (m' & -> & Hc);
      [simpl in Hn; lia |].
    by exists m'.
Qed.

Lemma cleanup_old_spec (m : t) :
  0 <= max_conversations m ->
  List.NoDup (dict_keys (conversation_index m)) ->
  exists index',
    _cleanup_old_conversations m
    = Returns (mk (max_conversations m) index' (conversation_counter m))
    /\ len index' <= max_conversations m
    /\ List.NoDup (dict_keys index')
    /\ (forall x, In x index' -> In x (conversation_index m))
    /\ index'
       = remove_keys
           (map fst
              (firstn (Z.to_nat (len (conversation_index m)
                                 - max_conversations m))
                 (sorted_by_time (fun x => created (snd x))
                    (conversation_index m))))
           (conversation_index m).
Proof.
  intros Hmax Hnd. unfold _cleanup_old_conversations.
  set (d := conversation_index m).
  set (s := sorted_by_time (fun x => created (snd x)) d).
  set (n := Z.to_nat (len d - max_conversations m)).
  assert (Hperm : Permutation s d) by apply sorted_by_time_perm.
  assert (Hlen : length s = length d) by (by apply Permutation_length).
  destruct (Z.leb_spec (len d) (max_conversations m)) as [Hle|Hgt].
  - exists d. assert (Hn : n = 0%nat) by (subst n; lia). rewrite Hn.
    cbn [firstn map remove_keys fold_left].
    split_and!; try done. by destruct m.
  - assert (Hn : (n <= length s)%nat) by (unfold len in *; lia).
    rewrite remove_oldest_spec by exact Hn. fold d.
    set (ks := map fst (firstn n s)).
    assert (Hsplit : s = firstn n s ++ skipn n s) by (by rewrite firstn_skipn).
    assert (Hnds : List.NoDup (map fst s)).
    { eapply Permutation_NoDup; [| exact Hnd].
      symmetry. by apply Permutation_map. }
    assert (Hndks : List.NoDup ks).
    { rewrite Hsplit, map_app in Hnds. by apply List.NoDup_app_remove_r in Hnds. }
    assert (Hincl : incl ks (dict_keys d)).
    { intros k Hk. unfold ks in Hk. apply in_map_iff in Hk as (x & <- & Hx).
      unfold dict_keys. apply in_map. eapply Permutation_in; [exact Hperm |].
      rewrite Hsplit. apply in_or_app. by left. }
    exists (remove_keys ks d). split_and!; try reflexivity.
    + pose proof (remove_keys_length ks d Hnd Hndks Hincl) as Hl.
      assert (length ks = n) by (unfold ks; rewrite length_map, length_firstn; lia).
      unfold len in *. lia.
    + by apply remove_keys_NoDup.
    + intros x Hx. apply remove_keys_In in Hx; [tauto | assumption].
Qed.

(** X19. [create_conversation_record] and the limit. With distinct keys
    and a limit that is not negative, the call returns the id
    [conv_<counter>], increments the counter, and leaves at most
    [max_conversations] records, however many the loaded index had; every
    record left is the new one or one that was there. With a negative limit
    the call ends in an [IndexError], after the index has been emptied, and
    the counter is not incremented. *)
Theorem create_conversation_record_keeps_the_limit
    (user_text0 ai_response0 : string)
    (recording_file0 tts_file0 : option string) (timestamp : Q)
    (formatted : string) (m : t) :
  List.NoDup (dict_keys (conversation_index m)) ->
  let conv_id := conversation_id_of (conversation_counter m) in
  let conversation_record :=
    mkConversationRecord conv_id timestamp formatted user_text0 ai_response0
      recording_file0 tts_file0 false in
  let result := create_conversation_record user_text0 ai_response0
                  recording_file0 tts_file0 timestamp formatted m in
  (0 <= max_conversations m ->
   exists index',
     result = (Returns (mk (max_conversations m) index'
                          (conversation_counter m + 1)),
               Some conv_id)
     /\ len index' <= max_conversations m
     /\ List.NoDup (dict_keys index')
     /\ forall x, In x index' ->
                  In x (conversation_index m) \/ x = (conv_id, conversation_record))
  /\ (max_conversations m < 0 ->
      exists m',
        result = (Raises (mkExc IndexError "list index out of range") m', None)
        /\ conversation_counter m' = conversation_counter m).
Proof.
  intros Hnd. cbn zeta. unfold create_conversation_record.
  set (conv_id := conversation_id_of (conversation_counter m)).
  set (rec := mkConversationRecord conv_id timestamp formatted user_text0
                ai_response0 recording_file0 tts_file0 false).
  set (m1 := mk (max_conversations m)
               (dict_set conv_id rec (conversation_index m))
               (conversation_counter m)).
  split.
  - intros Hmax.
    destruct (cleanup_old_spec m1) as (index' & -> & Hlen & Hnd' & Hsub & _);
      [exact Hmax | subst m1; cbn; by apply dict_set_NoDup |].
    exists index'. split_and!; try done.
    intros x Hx. apply Hsub in Hx. subst m1. cbn in Hx.
    by apply dict_set_In_new in Hx.
  - intros Hneg. unfold _cleanup_old_conversations.
    destruct (Z.leb_spec (len (conversation_index m1)) (max_conversations m1))
      as [Hle|Hgt]; [subst m1; cbn in Hle; unfold len in Hle; lia |].
    destruct (remove_oldest_overrun
                (Z.to_nat (len (conversation_index m1) - max_conversations m1))
                (sorted_by_time (fun x => created (snd x))
                   (conversation_index m1)) m1) as (m' & -> & Hc).
    { rewrite (Permutation_length (sorted_by_time_perm _ _)).
      subst m1. cbn in *. unfold len. lia. }
    by exists m'.
Qed.

Lemma remove_keys_keeps_get {V} (ks : list string) (k : string)
    (d : list (string * V)) :
  List.NoDup (dict_keys d) -> ~ In k ks ->
  dict_get k (remove_keys ks d) = dict_get k d.
Proof.
  intros Hnd Hni. destruct (dict_get k d) as [v|] eqn:Hg.
  - apply In_dict_get; [by apply remove_keys_NoDup |].
    apply remove_keys_In; [exact Hnd |]. split; [by apply dict_get_In | exact Hni].
  - apply dict_get_None. apply dict_get_None in Hg. intros Hin. apply Hg.
    unfold dict_keys in *. apply in_map_iff in Hin as (x & <- & Hx).
    apply in_map. apply remove_keys_In in Hx; [tauto | exact Hnd].
Qed.

(** X20. Create, then get and update. Let the limit be at least one, the
    keys distinct, the new id not a key yet and no record newer than the
    clock. Then the record just created can be got under the returned id,
    as it was written; after [update_conversation_tts_silent] on that id
    the record got has the TTS file and is complete, and nothing else in it
    has changed; the update changes no other record; and an update on an id
    that is not there changes nothing. *)
Theorem created_record_can_be_got_and_updated
    (user_text0 ai_response0 : string) (recording_file0 : option string)
    (timestamp : Q) (formatted : string) (m : t) :
  1 <= max_conversations m ->
  List.NoDup (dict_keys (conversation_index m)) ->
  ~ In (conversation_id_of (conversation_counter m))
      (dict_keys (conversation_index m)) ->
  (forall k v, In (k, v) (conversation_index m) -> (created v <= timestamp)%Q) ->
  let conv_id := conversation_id_of (conversation_counter m) in
  let m' := state (fst (create_conversation_record user_text0 ai_response0
                          recording_file0 None timestamp formatted m)) in
  snd (create_conversation_record user_text0 ai_response0 recording_file0 None
         timestamp formatted m) = Some conv_id
  /\ get_conversation_record conv_id m'
     = Some (mkConversationRecord conv_id timestamp formatted user_text0
               ai_response0 recording_file0 None false)
  /\ (forall tts_file0 : string,
        get_conversation_record conv_id
          (update_conversation_tts_silent conv_id tts_file0 m')
        = Some (mkConversationRecord conv_id timestamp formatted user_text0
                  ai_response0 recording_file0 (Some tts_file0) true)
        /\ forall other : string,
             other <> conv_id ->
             get_conversation_record other
               (update_conversation_tts_silent conv_id tts_file0 m')
             = get_conversation_record other m')
  /\ (forall missing tts_file0 : string,
        get_conversation_record missing m' = None ->
        update_conversation_tts_silent missing tts_file0 m' = m').
Proof.
  intros Hmax Hnd Hfresh Hnew. cbn zeta.
  set (conv_id := conversation_id_of (conversation_counter m)) in *.
  set (rec := mkConversationRecord conv_id timestamp formatted user_text0
                ai_response0 recording_file0 None false).
  unfold create_conversation_record. fold conv_id rec.
  set (m1 := mk (max_conversations m)
               (dict_set conv_id rec (conversation_index m))
               (conversation_counter m)).
  destruct (cleanup_old_spec m1) as (index' & -> & Hlen & Hnd' & Hsub & Hidx);
    [subst m1; cbn; lia | subst m1; cbn; by apply dict_set_NoDup |].
  cbn [fst snd state conversation_index max_conversations conversation_counter].
  assert (Hget : dict_get conv_id index' = Some rec).
  { rewrite Hidx. subst m1.
    cbn [conversation_index max_conversations].
    rewrite dict_set_new by exact Hfresh.
    rewrite sorted_by_time_app_last
      by (intros [k v] Hy; cbn [snd created rec]; by apply (Hnew k v)).
    set (d := conversation_index m) in *.
    set (n := Z.to_nat (len (d ++ [(conv_id, rec)]) - max_conversations m)).
    pose proof (sorted_by_time_perm (fun x => created (snd x)) d) as Hperm.
    assert (Hn : (n <= length (sorted_by_time (fun x => created (snd x)) d))%nat).
    { rewrite (Permutation_length Hperm). subst n. unfold len.
      rewrite length_app. cbn [length]. lia. }
    rewrite firstn_app.
    replace (n - length (sorted_by_time (fun x => created (snd x)) d))%nat
      with 0%nat by lia.
    cbn [firstn]. rewrite app_nil_r.
    rewrite remove_keys_keeps_get.
    - rewrite <- (dict_set_new conv_id rec d Hfresh). apply dict_get_set_same.
    - rewrite <- (dict_set_new conv_id rec d Hfresh). by apply dict_set_NoDup.
    - intros Hin. apply Hfresh. apply in_map_iff in Hin as (x & <- & Hx).
      unfold dict_keys. apply in_map.
      eapply Permutation_in; [exact Hperm |].
      rewrite <- (firstn_skipn n (sorted_by_time _ d)).
      apply in_or_app. by left. }
  unfold get_conversation_record, update_conversation_tts_silent.
  cbn [conversation_index]. split_and!.
  - reflexivity.
  - exact Hget.
  - intros tts_file0. rewrite Hget. cbn [conversation_index]. split.
    + by rewrite dict_get_set_same.
    + intros other Hne. by apply dict_get_set_other.
  - intros missing tts_file0 Hmiss. by rewrite Hmiss.
Qed.

(** *** Ids are not reused *)

Lemma pretty_N_char_plain (x : N) :
  Ascii.eqb (pretty_N_char x) "_" = false.
Proof. unfold pretty_N_char. by repeat case_match. Qed.

Lemma pretty_N_go_plain (x : N) (s : string) :
  until_underscore s = s ->
  until_underscore (pretty_N_go x s) = pretty_N_go x s.
Proof.
  revert s. induction (N.lt_wf_0 x) as [x _ IH]; intros s Hs.
  assert (x = 0 \/ 0 < x)%N as [->|Hx] by lia.
  - by rewrite pretty_N_go_0.
  - rewrite pretty_N_go_step by done. apply IH; [by apply N.div_lt |].
    cbn [until_underscore]. by rewrite pretty_N_char_plain, Hs.
Qed.

Lemma pretty_N_plain (x : N) : until_underscore (pretty x) = pretty x.
Proof.
  unfold pretty, pretty_N. case_decide; [reflexivity |].
  by apply pretty_N_go_plain.
Qed.

Lemma pretty_Z_plain (n : Z) : until_underscore (pretty n) = pretty n.
Proof.
  destruct n as [|p|p]; unfold pretty, pretty_Z.
  - reflexivity.
  - apply pretty_N_plain.
  - change ("-" +:+ pretty p) with (String "-" (pretty p)).
    cbn [until_underscore]. cbn [Ascii.eqb Bool.eqb].
    f_equal. apply pretty_N_plain.
Qed.

Lemma split_conversation_id (n : Z) :
  split_underscore_1 (conversation_id_of n) = Some (pretty n).
Proof.
  unfold conversation_id_of.
  change ("conv_" +:+ pretty n)
    with (String "c" (String "o" (String "n" (String "v"
            (String "_" (pretty n)))))).
  cbn [split_underscore_1 Ascii.eqb Bool.eqb]. by rewrite pretty_Z_plain.
Qed.

Lemma conversation_id_of_inj (a b : Z) :
  conversation_id_of a = conversation_id_of b -> a = b.
Proof.
  unfold conversation_id_of.
  change ("conv_" +:+ pretty a)
    with (String "c" (String "o" (String "n" (String "v"
            (String "_" (pretty a)))))).
  change ("conv_" +:+ pretty b)
    with (String "c" (String "o" (String "n" (String "v"
            (String "_" (pretty b)))))).
  intros [= Heq]. by apply (inj pretty).
Qed.

Section FreshIds.
Variable py_int : string -> option Z.

Lemma max_id_step_mono (acc : Z) (k : string) : acc <= max_id_step py_int acc k.
Proof.
  unfold max_id_step. destruct (split_underscore_1 k); [| lia].
  destruct (py_int _); lia.
Qed.

Lemma max_id_fold_bound (keys : list string) (acc : Z) :
  acc <= fold_left (max_id_step py_int) keys acc
  /\ forall n, In (conversation_id_of n) keys ->
               py_int (pretty n) = Some n ->
               n <= fold_left (max_id_step py_int) keys acc.
Proof.
  revert acc. induction keys as [|k keys IH]; intros acc; cbn [fold_left].
  - split; [lia | intros n []].
  - destruct (IH (max_id_step py_int acc k)) as [Hacc Hin].
    pose proof (max_id_step_mono acc k) as Hstep.
    split; [lia |]. intros n [->|Hn] Hint; [| by apply Hin].
    assert (Hs : max_id_step py_int acc (conversation_id_of n) = Z.max acc n)
      by (unfold max_id_step; by rewrite split_conversation_id, Hint).
    rewrite Hs in *. lia.
Qed.

Lemma init_ids_below_counter (max_conversations0 : Z)
    (index : list (string * ConversationRecord)) :
  (forall k, In k (dict_keys index) ->
             exists n, k = conversation_id_of n /\ py_int (pretty n) = Some n) ->
  ids_below_counter (init py_int max_conversations0 index).
Proof.
  intros Hwf k Hk. cbn in Hk. destruct (Hwf k Hk) as (n & -> & Hint).
  exists n. split; [reflexivity |].
  unfold init, _get_next_conversation_id. cbn [conversation_counter].
  destruct index as [|x index]; [destruct Hk |]. cbn [is_nil].
  destruct (max_id_fold_bound (dict_keys (x :: index)) 0) as [_ Hb].
  specialize (Hb n Hk Hint). lia.
Qed.

End FreshIds.

Lemma ids_below_counter_fresh (m : t) :
  ids_below_counter m ->
  ~ In (conversation_id_of (conversation_counter m))
      (dict_keys (conversation_index m)).
Proof.
  intros Hids Hin. destruct (Hids _ Hin) as (n & Heq & Hlt).
  apply conversation_id_of_inj in Heq. lia.
Qed.

Lemma create_keeps_ids_below_counter (m : t) (c : NewConversation) :
  0 <= max_conversations m ->
  List.NoDup (dict_keys (conversation_index m)) ->
  ids_below_counter m ->
  max_conversations (create m c) = max_conversations m
  /\ List.NoDup (dict_keys (conversation_index (create m c)))
  /\ ids_below_counter (create m c)
  /\ conversation_counter (create m c) = conversation_counter m + 1.
Proof.
  intros Hmax Hnd Hids. unfold create, create_conversation_record.
  match goal with
  | |- context [_cleanup_old_conversations ?x] => set (m1 := x)
  end.
  destruct (cleanup_old_spec m1) as (index' & -> & Hlen & Hnd' & Hsub & _);
    [exact Hmax | subst m1; cbn; by apply dict_set_NoDup |].
  cbn [fst state max_conversations conversation_index conversation_counter].
  split_and!; try done.
  intros k Hk. cbn [conversation_index conversation_counter] in *.
  unfold dict_keys in Hk. apply in_map_iff in Hk as ([k0 v] & <- & Hx).
  apply Hsub in Hx. subst m1. cbn [conversation_index] in Hx.
  apply dict_set_In_new in Hx as [Hold|Hnew].
  - destruct (Hids k0) as (n & -> & Hlt).
    { unfold dict_keys. apply in_map_iff. by exists (k0, v). }
    exists n. split; [reflexivity | cbn; lia].
  - injection Hnew as -> _. eexists. split; [reflexivity | cbn; lia].
Qed.

(** X21. Ids are never reused. Let the loaded index have distinct keys,
    all of the form [conv_<n>] with [int] reading [n] back, and let the
    limit not be negative. Then every key is below the counter that
    [__init__] computes, and after any number of calls of
    [create_conversation_record] the id of the next record is not a key of
    the index: no call overwrites a record, and the counter has grown by one
    per call. *)
Theorem conversation_ids_are_fresh (py_int : string -> option Z)
    (max_conversations0 : Z) (index : list (string * ConversationRecord))
    (cs : list NewConversation) :
  0 <= max_conversations0 ->
  List.NoDup (dict_keys index) ->
  (forall k, In k (dict_keys index) ->
             exists n, k = conversation_id_of n /\ py_int (pretty n) = Some n) ->
  let m := create_run (init py_int max_conversations0 index) cs in
  ~ In (conversation_id_of (conversation_counter m))
      (dict_keys (conversation_index m))
  /\ conversation_counter m
     = conversation_counter (init py_int max_conversations0 index) + len cs
  /\ (forall k, In k (dict_keys index) ->
                exists n, k = conversation_id_of n
                          /\ n < conversation_counter
                                   (init py_int max_conversations0 index)).
Proof.
  intros Hmax Hnd Hwf. cbn zeta.
  pose proof (init_ids_below_counter py_int max_conversations0 index Hwf)
    as Hids.
  assert (Hrun : forall cs m,
             max_conversations m = max_conversations0 ->
             List.NoDup (dict_keys (conversation_index m)) ->
             ids_below_counter m ->
             ids_below_counter (create_run m cs)
             /\ conversation_counter (create_run m cs)
                = conversation_counter m + len cs).
  { clear - Hmax. intros cs0.
    induction cs0 as [|c cs IH]; intros m Hm Hnd Hids.
    - cbn. split; [exact Hids | unfold len; cbn; lia].
    - change (create_run m (c :: cs)) with (create_run (create m c) cs).
      destruct (create_keeps_ids_below_counter m c) as (Hm' & Hnd' & Hids' & Hc');
        [lia | exact Hnd | exact Hids |].
      destruct (IH (create m c)) as [Hi Hc]; [congruence | exact Hnd' | exact Hids' |].
      split; [exact Hi |]. rewrite Hc, Hc'. unfold len. cbn [length]. lia. }
  destruct (Hrun cs (init py_int max_conversations0 index)) as [Hi Hc];
    [reflexivity | exact Hnd | exact Hids |].
  split_and!; [by apply ids_below_counter_fresh | exact Hc | exact Hids].
Qed.

End ConversationFacts.

(** *** Newest first *)

Section NewestFirstFacts.
Context {A : Type} (key : A -> Q).

Lemma insert_newest_first_perm (x : A) (l : list A) :
  Permutation (insert_newest_first key x l) (x :: l).
Proof.
  induction l as [|y l IH]; simpl; [reflexivity |].
  destruct (Qle_bool (key y) (key x)); [reflexivity |].
  rewrite IH. apply perm_swap.
Qed.

Lemma sorted_newest_first_perm (l : list A) :
  Permutation (sorted_newest_first key l) l.
Proof.
  induction l as [|x l IH]; simpl; [reflexivity |].
  rewrite insert_newest_first_perm. by constructor.
Qed.

Lemma insert_newest_first_sorted (x : A) (l : list A) :
  StronglySorted (fun a b => (key b <= key a)%Q) l ->
  StronglySorted (fun a b => (key b <= key a)%Q) (insert_newest_first key x l).
Proof.
  induction 1 as [|y l Hs IH Hy]; simpl; [repeat constructor |].
  destruct (Qle_bool (key y) (key x)) eqn:E.
  - apply Qle_bool_iff in E.
    constructor; [by constructor |]. constructor; [exact E |].
    eapply List.Forall_impl; [| exact Hy]. cbn beta. intros a Ha.
    by eapply Qle_trans.
  - constructor; [exact IH |].
    eapply Permutation_Forall; [symmetry; apply insert_newest_first_perm |].
    constructor; [| exact Hy].
    destruct (Qlt_le_dec (key x) (key y)) as [Hlt|Hle].
    + by apply Qlt_le_weak.
    + apply Qle_bool_iff in Hle. congruence.
Qed.

Lemma sorted_newest_first_sorted (l : list A) :
  StronglySorted (fun a b => (key b <= key a)%Q) (sorted_newest_first key l).
Proof.
  induction l as [|x l IH]; simpl; [constructor |].
  by apply insert_newest_first_sorted.
Qed.

Lemma newest_first_split (l1 l2 : list A) (a b : A) :
  StronglySorted (fun a b => (key b <= key a)%Q) (l1 ++ l2) ->
  In a l1 -> In b l2 -> (key b <= key a)%Q.
Proof.
  induction l1 as [|x l1 IH]; simpl; [tauto |].
  intros Hs [<-|Ha] Hb; inversion Hs as [|? ? Hs' Hx]; subst.
  - rewrite List.Forall_forall in Hx. apply Hx, in_or_app. by right.
  - by apply IH.
Qed.

Lemma sorted_prefix (n : nat) (l : list A) :
  StronglySorted (fun a b => (key b <= key a)%Q) l ->
  StronglySorted (fun a b => (key b <= key a)%Q) (firstn n l).
Proof.
  intros Hs. revert n. induction Hs as [|x l Hs IH Hx]; intros n.
  - destruct n; constructor.
  - destruct n as [|n]; [constructor |]. cbn [firstn].
    constructor; [apply IH |].
    rewrite List.Forall_forall in *. intros y Hy. apply Hx.
    rewrite <- (firstn_skipn n l). apply in_or_app. by left.
Qed.

End NewestFirstFacts.

Section RecentConversations.
Import ConversationManager.

(** X26. [get_recent_conversations(limit)] returns records of the index,
    newest first, and nothing that it leaves out is newer than anything it
    returns. With [limit >= 0] it returns [min(limit, n)] of the [n]
    records; with a negative [limit] it returns all but the [-limit] oldest,
    because [l[:limit]] then counts from the end. *)
Theorem recent_conversations_are_the_newest (limit : Z) (m : t) :
  let recent := get_recent_conversations limit m in
  StronglySorted (fun a b => (created b <= created a)%Q) recent
  /\ (exists older,
        Permutation (recent ++ older) (map snd (conversation_index m))
        /\ forall a b, In a recent -> In b older ->
                       (created b <= created a)%Q)
  /\ (0 <= limit -> len recent = Z.min limit (len (conversation_index m)))
  /\ (limit < 0 ->
      len recent = Z.max 0 (len (conversation_index m) + limit)).
Proof.
  cbn zeta. unfold get_recent_conversations. cbn zeta.
  set (sorted := sorted_newest_first created (map snd (conversation_index m))).
  assert (Hsorted : StronglySorted (fun a b => (created b <= created a)%Q)
                      sorted) by apply sorted_newest_first_sorted.
  assert (Hperm : Permutation sorted (map snd (conversation_index m)))
    by apply sorted_newest_first_perm.
  assert (Hlen : len sorted = len (conversation_index m)).
  { unfold len. rewrite (Permutation_length Hperm). by rewrite length_map. }
  assert (Hany : forall n : nat,
             StronglySorted (fun a b => (created b <= created a)%Q)
               (firstn n sorted)
             /\ exists older,
                  Permutation (firstn n sorted ++ older)
                    (map snd (conversation_index m))
                  /\ forall a b, In a (firstn n sorted) -> In b older ->
                                 (created b <= created a)%Q).
  { intros n. split; [by apply sorted_prefix |].
    exists (skipn n sorted). split; [by rewrite firstn_skipn |].
    intros a b Ha Hb.
    apply (newest_first_split created (firstn n sorted) (skipn n sorted));
      [by rewrite firstn_skipn | exact Ha | exact Hb]. }
  unfold py_prefix.
  destruct (Z.leb_spec 0 limit) as [Hpos|Hneg].
  - destruct (Hany (Z.to_nat limit)) as [Hs Ho].
    split_and!; [exact Hs | exact Ho | | lia].
    intros _. unfold len in *. rewrite length_firstn. lia.
  - destruct (Hany (Z.to_nat (len sorted + limit))) as [Hs Ho].
    split_and!; [exact Hs | exact Ho | lia |].
    intros _. unfold len in *. rewrite length_firstn. lia.
Qed.

End RecentConversations.

Section FindConversations.
Import ConversationManager.
Context `{External}.

(** X27. [find_conversations_by_text] returns, newest first, exactly the
    records whose user text or reply contains the search text once all are
    put in lower case: the result is a rearrangement of the matching
    records of the index. *)
Theorem found_conversations_are_the_matching_ones (search_text : string)
    (m : t) :
  let found := find_conversations_by_text search_text m in
  StronglySorted (fun a b => (created b <= created a)%Q) found
  /\ Permutation found
       (List.filter (mentions search_text) (map snd (conversation_index m)))
  /\ forall conv_info : ConversationRecord,
       In conv_info found
       <-> (exists conv_id, In (conv_id, conv_info) (conversation_index m))
           /\ (Substring (lower search_text) (lower (user_text conv_info))
               \/ Substring (lower search_text)
                    (lower (ai_response conv_info))).
Proof.
  cbn zeta. unfold find_conversations_by_text.
  set (matching := List.filter (mentions search_text)
                     (map snd (conversation_index m))).
  assert (Hperm : Permutation (sorted_newest_first created matching) matching)
    by apply sorted_newest_first_perm.
  split_and!; [apply sorted_newest_first_sorted | exact Hperm |].
  intros conv_info. split.
  - intros Hin. apply (Permutation_in _ Hperm) in Hin.
    apply filter_In in Hin as [Hin Hm].
    apply in_map_iff in Hin as ([k v] & <- & Hin). split; [by exists k |].
    unfold mentions in Hm. apply orb_true_iff in Hm as [Hm|Hm];
      [left | right]; by apply str_in_spec.
  - intros [[k Hin] Hm].
    apply (Permutation_in _ (Permutation_sym Hperm)).
    apply filter_In. split.
    + apply in_map_iff. by exists (k, conv_info).
    + unfold mentions. apply orb_true_iff.
      destruct Hm as [Hm|Hm]; [left | right]; by apply str_in_spec.
Qed.

End FindConversations.

(** ** The audio cache of the synthesiser *)

Lemma dict_get_del_same {V} (k : string) (d : list (string * V)) :
  List.NoDup (dict_keys d) -> dict_get k (dict_del k d) = None.
Proof. intros Hnd. apply dict_get_None. by apply dict_del_gone. Qed.

Lemma dict_get_del_other {V} (k k0 : string) (d : list (string * V)) :
  k0 <> k -> dict_get k0 (dict_del k d) = dict_get k0 d.
Proof.
  intros Hne. induction d as [|[k' v'] d IH]; simpl; [reflexivity |].
  destruct (String.eqb_spec k k') as [->|Hne']; simpl.
  - destruct (String.eqb_spec k0 k'); [congruence | reflexivity].
  - destruct (String.eqb_spec k0 k'); [reflexivity | exact IH].
Qed.

Lemma dict_get_keys {V} (k : string) (v : V) (d : list (string * V)) :
  dict_get k d = Some v -> In k (dict_keys d).
Proof.
  intros Hg. apply dict_get_In in Hg. unfold dict_keys. apply in_map_iff.
  by exists (k, v).
Qed.

Lemma dict_del_split {V} (k : string) (v : V) (d : list (string * V)) :
  List.NoDup (dict_keys d) -> In (k, v) d ->
  exists d1 d2, d = d1 ++ (k, v) :: d2 /\ dict_del k d = d1 ++ d2.
Proof.
  induction d as [|[k' v'] d IH]; simpl; [tauto |].
  intros Hnd Hin. apply List.NoDup_cons_iff in Hnd as [Hni Hnd].
  destruct (String.eqb_spec k k') as [->|Hne].
  - destruct Hin as [[= ->]|Hin].
    + by exists [], d.
    + exfalso. apply Hni. unfold dict_keys. apply in_map_iff. by exists (k', v).
  - destruct Hin as [[= -> ->]|Hin]; [congruence |].
    destruct (IH Hnd Hin) as (d1 & d2 & -> & Hdel).
    exists ((k', v') :: d1), d2. split; [reflexivity |]. simpl. by rewrite Hdel.
Qed.

Lemma dict_set_split {V} (k : string) (v v' : V) (d : list (string * V)) :
  List.NoDup (dict_keys d) -> In (k, v) d ->
  exists d1 d2, d = d1 ++ (k, v) :: d2 /\ dict_set k v' d = d1 ++ (k, v') :: d2.
Proof.
  induction d as [|[k0 v0] d IH]; simpl; [tauto |].
  intros Hnd Hin. apply List.NoDup_cons_iff in Hnd as [Hni Hnd].
  destruct (String.eqb_spec k k0) as [->|Hne].
  - destruct Hin as [[= ->]|Hin].
    + by exists [], d.
    + exfalso. apply Hni. unfold dict_keys. apply in_map_iff. by exists (k0, v).
  - destruct Hin as [[= -> ->]|Hin]; [congruence |].
    destruct (IH Hnd Hin) as (d1 & d2 & -> & Hset).
    exists ((k0, v0) :: d1), d2. split; [reflexivity |]. simpl. by rewrite Hset.
Qed.

Section TtsFacts.
Import TTSProcessor.
Context `{World}.

(** X22. The lookup is honest and mends the index. [_get_cached_audio]
    deletes no file and touches no row but that of the text. When it
    returns a path, the row of the text was in the index, its file is in
    the cache directory, the path is that of this file, and the row now
    carries the time of the lookup as [last_access]. When it returns
    [None], the index has no row for the text afterwards (a row whose file
    was missing has been removed), so that a second lookup misses again
    and changes nothing. *)
Theorem cached_audio_lookup_is_honest (text0 : string) (now : Q) (p : t) :
  List.NoDup (dict_keys (cache_index p)) ->
  let text_hash := _get_text_hash text0 p in
  let p' := fst (_get_cached_audio text0 now p) in
  cache_files p' = cache_files p
  /\ (forall k, k <> text_hash ->
                dict_get k (cache_index p') = dict_get k (cache_index p))
  /\ match snd (_get_cached_audio text0 now p) with
     | Some path =>
         exists file_info,
           dict_get text_hash (cache_index p) = Some file_info
           /\ filename file_info ∈ cache_files p
           /\ path = path_join (cache_dir p) (filename file_info)
           /\ dict_get text_hash (cache_index p')
              = Some (mkCacheInfo (text file_info) (filename file_info)
                        (created file_info) now (info_voice file_info)
                        (info_rate file_info) (info_volume file_info))
     | None =>
         dict_get text_hash (cache_index p') = None
         /\ forall later : Q, _get_cached_audio text0 later p' = (p', None)
     end.
Proof.
  intros Hnd. cbn zeta. unfold _get_cached_audio.
  set (h := _get_text_hash text0 p).
  destruct (dict_get h (cache_index p)) as [file_info|] eqn:Hg.
  - destruct (bool_decide_reflect (filename file_info ∈ cache_files p))
      as [Hin|Hni]; cbn [fst snd cache_files cache_index set_cache_index].
    + split_and!; [reflexivity | |].
      * intros k Hk. by apply dict_get_set_other.
      * exists file_info. split_and!; try done. apply dict_get_set_same.
    + assert (Hgone : dict_get h (dict_del h (cache_index p)) = None)
        by (by apply dict_get_del_same).
      split_and!; [reflexivity | | exact Hgone |].
      * intros k Hk. by apply dict_get_del_other.
      * intros later.
        change (_get_text_hash text0 (set_cache_index _ p)) with h.
        cbn [cache_index set_cache_index]. by rewrite Hgone.
  - cbn [fst snd]. split_and!; try done.
    intros later. fold h. by rewrite Hg.
Qed.

Lemma tts_evict_entry_index (k : string) (info : CacheInfo) (p : t) :
  (forall f : string, unlink_raises f = false) ->
  cache_index (evict_entry k info p) = dict_del k (cache_index p)
  /\ (forall f, f ∈ cache_files (evict_entry k info p)
                <-> f ∈ cache_files p /\ f <> filename info)
  /\ cache_dir (evict_entry k info p) = cache_dir p
  /\ voice (evict_entry k info p) = voice p
  /\ rate (evict_entry k info p) = rate p
  /\ volume (evict_entry k info p) = volume p.
Proof.
  intros Hunlink. unfold evict_entry. rewrite Hunlink.
  destruct (bool_decide_reflect (filename info ∈ cache_files p)) as [Hin|Hni];
    cbn [cache_index cache_files set_cache_index set_cache_files cache_dir
         voice rate volume]; split_and!; try reflexivity.
  - intros f. by rewrite elem_of_difference, elem_of_singleton.
  - intros f. split; [intros Hf; split; [exact Hf | by intros ->] | tauto].
Qed.

(** The clean-up that follows the insertion of a row at least as recently
    used as every other. *)
Lemma tts_cleanup_keeps_newest_row (p : t) (d : list (string * CacheInfo))
    (h : string) (info : CacheInfo) :
  (forall f : string, unlink_raises f = false) ->
  cache_index p = dict_set h info d ->
  List.NoDup (dict_keys d) ->
  len d <= max_cache_files p ->
  1 <= max_cache_files p ->
  (forall k v, In (k, v) d -> (last_access v <= last_access info)%Q) ->
  exists p',
    _cleanup_cache p = Returns p'
    /\ cache_dir p' = cache_dir p
    /\ voice p' = voice p /\ rate p' = rate p /\ volume p' = volume p
    /\ dict_get h (cache_index p') = Some info
    /\ forall f,
         f ∈ cache_files p ->
         (forall k v, In (k, v) d -> k <> h -> filename v <> f) ->
         f ∈ cache_files p'.
Proof.
  intros Hunlink Hidx Hnd Hlen Hmax Hnew. unfold _cleanup_cache.
  destruct (Z.leb_spec (len (cache_index p)) (max_cache_files p)) as [Hle|Hgt].
  - exists p. split_and!; try done. rewrite Hidx. apply dict_get_set_same.
  - assert (Hni : ~ In h (dict_keys d)).
    { intros Hin. rewrite Hidx in Hgt. unfold len in *.
      rewrite dict_set_old_length in Hgt by assumption. lia. }
    rewrite Hidx, dict_set_new by assumption.
    assert (Hn : Z.to_nat (len (d ++ [(h, info)]) - max_cache_files p) = 1%nat).
    { rewrite Hidx, dict_set_new in Hgt by assumption.
      unfold len in *. rewrite length_app in *. cbn [length] in *. lia. }
    rewrite Hn.
    rewrite sorted_by_time_app_last
      by (intros [k v] Hy; cbn [snd]; by apply (Hnew k v)).
    pose proof (sorted_by_time_perm (fun x => last_access (snd x)) d) as Hperm.
    destruct (sorted_by_time (fun x => last_access (snd x)) d)
      as [|[ky vy] rest] eqn:Hs.
    { apply Permutation_length in Hperm. cbn [length] in Hperm.
      rewrite Hidx, dict_set_new in Hgt by assumption.
      unfold len in *. rewrite length_app in *. cbn [length] in *. lia. }
    assert (Hy : In (ky, vy) d)
      by (eapply Permutation_in; [exact Hperm | by left]).
    assert (Hky : ky <> h).
    { intros ->. apply Hni. unfold dict_keys. apply in_map_iff.
      by exists (h, vy). }
    cbn [app evict_oldest]. eexists. split; [reflexivity |].
    destruct (tts_evict_entry_index ky vy p Hunlink)
      as (Hi & Hf & Hd & Hv & Hr & Hvol).
    split_and!; try assumption.
    + rewrite Hi, Hidx. rewrite dict_get_del_other by congruence.
      apply dict_get_set_same.
    + intros f Hfile Hother. apply Hf. split; [exact Hfile |].
      intros ->. by apply (Hother ky vy).
Qed.

(** X23. Cache, then look up. Let the limit be at least one, the index
    within the limit with distinct keys, no row used later than the clock,
    and no row of another text with the name of the new file; let the copy
    succeed and deleting never raise. Then [_cache_audio] returns the path
    of the cached file, and every later [_get_cached_audio] of the same
    text returns that same path and leaves the directory as it is: the text
    is not synthesised again. *)
Theorem cached_audio_is_found_again (text0 audio_path : string)
    (timestamp : Z) (p : t) :
  (forall f : string, unlink_raises f = false) ->
  copy2_raises audio_path
    (path_join (cache_dir p)
       (cache_filename timestamp (_get_text_hash text0 p))) = false ->
  List.NoDup (dict_keys (cache_index p)) ->
  len (cache_index p) <= max_cache_files p ->
  1 <= max_cache_files p ->
  (forall k v, In (k, v) (cache_index p) ->
               (last_access v <= inject_Z timestamp)%Q) ->
  (forall k v, In (k, v) (cache_index p) -> k <> _get_text_hash text0 p ->
               filename v <> cache_filename timestamp (_get_text_hash text0 p)) ->
  let cached_path :=
    path_join (cache_dir p)
      (cache_filename timestamp (_get_text_hash text0 p)) in
  let p1 := fst (_cache_audio text0 audio_path timestamp p) in
  snd (_cache_audio text0 audio_path timestamp p) = cached_path
  /\ cache_filename timestamp (_get_text_hash text0 p) ∈ cache_files p1
  /\ forall now : Q,
       snd (_get_cached_audio text0 now p1) = Some cached_path
       /\ cache_files (fst (_get_cached_audio text0 now p1)) = cache_files p1
       /\ forall w : Synthesis,
            snd (_synthesize_chunk text0 w p1) = Some cached_path
            /\ cache_files (fst (_synthesize_chunk text0 w p1))
               = cache_files p1.
Proof.
  intros Hunlink Hcopy Hnd Hlen Hmax Hnew Hnames. cbn zeta.
  unfold _cache_audio. rewrite Hcopy.
  set (h := _get_text_hash text0 p) in *.
  set (fname := cache_filename timestamp h) in *.
  cbn [voice rate volume cache_index set_cache_files].
  match goal with
  | |- context [dict_set h ?i _] => set (info := i)
  end.
  match goal with
  | |- context [_cleanup_cache ?x] => set (p0 := x)
  end.
  destruct (tts_cleanup_keeps_newest_row p0 (cache_index p) h info)
    as (p1 & -> & Hd1 & Hv1 & Hr1 & Hvol1 & Hget & Hf1);
    [exact Hunlink | reflexivity | exact Hnd | exact Hlen | exact Hmax
     | intros k v Hin; by apply (Hnew k v) |].
  cbn [fst snd].
  assert (Hfile : fname ∈ cache_files p1).
  { apply Hf1.
    - subst p0. cbn [cache_files set_cache_index set_cache_files].
      apply elem_of_union_l. by apply elem_of_singleton.
    - intros k v Hin Hk. by apply (Hnames k v). }
  assert (Hh1 : _get_text_hash text0 p1 = h).
  { unfold _get_text_hash. rewrite Hv1, Hr1, Hvol1. reflexivity. }
  assert (Hlook : forall now : Q,
             snd (_get_cached_audio text0 now p1)
             = Some (path_join (cache_dir p) fname)
             /\ cache_files (fst (_get_cached_audio text0 now p1))
                = cache_files p1).
  { intros now. unfold _get_cached_audio. rewrite Hh1, Hget.
    cbn [filename info].
    rewrite bool_decide_eq_true_2 by exact Hfile.
    cbn [fst snd cache_files set_cache_index]. rewrite Hd1. by split. }
  split_and!; [reflexivity | exact Hfile |].
  intros now. destruct (Hlook now) as [Hs Hf]. split_and!; try assumption.
  intros w. unfold _synthesize_chunk.
  destruct (Hlook (lookup_time w)) as [Hs' Hf'].
  destruct (_get_cached_audio text0 (lookup_time w) p1) as [p2 res].
  cbn [fst snd] in Hs', Hf'. subst res. by split.
Qed.

End TtsFacts.

Section TtsConsistency.
Import TTSProcessor.
Context `{World}.

Lemma consistent_evict_entry (k : string) (info : CacheInfo) (p : t) :
  consistent p -> In (k, info) (cache_index p) ->
  consistent (evict_entry k info p).
Proof.
  intros (Hnd & Hnf & Hiff) Hin. unfold evict_entry.
  assert (Hfile : filename info ∈ cache_files p).
  { apply Hiff. apply in_map_iff. by exists (k, info). }
  rewrite bool_decide_eq_true_2 by exact Hfile.
  destruct (unlink_raises (filename info)); [by split_and! |].
  destruct (dict_del_split k info (cache_index p) Hnd Hin)
    as (d1 & d2 & Hd & Hdel).
  unfold consistent.
  cbn [cache_index cache_files set_cache_index set_cache_files].
  rewrite Hdel. rewrite Hd, map_app in Hnf, Hiff. cbn [map snd] in Hnf, Hiff.
  pose proof (NoDup_remove _ _ _ Hnf) as [Hnf' Hni].
  split_and!.
  - rewrite <- Hdel. by apply dict_del_NoDup.
  - by rewrite map_app.
  - intros f. rewrite elem_of_difference, elem_of_singleton, Hiff, map_app.
    rewrite !in_app_iff. cbn [In]. rewrite in_app_iff in Hni. split.
    + intros [[Hf|[Hf|Hf]] Hne]; [by left | congruence | by right].
    + intros [Hf|Hf]; (split; [tauto | intros ->; tauto]).
Qed.

Lemma consistent_evict_oldest (n : nat) (items : list (string * CacheInfo))
    (p : t) :
  consistent p ->
  (forall x, In x items -> In x (cache_index p)) ->
  List.NoDup (map fst items) ->
  consistent (state (evict_oldest n items p)).
Proof.
  revert items p. induction n as [|n IH]; intros items p Hc Hin Hnd;
    [exact Hc |].
  destruct items as [|[k info] items]; [exact Hc |].
  cbn [evict_oldest]. cbn [map fst] in Hnd.
  apply List.NoDup_cons_iff in Hnd as [Hk Hnd].
  apply IH; [| | exact Hnd].
  - apply consistent_evict_entry; [exact Hc | apply Hin; by left].
  - intros [k0 v0] Hx.
    assert (Hne : k0 <> k).
    { intros ->. apply Hk. apply in_map_iff. by exists (k, v0). }
    specialize (Hin (k0, v0) ltac:(by right)).
    unfold evict_entry.
    destruct (bool_decide (filename info ∈ cache_files p));
      [destruct (unlink_raises (filename info)); [exact Hin |] |];
      cbn [cache_index set_cache_index set_cache_files];
      by apply dict_del_other.
Qed.

Lemma consistent_cleanup (p : t) :
  consistent p -> consistent (state (_cleanup_cache p)).
Proof.
  intros Hc. unfold _cleanup_cache.
  destruct (len (cache_index p) <=? max_cache_files p); [exact Hc |].
  pose proof (sorted_by_time_perm (fun x => last_access (snd x))
                (cache_index p)) as Hperm.
  apply consistent_evict_oldest; [exact Hc | |].
  - intros x Hx. eapply Permutation_in; [exact Hperm | exact Hx].
  - destruct Hc as (Hnd & _).
    eapply Permutation_NoDup; [| exact Hnd].
    symmetry. by apply Permutation_map.
Qed.

Lemma consistent_lookup (text0 : string) (now : Q) (p : t) :
  consistent p ->
  consistent (fst (_get_cached_audio text0 now p))
  /\ (snd (_get_cached_audio text0 now p) = None ->
      fst (_get_cached_audio text0 now p) = p
      /\ ~ In (_get_text_hash text0 p) (dict_keys (cache_index p))).
Proof.
  intros (Hnd & Hnf & Hiff). unfold _get_cached_audio.
  set (h := _get_text_hash text0 p).
  destruct (dict_get h (cache_index p)) as [info|] eqn:Hg.
  - assert (Hin : In (h, info) (cache_index p)) by (by apply dict_get_In).
    assert (Hfile : filename info ∈ cache_files p).
    { apply Hiff. apply in_map_iff. by exists (h, info). }
    rewrite bool_decide_eq_true_2 by exact Hfile. cbn [fst snd].
    split; [| discriminate].
    match goal with
    | |- context [dict_set h ?i _] => set (info' := i)
    end.
    destruct (dict_set_split h info info' (cache_index p) Hnd Hin)
      as (d1 & d2 & Hd & Hset).
    unfold consistent. cbn [cache_index cache_files set_cache_index].
    rewrite Hset. rewrite Hd in Hnd, Hnf, Hiff.
    unfold dict_keys in *. rewrite !map_app in *. cbn [map fst snd] in *.
    by split_and!.
  - cbn [fst snd]. split; [by split_and! |]. intros _.
    split; [reflexivity | by apply dict_get_None].
Qed.

Lemma consistent_cache_audio (text0 audio_path : string) (timestamp : Z)
    (p : t) :
  consistent p ->
  ~ In (_get_text_hash text0 p) (dict_keys (cache_index p)) ->
  ~ In (cache_filename timestamp (_get_text_hash text0 p))
      (map (fun row => filename (snd row)) (cache_index p)) ->
  consistent (fst (_cache_audio text0 audio_path timestamp p)).
Proof.
  intros (Hnd & Hnf & Hiff) Hkey Hname. unfold _cache_audio.
  destruct (copy2_raises _ _); [by split_and! |].
  set (h := _get_text_hash text0 p) in *.
  set (fname := cache_filename timestamp h) in *.
  cbn [voice rate volume cache_index set_cache_files].
  match goal with
  | |- context [dict_set h ?i _] => set (info := i)
  end.
  match goal with
  | |- context [_cleanup_cache ?x] => set (p0 := x)
  end.
  assert (Hc0 : consistent p0).
  { subst p0. unfold consistent.
    cbn [cache_index cache_files set_cache_index set_cache_files].
    rewrite dict_set_new by exact Hkey.
    unfold dict_keys in *. rewrite !map_app. cbn [map fst snd filename info].
    split_and!.
    - apply List.NoDup_app; [exact Hnd | repeat constructor; simpl; tauto |].
      intros x Hx [<-|[]]. contradiction.
    - apply List.NoDup_app; [exact Hnf | repeat constructor; simpl; tauto |].
      intros x Hx [<-|[]]. contradiction.
    - intros f. rewrite elem_of_union, elem_of_singleton, Hiff, in_app_iff.
      cbn [In]. split; [intros [->|Hf]; [right; by left | by left] |].
      intros [Hf|[<-|[]]]; [by right | by left]. }
  pose proof (consistent_cleanup p0 Hc0) as Hc.
  by destruct (_cleanup_cache p0).
Qed.

Lemma consistent_request (p : t) (x : string * Synthesis) :
  consistent p ->
  ~ In (cache_filename (cache_time (snd x)) (_get_text_hash (fst x) p))
      (map (fun row => filename (snd row)) (cache_index p)) ->
  consistent (request p x).
Proof.
  intros Hc Hname. unfold request, _synthesize_chunk.
  destruct (consistent_lookup (fst x) (lookup_time (snd x)) p Hc)
    as [Hc1 Hmiss].
  destruct (_get_cached_audio (fst x) (lookup_time (snd x)) p) as [p1 [path|]];
    cbn [fst snd] in *; [exact Hc1 |].
  destruct (Hmiss eq_refl) as [-> Hkey].
  destruct (temp_path (snd x)) as [temp|]; [| exact Hc].
  pose proof (consistent_cache_audio (fst x) temp (cache_time (snd x)) p Hc
                Hkey Hname) as Hc2.
  by destruct (_cache_audio (fst x) temp (cache_time (snd x)) p).
Qed.

(** X24. The cache of the synthesiser leaves no file without a row. Start
    from a cache in which the keys are distinct, the file names are
    distinct, and the files of the directory are exactly the files of the
    rows. Then after any run of [_synthesize_chunk] in which no insertion
    reuses the file name of a row, the same holds again: every file of the
    cache directory is the file of exactly one row, and every row has its
    file. This needs no assumption on the limit, on [unlink] or on
    [shutil.copy2]. *)
Theorem synthesiser_cache_has_no_orphans (p : t)
    (xs : list (string * Synthesis)) :
  consistent p ->
  names_fresh p xs ->
  let p' := request_run p xs in
  List.NoDup (dict_keys (cache_index p'))
  /\ List.NoDup (map (fun row => filename (snd row)) (cache_index p'))
  /\ forall f : string,
       f ∈ cache_files p'
       <-> exists k info, In (k, info) (cache_index p') /\ filename info = f.
Proof.
  intros Hc Hfresh. cbn zeta.
  assert (Hrun : consistent (request_run p xs)).
  { revert p Hc Hfresh. induction xs as [|x xs IH]; intros p Hc Hfresh;
      [exact Hc |].
    destruct Hfresh as [Hname Hrest].
    change (request_run p (x :: xs)) with (request_run (request p x) xs).
    apply IH; [by apply consistent_request | exact Hrest]. }
  destruct Hrun as (Hnd & Hnf & Hiff). split_and!; [exact Hnd | exact Hnf |].
  intros f. rewrite Hiff, in_map_iff. split.
  - intros ([k info] & Hf & Hin). by exists k, info.
  - intros (k & info & Hin & Hf). by exists (k, info).
Qed.

End TtsConsistency.

(** *** Least recently used *)

Section SortedByTimeOrder.
Context {A : Type} (key : A -> Q).

Lemma insert_by_time_sorted (x : A) (l : list A) :
  StronglySorted (fun a b => (key a <= key b)%Q) l ->
  StronglySorted (fun a b => (key a <= key b)%Q) (insert_by_time key x l).
Proof.
  induction 1 as [|y l Hs IH Hy]; simpl; [repeat constructor |].
  destruct (Qle_bool (key x) (key y)) eqn:E.
  - apply Qle_bool_iff in E.
    constructor; [by constructor |]. constructor; [exact E |].
    eapply List.Forall_impl; [| exact Hy]. cbn beta. intros a Ha.
    by eapply Qle_trans.
  - constructor; [exact IH |].
    eapply Permutation_Forall; [symmetry; apply insert_by_time_perm |].
    constructor; [| exact Hy].
    destruct (Qlt_le_dec (key y) (key x)) as [Hlt|Hle].
    + by apply Qlt_le_weak.
    + apply Qle_bool_iff in Hle. congruence.
Qed.

Lemma sorted_by_time_sorted (l : list A) :
  StronglySorted (fun a b => (key a <= key b)%Q) (sorted_by_time key l).
Proof.
  induction l as [|x l IH]; simpl; [constructor |].
  by apply insert_by_time_sorted.
Qed.

(** The first element of the sorted list has the least key. *)
Lemma sorted_by_time_head (l rest : list A) (y x : A) :
  sorted_by_time key l = y :: rest -> In x l -> (key y <= key x)%Q.
Proof.
  intros Hs Hx. pose proof (sorted_by_time_sorted l) as Hsorted.
  pose proof (sorted_by_time_perm key l) as Hperm. rewrite Hs in *.
  apply (Permutation_in _ (Permutation_sym Hperm)) in Hx.
  destruct Hx as [<-|Hx]; [apply Qle_refl |].
  inversion Hsorted as [|? ? _ Hy]; subst.
  rewrite List.Forall_forall in Hy. by apply Hy.
Qed.

End SortedByTimeOrder.

Lemma NoDup_map_inj_in {A B} (f : A -> B) (l : list A) (x y : A) :
  List.NoDup (map f l) -> In x l -> In y l -> f x = f y -> x = y.
Proof.
  induction l as [|a l IH]; simpl; [tauto |].
  intros Hnd. apply List.NoDup_cons_iff in Hnd as [Hni Hnd].
  intros [->|Hx] [->|Hy] Hf.
  - reflexivity.
  - exfalso. apply Hni. rewrite Hf. by apply in_map.
  - exfalso. apply Hni. rewrite <- Hf. by apply in_map.
  - by apply IH.
Qed.

Section LeastRecentlyUsed.
Import TTSProcessor.
Context `{World}.

(** X28. A text that has just been used is not the next to go. Let the
    cache be consistent and within its limit, let a lookup of text A hit at
    time [now], and let some other row have been used strictly before
    [now]. If a new text B is then cached at a clock that is not behind
    (under a fresh key and a fresh file name, the copy succeeding, deleting
    never raising), the row that the insertion may evict is not that of A:
    a later lookup of A returns the same path again. *)
Theorem recently_used_audio_survives_the_next_insertion
    (text_a text_b audio_path path_a : string) (now later : Q)
    (timestamp : Z) (p : t) :
  (forall f : string, unlink_raises f = false) ->
  consistent p ->
  len (cache_index p) <= max_cache_files p ->
  snd (_get_cached_audio text_a now p) = Some path_a ->
  (exists k v, In (k, v) (cache_index p)
               /\ k <> _get_text_hash text_a p
               /\ (last_access v < now)%Q) ->
  ~ In (_get_text_hash text_b p) (dict_keys (cache_index p)) ->
  ~ In (cache_filename timestamp (_get_text_hash text_b p))
      (map (fun row => filename (snd row)) (cache_index p)) ->
  (forall k v, In (k, v) (cache_index p) ->
               (last_access v <= inject_Z timestamp)%Q) ->
  (now <= inject_Z timestamp)%Q ->
  copy2_raises audio_path
    (path_join (cache_dir p)
       (cache_filename timestamp (_get_text_hash text_b p))) = false ->
  let p1 := fst (_get_cached_audio text_a now p) in
  let p2 := fst (_cache_audio text_b audio_path timestamp p1) in
  snd (_get_cached_audio text_a later p2) = Some path_a.
Proof.
  intros Hunlink (Hnd & Hnf & Hiff) Hlen Hhit (k0 & v0 & Hin0 & Hk0 & Hold)
    Hkey Hname Hclock Hnow Hcopy. cbn zeta.
  set (ha := _get_text_hash text_a p) in *.
  set (hb := _get_text_hash text_b p) in *.
  set (fname := cache_filename timestamp hb) in *.
  (* the hit *)
  unfold _get_cached_audio in Hhit |- * at 2. fold ha in Hhit |- *.
  destruct (dict_get ha (cache_index p)) as [info_a|] eqn:Hga;
    [| discriminate].
  assert (Hina : In (ha, info_a) (cache_index p)) by (by apply dict_get_In).
  assert (Hfa : filename info_a ∈ cache_files p).
  { apply Hiff. apply in_map_iff. by exists (ha, info_a). }
  rewrite bool_decide_eq_true_2 in Hhit |- * by exact Hfa.
  cbn [fst snd] in Hhit |- *. injection Hhit as <-.
  set (info_a' := mkCacheInfo (text info_a) (filename info_a)
                    (created info_a) now (info_voice info_a)
                    (info_rate info_a) (info_volume info_a)).
  set (d1 := dict_set ha info_a' (cache_index p)).
  set (p1 := set_cache_index d1 p).
  assert (Hnd1 : List.NoDup (dict_keys d1)) by (by apply dict_set_NoDup).
  assert (Hkeys1 : dict_keys d1 = dict_keys (cache_index p)).
  { apply dict_set_keys_old. by eapply dict_get_keys. }
  assert (Hab : ha <> hb).
  { intros Heq. apply Hkey. rewrite <- Heq. by eapply dict_get_keys. }
  (* the insertion *)
  unfold _cache_audio.
  change (_get_text_hash text_b p1) with hb.
  change (cache_dir p1) with (cache_dir p). fold fname. rewrite Hcopy.
  cbn [voice rate volume cache_index set_cache_files set_cache_index p1].
  match goal with
  | |- context [dict_set hb ?i d1] => set (info_b := i)
  end.
  match goal with
  | |- context [_cleanup_cache ?x] => set (p0 := x)
  end.
  assert (Hget0 : dict_get ha (cache_index p0) = Some info_a').
  { subst p0. cbn [cache_index set_cache_index].
    rewrite dict_get_set_other by exact Hab. apply dict_get_set_same. }
  assert (Hfile0 : filename info_a ∈ cache_files p0).
  { subst p0. cbn [cache_files set_cache_index set_cache_files].
    by apply elem_of_union_r. }
  assert (Hgoal : forall p2,
             cache_dir p2 = cache_dir p ->
             voice p2 = voice p -> rate p2 = rate p -> volume p2 = volume p ->
             dict_get ha (cache_index p2) = Some info_a' ->
             filename info_a ∈ cache_files p2 ->
             snd (_get_cached_audio text_a later p2)
             = Some (path_join (cache_dir p) (filename info_a))).
  { intros p2 Hd Hv Hr Hvol Hg Hf. unfold _get_cached_audio.
    assert (Hh : _get_text_hash text_a p2 = ha)
      by (unfold _get_text_hash, ha; by rewrite Hv, Hr, Hvol).
    rewrite Hh, Hg. cbn [filename info_a'].
    rewrite bool_decide_eq_true_2 by exact Hf. cbn [snd]. by rewrite Hd. }
  unfold _cleanup_cache.
  destruct (Z.leb_spec (len (cache_index p0)) (max_cache_files p0))
    as [Hle|Hgt]; cbn [fst].
  { by apply Hgoal. }
  (* one row is evicted: the least recently used *)
  assert (Hidx0 : cache_index p0 = d1 ++ [(hb, info_b)]).
  { subst p0. cbn [cache_index set_cache_index].
    apply dict_set_new. by rewrite Hkeys1. }
  assert (Hlen1 : length d1 = length (cache_index p)).
  { rewrite <- (length_map fst d1), <- (length_map fst (cache_index p)).
    unfold dict_keys in Hkeys1. by rewrite Hkeys1. }
  assert (Hn : Z.to_nat (len (cache_index p0) - max_cache_files p0) = 1%nat).
  { assert (Hmax0 : max_cache_files p0 = max_cache_files p) by reflexivity.
    rewrite Hidx0, Hmax0 in Hgt |- *.
    unfold len in *. rewrite length_app in *. cbn [length] in *. lia. }
  rewrite Hn, Hidx0.
  assert (Hla1 : forall k v, In (k, v) d1 ->
                             (last_access v <= inject_Z timestamp)%Q).
  { intros k v Hin. apply dict_set_In_new in Hin as [Hin|[= -> ->]];
      [by apply (Hclock k v) | exact Hnow]. }
  rewrite sorted_by_time_app_last
    by (intros [k v] Hy; cbn [snd last_access info_b]; by apply (Hla1 k v)).
  destruct (sorted_by_time (fun x => last_access (snd x)) d1)
    as [|[ky vy] rest] eqn:Hs.
  { pose proof (sorted_by_time_perm (fun x => last_access (snd x)) d1) as Hp.
    rewrite Hs in Hp. apply Permutation_length in Hp. cbn [length] in Hp.
    destruct (cache_index p); [destruct Hin0 | cbn [length] in Hlen1; lia]. }
  assert (Hy : In (ky, vy) d1).
  { eapply Permutation_in;
      [apply (sorted_by_time_perm (fun x => last_access (snd x))) |].
    rewrite Hs. by left. }
  assert (H0 : In (k0, v0) d1) by (by apply dict_set_In_old).
  assert (Hmin : (last_access vy <= last_access v0)%Q).
  { apply (sorted_by_time_head (fun x => last_access (snd x)) d1 rest
             (ky, vy) (k0, v0) Hs H0). }
  assert (Hky : ky <> ha).
  { intros ->.
    assert (Hvy : vy = info_a').
    { apply (NoDup_keys_unique d1 ha vy info_a' Hnd1 Hy). apply dict_set_has. }
    subst vy. cbn [last_access info_a'] in Hmin.
    apply (Qlt_not_le _ _ Hold). exact Hmin. }
  assert (Hyold : In (ky, vy) (cache_index p)).
  { apply dict_set_In_new in Hy as [Hy|[= Hk _]]; [exact Hy | contradiction]. }
  assert (Hfy : filename vy <> filename info_a).
  { intros Heq.
    assert (Hsame : (ky, vy) = (ha, info_a)).
    { apply (NoDup_map_inj_in (fun row => filename (snd row))
               (cache_index p)); assumption. }
    injection Hsame as Hk _. contradiction. }
  cbn [app evict_oldest fst].
  destruct (tts_evict_entry_index ky vy p0 Hunlink)
    as (Hi & Hf & Hd & Hv & Hr & Hvol).
  apply Hgoal; try assumption.
  - rewrite Hi, dict_get_del_other by congruence. exact Hget0.
  - apply Hf. split; [exact Hfile0 | congruence].
Qed.

End LeastRecentlyUsed.

Section FailedCaching.
Import TTSProcessor.
Context `{World}.

Lemma lookup_keeps_settings (text0 : string) (now : Q) (p : t) :
  let p1 := fst (_get_cached_audio text0 now p) in
  voice p1 = voice p /\ rate p1 = rate p /\ volume p1 = volume p
  /\ cache_dir p1 = cache_dir p /\ max_cache_files p1 = max_cache_files p.
Proof.
  cbn zeta. unfold _get_cached_audio.
  destruct (dict_get _ _); [destruct (bool_decide _) |]; by split_and!.
Qed.

(** A lookup that misses leaves no row for the text behind. *)
Lemma lookup_miss_is_stable (text0 : string) (now later : Q) (p : t) :
  List.NoDup (dict_keys (cache_index p)) ->
  snd (_get_cached_audio text0 now p) = None ->
  snd (_get_cached_audio text0 later (fst (_get_cached_audio text0 now p)))
  = None.
Proof.
  intros Hnd. unfold _get_cached_audio at 1 3.
  destruct (dict_get (_get_text_hash text0 p) (cache_index p))
    as [info|] eqn:Hg.
  - destruct (bool_decide (filename info ∈ cache_files p)); [discriminate |].
    intros _. cbn [fst]. unfold _get_cached_audio.
    change (_get_text_hash text0 (set_cache_index _ p))
      with (_get_text_hash text0 p).
    cbn [cache_index set_cache_index].
    by rewrite dict_get_del_same.
  - intros _. cbn [fst]. unfold _get_cached_audio. by rewrite Hg.
Qed.

(** X30. When the copy into the cache fails, the caller gets the path of
    the temporary file, which is removed before the return. Let the cache
    miss and the synthesis write a temporary file. If [shutil.copy2] raises,
    [_cache_audio] returns the temporary path, and [_synthesize_chunk]
    returns that very path after it has handed it to [os.unlink]; the index
    and the cache directory are as the lookup left them, so the next request
    for the text misses again. *)
Theorem failed_caching_returns_a_removed_file (text0 temp : string)
    (w : Synthesis) (p : t) :
  snd (_get_cached_audio text0 (lookup_time w) p) = None ->
  temp_path w = Some temp ->
  copy2_raises temp
    (path_join (cache_dir p)
       (cache_filename (cache_time w) (_get_text_hash text0 p))) = true ->
  snd (_synthesize_chunk text0 w p) = Some temp
  /\ temp_unlinked text0 w p = Some temp
  /\ fst (_synthesize_chunk text0 w p)
     = fst (_get_cached_audio text0 (lookup_time w) p)
  /\ (List.NoDup (dict_keys (cache_index p)) ->
      forall later : Q,
        snd (_get_cached_audio text0 later (fst (_synthesize_chunk text0 w p)))
        = None).
Proof.
  intros Hmiss Htemp Hcopy. unfold temp_unlinked. rewrite Hmiss, Htemp.
  assert (Hstate : _synthesize_chunk text0 w p
                   = (fst (_get_cached_audio text0 (lookup_time w) p),
                      Some temp)).
  { unfold _synthesize_chunk.
    destruct (lookup_keeps_settings text0 (lookup_time w) p)
      as (Hv & Hr & Hvol & Hd & _).
    destruct (_get_cached_audio text0 (lookup_time w) p) as [p1 res].
    cbn [fst snd] in *. subst res. rewrite Htemp.
    assert (Hh : _get_text_hash text0 p1 = _get_text_hash text0 p)
      by (unfold _get_text_hash; by rewrite Hv, Hr, Hvol).
    unfold _cache_audio. by rewrite Hh, Hd, Hcopy. }
  rewrite Hstate. cbn [fst snd]. split_and!; try reflexivity.
  intros Hnd later.
  intros; by apply lookup_miss_is_stable.
Qed.

End FailedCaching.

(** ** The text of a recognition *)













(** ** The further properties at concrete recorders *)

(** X1, at the recorder with a finalised utterance: a window of speech is
    not evaluated. *)
Lemma paused_blocks_are_discarded_witness :
  process_audio_buffer (heard_speech 12) finalised = finalised.
Proof.
  destruct (paused_blocks_are_discarded finalised) as [Hw _];
    [vm_compute; reflexivity | apply Hw].
Defined.

(** X2, at the fresh recorder of [main.py]: with a block size of 1024 at
    16 kHz, four blocks are not yet a window. *)
Lemma blocks_accumulate_to_a_window_witness :
  device_run (fresh 20) (map (fun x => DevBlock (fst x) (snd x)) four_blocks)
  = set_audio_buffer (map fst four_blocks) (fresh 20).
Proof.
  destruct (blocks_accumulate_to_a_window four_blocks slow_block
              (heard_speech 5) (fresh 20)) as [Hrun _];
    [vm_compute; first [reflexivity | discriminate] ..| exact Hrun].
Defined.

(** X3, at the slow device: the first block of speech is dropped, the second
    starts the utterance. *)
Lemma confirming_window_is_kept_witness :
  is_recording_speech (audio_callback slow_block (heard_speech 1) slow_fresh)
  = false
  /\ speech_segments
       (audio_callback slow_block (heard_speech 2)
          (audio_callback slow_block (heard_speech 1) slow_fresh))
     = [concat (audio_buffer slow_fresh ++ [slow_block; slow_block])].
Proof.
  destruct (confirming_window_is_kept slow_block slow_block
              (heard_speech 1) (heard_speech 2) slow_fresh)
    as (_ & H1 & _ & H2 & _);
    [vm_compute; first [reflexivity | discriminate] ..|].
  split; [exact H1 | exact H2].
Defined.

(** X4, at the recorder with a finalised utterance: the stop signal is queued
    behind it. *)
Lemma stop_recording_switches_off_witness :
  asr_queue (fst (stop_recording finalised)) = asr_queue finalised ++ [None].
Proof.
  destruct (stop_recording_switches_off finalised)
    as (_ & _ & _ & _ & Hon & _).
  destruct Hon as (_ & _ & [(_ & Hq & _) | (Hfull & _)]);
    [vm_compute; reflexivity | exact Hq |].
  exfalso. revert Hfull. vm_compute. intros [_ Hle]. by apply Hle.
Defined.

(** X5, at the stuck recorder: after a block, a window, a turn and a stop the
    gate is still closed. *)
Lemma closed_gate_without_work_stays_closed_witness :
  is_paused (system_run (H := reliable) stuck later_events) = true.
Proof.
  destruct (closed_gate_without_work_stays_closed (H := reliable)
              stuck later_events) as [Hp _];
    [vm_compute; reflexivity | vm_compute; reflexivity | exact Hp].
Defined.

(** X6, at the recorder without recognition: the utterance ends, the gate
    closes and nothing is queued. *)
Lemma disabled_recognition_closes_the_gate_for_good_witness :
  is_paused (process_audio_buffer (heard_silence 10) record_only_at_end) = true
  /\ asr_queue (process_audio_buffer (heard_silence 10) record_only_at_end)
     = asr_queue record_only_at_end.
Proof.
  edestruct (disabled_recognition_closes_the_gate_for_good (H := reliable)
               (heard_silence 10) record_only_at_end)
    with (es := later_events) as (Hp & Hq & _);
    [vm_compute; reflexivity | vm_compute; reflexivity
     | vm_compute; reflexivity | vm_compute; reflexivity
     | vm_compute; discriminate | split; [exact Hp | exact Hq]].
Defined.

(** X9, at the configuration of [main.py] with a limit of -1: the recorder
    cannot be built. *)
Lemma negative_cache_limit_breaks_the_cache_witness :
  exists r' : AudioRecorder,
    init (H := reliable) (main_config 20 (-1)) true true [] ∅ 0%Q
    = Raised (mkExc IndexError "list index out of range") r'.
Proof.
  destruct (negative_cache_limit_breaks_the_cache (H := reliable)
              (main_config 20 (-1)) true true [] ∅ 0%Q) as [Hinit _];
    [vm_compute; reflexivity | exact Hinit].
Defined.

(** X10, at the crowded cache: the clean-up returns. *)
Lemma evicted_rows_lose_their_files_witness :
  exists r' : AudioRecorder,
    _cleanup_recording_cache (H := reliable) crowded = Done r'.
Proof.
  destruct (evicted_rows_lose_their_files (H := reliable)) with (r := crowded)
    as (r' & Hr' & _).
  - intros f. reflexivity.
  - vm_compute. discriminate.
  - repeat constructor; cbn; intuition discriminate.
  - by exists r'.
Defined.

(** X11, at the fresh recorder: the clip saved at second 100 is in the cache
    directory. *)
Lemma saved_recording_is_found_witness :
  recording_filename 100 (md5_hexdigest (External := reliable) clip)
  ∈ cache_files
      (fst (_save_recording_file (H := reliable) clip (Some "hello") 100
              (fresh 20))).
Proof.
  destruct (saved_recording_is_found (H := reliable)) with
    (c := main_config 20 5) (r := fresh 20) (audio_data := clip)
    (t := "hello") (timestamp := 100) as (_ & Hfile & _).
  - intros f. reflexivity.
  - reflexivity.
  - split_and!; [reflexivity | constructor | vm_compute; discriminate].
  - vm_compute. discriminate.
  - reflexivity.
  - vm_compute. discriminate.
  - eexists. vm_compute. reflexivity.
  - discriminate.
  - intros k v Hin. vm_compute in Hin. destruct Hin.
  - intros k v Hin. vm_compute in Hin. destruct Hin.
  - exact Hfile.
Defined.


(** X13, at the fresh recorder: the put is counted. *)
Lemma put_outcome_witness :
  match snd first_put with
  | None => recording_stats (fst first_put) = recording_stats (fresh 20)
  | Some _ =>
      total_recordings (recording_stats (fst first_put))
      = total_recordings (recording_stats (fresh 20)) + 1
  end.
Proof.
  pose proof (put_outcome (H := reliable)) as Hput.
  specialize (Hput ltac:(intros f; reflexivity) (fresh 20) clip (Some "hello")
                100).
  cbn zeta in Hput. unfold first_put.
  destruct (snd (_save_recording_file (H := reliable) clip (Some "hello") 100
                   (fresh 20))).
  - apply Hput; [vm_compute; discriminate | constructor].
  - apply Hput; [vm_compute; discriminate | constructor].
Defined.

(** X19, at the manager with one record and room for two: the second record
    is created under the next id. *)
Lemma create_conversation_record_keeps_the_limit_witness :
  exists index',
    ConversationManager.create_conversation_record "how are you" "fine" None
      None 200 "2024-05-01 10:01:40" manager
    = (ConversationManager.Returns
         (ConversationManager.mk
            (ConversationManager.max_conversations manager) index'
            (ConversationManager.conversation_counter manager + 1)),
       Some (ConversationManager.conversation_id_of
               (ConversationManager.conversation_counter manager)))
    /\ len index' <= ConversationManager.max_conversations manager.
Proof.
  destruct (create_conversation_record_keeps_the_limit "how are you" "fine"
              None None 200 "2024-05-01 10:01:40" manager) as [Hok _].
  - repeat constructor; cbn; intuition discriminate.
  - destruct Hok as (index' & Heq & Hlen & _); [vm_compute; discriminate |].
    exists index'. by split.
Defined.

(** X20, at the same manager: the record created at second 200 can be got
    under its id. *)
Lemma created_record_can_be_got_and_updated_witness :
  ConversationManager.get_conversation_record
    (ConversationManager.conversation_id_of
       (ConversationManager.conversation_counter manager))
    (ConversationManager.state
       (fst (ConversationManager.create_conversation_record "how are you"
               "fine" None None 200 "2024-05-01 10:01:40" manager)))
  = Some (ConversationManager.mkConversationRecord
            (ConversationManager.conversation_id_of
               (ConversationManager.conversation_counter manager))
            200 "2024-05-01 10:01:40" "how are you" "fine" None None false).
Proof.
  destruct (created_record_can_be_got_and_updated "how are you" "fine" None
              200 "2024-05-01 10:01:40" manager) as (_ & Hget & _).
  - vm_compute. discriminate.
  - repeat constructor; cbn; intuition discriminate.
  - vm_compute. intros [Heq|[]]. discriminate Heq.
  - intros k v [[= <- <-]|[]]. vm_compute. discriminate.
  - exact Hget.
Defined.

(** X21, at the same manager: after two requests the next id is free. *)
Lemma conversation_ids_are_fresh_witness :
  ~ In (ConversationManager.conversation_id_of
          (ConversationManager.conversation_counter
             (ConversationManager.create_run manager two_requests)))
      (dict_keys
         (ConversationManager.conversation_index
            (ConversationManager.create_run manager two_requests))).
Proof.
  destruct (conversation_ids_are_fresh read_seven 2 one_conversation
              two_requests) as (Hfresh & _).
  - lia.
  - repeat constructor; cbn; intuition discriminate.
  - intros k [<-|[]]. exists 7. split; reflexivity.
  - exact Hfresh.
Defined.

(** X22, at the empty cache: a lookup deletes nothing. *)
Lemma cached_audio_lookup_is_honest_witness :
  TTSProcessor.cache_files
    (fst (TTSProcessor._get_cached_audio (H := tts_world) "hello" 100
            empty_cache))
  = TTSProcessor.cache_files empty_cache.
Proof.
  destruct (cached_audio_lookup_is_honest (H := tts_world) "hello" 100
              empty_cache) as (Hfiles & _); [constructor | exact Hfiles].
Defined.

(** X23, at the empty cache: the file of the text cached at second 100 is in
    the directory. *)
Lemma cached_audio_is_found_again_witness :
  TTSProcessor.cache_filename 100
    (TTSProcessor._get_text_hash (H := tts_world) "hello" empty_cache)
  ∈ TTSProcessor.cache_files
      (fst (TTSProcessor._cache_audio (H := tts_world) "hello"
              "/tmp/tts_temp_100000.wav" 100 empty_cache)).
Proof.
  destruct (cached_audio_is_found_again (H := tts_world) "hello"
              "/tmp/tts_temp_100000.wav" 100 empty_cache) as (_ & Hfile & _).
  - intros f. reflexivity.
  - reflexivity.
  - constructor.
  - vm_compute. discriminate.
  - vm_compute. discriminate.
  - intros k v [].
  - intros k v [].
  - exact Hfile.
Defined.

(** X24, at the empty cache: after one request the keys are distinct. *)
Lemma synthesiser_cache_has_no_orphans_witness :
  List.NoDup
    (dict_keys
       (TTSProcessor.cache_index
          (TTSProcessor.request_run (H := tts_world) empty_cache
             [first_request]))).
Proof.
  destruct (synthesiser_cache_has_no_orphans (H := tts_world) empty_cache
              [first_request]) as (Hnd & _).
  - split_and!; [constructor | constructor |].
    intros f. split; [intros Hf; by apply elem_of_empty in Hf | intros []].
  - split; [intros [] | exact I].
  - exact Hnd.
Defined.

(** X28, at the cache with two texts and room for two: "hello" is used at
    second 100, "bye" is cached at second 200 and takes the place of "good
    morning"; "hello" is still found. *)
Lemma recently_used_audio_survives_the_next_insertion_witness :
  snd (TTSProcessor._get_cached_audio (H := tts_world) "hello" 300
         (fst (TTSProcessor._cache_audio (H := tts_world) "bye"
                 "/tmp/tts_temp_200000.wav" 200
                 (fst (TTSProcessor._get_cached_audio (H := tts_world) "hello"
                         100 two_texts)))))
  = Some "tts_cache/tts_50_t34.wav".
Proof.
  apply (recently_used_audio_survives_the_next_insertion (H := tts_world)
           "hello" "bye" "/tmp/tts_temp_200000.wav" "tts_cache/tts_50_t34.wav"
           100 300 200 two_texts).
  - intros f. reflexivity.
  - split_and!.
    + repeat constructor; cbn; intuition discriminate.
    + repeat constructor; cbn; intuition discriminate.
    + intros f. cbn [TTSProcessor.cache_files two_texts TTSProcessor.cache_index
                     map snd TTSProcessor.filename hello_row morning_row].
      rewrite elem_of_union, !elem_of_singleton. cbn [In]. intuition.
  - vm_compute. discriminate.
  - vm_compute. reflexivity.
  - exists "t41", morning_row. split_and!.
    + right. by left.
    + vm_compute. discriminate.
    + vm_compute. reflexivity.
  - vm_compute. intuition discriminate.
  - vm_compute. intuition discriminate.
  - intros k v [[= <- <-]|[[= <- <-]|[]]]; vm_compute; discriminate.
  - vm_compute. discriminate.
  - reflexivity.
Defined.

(** X29, at the quiet window: the detector hears speech in everything, and
    still the counter stays at zero. *)
Lemma quiet_window_is_no_speech_candidate_witness :
  consecutive_speech_count
    (process_audio_buffer (mkObservation false 0 0 (257 # 32768) 1)
       quiet_window)
  = 0.
Proof.
  edestruct (quiet_window_is_no_speech_candidate always_speech 1 quiet_window)
    as [_ Hquiet]; [vm_compute; reflexivity |].
  apply Hquiet; [| vm_compute; reflexivity].
  intros s Hs. vm_compute in Hs. left.
  destruct Hs as [<-|[<-|[<-|[<-|[]]]]]; vm_compute; reflexivity.
Defined.

(** X30, at the empty cache when nothing can be copied: the request returns
    the temporary path. *)
Lemma failed_caching_returns_a_removed_file_witness :
  snd (TTSProcessor._synthesize_chunk (H := no_copy_world) "hello"
         (snd first_request) empty_cache)
  = Some "/tmp/tts_temp_100000.wav".
Proof.
  destruct (failed_caching_returns_a_removed_file (H := no_copy_world) "hello"
              "/tmp/tts_temp_100000.wav" (snd first_request) empty_cache)
    as [Hpath _]; [reflexivity | reflexivity | reflexivity | exact Hpath].
Defined.
